(** * ArxivSummarizer: the fetch / filter / download pipeline

    A shallow embedding of [downloader.py] and [util/pdftext.py].

    Python [str] values are lists of code points below 256; [int] is [Z];
    a naive [datetime] is the record of its seven fields.  Library calls
    that touch the outside world ([requests.get], [open], [os.makedirs],
    [datetime.now], the scheduling of the thread pool) are answered by an
    environment of oracles that may depend on everything that happened
    before; every such call leaves an event in the run's trace.  Python
    exceptions are values of [exn]; a function that may raise returns a
    [res]. *)

From Stdlib Require Import String.
From Stdlib Require Import List ZArith Lia Bool Ascii Permutation.
From Stdlib Require DecimalString.
Import ListNotations.
Local Open Scope Z_scope.

(** ** Strings *)

Definition str := list ascii.

Definition lit (s : String.string) : str := String.list_ascii_of_string s.
Arguments lit s%_string.

Definition ord (c : ascii) : Z := Z.of_N (N_of_ascii c).

Definition chr (n : Z) : ascii := ascii_of_N (Z.to_N n).

Definition between (lo hi n : Z) : bool := (lo <=? n) && (n <=? hi).

(** [str.isspace] on one code point, which is also [\s] of [re]. *)
Definition isspace (c : ascii) : bool :=
  let n := ord c in
  between 9 13 n || between 28 32 n || (n =? 133) || (n =? 160).

(** [\d] of [re]: the decimal digits. *)
Definition isdecimal (c : ascii) : bool := between 48 57 (ord c).

(** [\w] of [re]: alphanumeric code points and the underscore. *)
Definition isword (c : ascii) : bool :=
  let n := ord c in
  between 48 57 n || between 65 90 n || between 97 122 n || (n =? 95)
  || (n =? 170) || between 178 179 n || (n =? 181) || between 185 186 n
  || between 188 190 n || between 192 214 n || between 216 246 n
  || between 248 255 n.

(** [str.lower] on one code point. *)
Definition lower_char (c : ascii) : ascii :=
  let n := ord c in
  if between 65 90 n || between 192 214 n || between 216 222 n
  then chr (n + 32) else c.

Definition lower (s : str) : str := map lower_char s.

Definition ascii_eqb (a b : ascii) : bool := Ascii.eqb a b.

Fixpoint str_eqb (a b : str) : bool :=
  match a, b with
  | [], [] => true
  | x :: a', y :: b' => ascii_eqb x y && str_eqb a' b'
  | _, _ => false
  end.

(** [s.startswith(p)], returning what follows the prefix. *)
Fixpoint strip_prefix (p s : str) : option str :=
  match p, s with
  | [], _ => Some s
  | x :: p', y :: s' => if ascii_eqb x y then strip_prefix p' s' else None
  | _ :: _, [] => None
  end.

Definition startswith (s p : str) : bool :=
  match strip_prefix p s with Some _ => true | None => false end.

(** [s.find(sub)]: the lowest index where [sub] occurs, or -1. *)
Fixpoint find_from (sub s : str) (i : Z) : Z :=
  if startswith s sub then i
  else match s with
       | [] => -1
       | _ :: s' => find_from sub s' (i + 1)
       end.

Definition find (s sub : str) : Z := find_from sub s 0.

(** [sub in s]. *)
Definition contains (sub s : str) : bool := negb (find s sub =? -1).

Fixpoint lstrip (s : str) : str :=
  match s with
  | c :: s' => if isspace c then lstrip s' else s
  | [] => []
  end.

Definition rstrip (s : str) : str := rev (lstrip (rev s)).

(** [s.strip()]. *)
Definition strip (s : str) : str := rstrip (lstrip s).

(** [s.replace(a, b)] for one-character [a] and [b]. *)
Definition replace_char (a b : ascii) (s : str) : str :=
  map (fun c => if ascii_eqb c a then b else c) s.

(** [s.split(sep)] for a one-character separator. *)
Fixpoint split (sep : ascii) (s : str) : list str :=
  match s with
  | [] => [[]]
  | c :: s' =>
      if ascii_eqb c sep then [] :: split sep s'
      else match split sep s' with
           | w :: ws => (c :: w) :: ws
           | [] => [[c]]
           end
  end.

(** [s[:i]] with Python's treatment of negative and large [i]. *)
Definition slice_to (s : str) (i : Z) : str :=
  let n := Z.of_nat (length s) in
  let stop := if i <? 0 then Z.max (n + i) 0 else Z.min i n in
  firstn (Z.to_nat stop) s.

(** [str(n)] for an [int]. *)
Definition str_of_int (n : Z) : str :=
  lit (DecimalString.NilZero.string_of_int (Z.to_int n)).

(** [int(s)] for a string of ASCII digits (most significant first). *)
Definition int_of_digits (s : str) : Z :=
  fold_left (fun acc c => acc * 10 + (ord c - 48)) s 0.

(** [os.path.join(a, b)] of [posixpath]. *)
Definition path_join (a b : str) : str :=
  if startswith b (lit "/") then b
  else match rev a with
       | [] => b
       | c :: _ => if ascii_eqb c "/"%char then a ++ b else a ++ lit "/" ++ b
       end.

(** ** Exceptions and results *)

(** The exception classes the pipeline can meet.  All of them derive from
    [Exception]; [JSONDecodeError] derives from [ValueError] and
    [HTTPError] from [RequestException].  Interrupts ([KeyboardInterrupt],
    [SystemExit]), which are no [Exception], are left out. *)
Inductive exn_class :=
| ValueError
| JSONDecodeError
| AttributeError
| OverflowError
| OSError
| RequestException
| HTTPError.

Record exn := mk_exn { exn_cls : exn_class; exn_msg : str }.

(** [isinstance(e, ValueError)]. *)
Definition is_ValueError (e : exn) : bool :=
  match exn_cls e with
  | ValueError | JSONDecodeError => true
  | _ => false
  end.

Inductive res (A : Type) :=
| Ret (a : A)
| Raise (e : exn).
Arguments Ret {A} a.
Arguments Raise {A} e.

(** ** Regular expressions

    The fragment of [re] the program uses, matched the way [re] does:
    leftmost, alternatives in order, greedy repetition, backtracking into
    the continuation [k]. *)

Inductive regex :=
| RLit (s : str)
| RLitI (s : str)
| RSet (p : ascii -> bool)
| RRep (p : ascii -> bool) (lo : nat) (hi : option nat)
| RCat (a b : regex)
| RAlt (a b : regex).

Definition or_else {R} (a b : option R) : option R :=
  match a with Some x => Some x | None => b end.

Fixpoint strip_prefix_nocase (p s : str) : option str :=
  match p, s with
  | [], _ => Some s
  | x :: p', y :: s' =>
      if ascii_eqb (lower_char x) (lower_char y)
      then strip_prefix_nocase p' s' else None
  | _ :: _, [] => None
  end.

Definition may_repeat (hi : option nat) : bool :=
  match hi with Some O => false | _ => true end.

Definition one_less (hi : option nat) : option nat :=
  match hi with Some n => Some (pred n) | None => None end.

(** Greedy [p{lo,hi}]: take one more character while allowed, and give
    characters back when the continuation fails. *)
Fixpoint rep_match {R} (p : ascii -> bool) (lo : nat) (hi : option nat)
    (s : str) (k : str -> option R) : option R :=
  let stop := match lo with O => k s | S _ => None end in
  match s with
  | c :: s' =>
      if p c && may_repeat hi
      then or_else (rep_match p (pred lo) (one_less hi) s' k) stop
      else stop
  | [] => stop
  end.

Fixpoint rmatch {R} (r : regex) (s : str) (k : str -> option R) : option R :=
  match r with
  | RLit l => match strip_prefix l s with Some s' => k s' | None => None end
  | RLitI l =>
      match strip_prefix_nocase l s with Some s' => k s' | None => None end
  | RSet p =>
      match s with
      | c :: s' => if p c then k s' else None
      | [] => None
      end
  | RRep p lo hi => rep_match p lo hi s k
  | RCat a b => rmatch a s (fun s' => rmatch b s' k)
  | RAlt a b => or_else (rmatch a s k) (rmatch b s k)
  end.

(** The text consumed between [s] and its suffix [rest]. *)
Definition consumed (s rest : str) : str :=
  firstn (length s - length rest) s.

(** [pre(grp)] matched at the start of [s]: the text of group 1. *)
Definition match_group1 (pre grp : regex) (s : str) : option str :=
  rmatch pre s (fun s1 => rmatch grp s1 (fun s2 => Some (consumed s1 s2))).

(** [re.search(pre(grp), s)], then [.group(1)]. *)
Fixpoint search_group1 (pre grp : regex) (s : str) : option str :=
  or_else (match_group1 pre grp s)
          (match s with
           | [] => None
           | _ :: s' => search_group1 pre grp s'
           end).

(** ** Naive datetimes *)

Record datetime := mk_datetime {
  year : Z; month : Z; day : Z;
  hour : Z; minute : Z; second : Z; microsecond : Z
}.

Definition is_leap (y : Z) : bool :=
  (y mod 4 =? 0) && (negb (y mod 100 =? 0) || (y mod 400 =? 0)).

(** [_DAYS_IN_MONTH[m]], with its placeholder at index 0. *)
Definition DAYS_IN_MONTH (m : Z) : Z :=
  nth (Z.to_nat m) [-1; 31; 28; 31; 30; 31; 30; 31; 31; 30; 31; 30; 31] 0.

Definition days_in_month (y m : Z) : Z :=
  if (m =? 2) && is_leap y then 29 else DAYS_IN_MONTH m.

(** [_DAYS_BEFORE_MONTH[m]]: days of a common year before month [m], with
    its placeholder at index 0. *)
Definition DAYS_BEFORE_MONTH (m : Z) : Z :=
  nth (Z.to_nat m) [-1; 0; 31; 59; 90; 120; 151; 181; 212; 243; 273; 304; 334] 0.

Definition days_before_year (y : Z) : Z :=
  let p := y - 1 in p * 365 + p / 4 - p / 100 + p / 400.

Definition days_before_month (y m : Z) : Z :=
  DAYS_BEFORE_MONTH m + (if (2 <? m) && is_leap y then 1 else 0).

(** [date.toordinal]: 1 January of year 1 is day 1. *)
Definition ymd2ord (y m d : Z) : Z :=
  days_before_year y + days_before_month y m + d.

Definition MAXORDINAL : Z := 3652059.

(** The second half of [_ord2ymd]: the month and the day of the day of
    index [n] (from 0) of a year, from an estimate of the month that is
    right or one too large. *)
Definition month_day (n : Z) (leapyear : bool) : Z * Z :=
  let m := Z.shiftr (n + 50) 5 in
  let preceding :=
    DAYS_BEFORE_MONTH m + (if (2 <? m) && leapyear then 1 else 0) in
  if n <? preceding
  then
    let m' := m - 1 in
    let preceding' :=
      preceding - (DAYS_IN_MONTH m' + (if (m' =? 2) && leapyear then 1 else 0)) in
    (m', n - preceding' + 1)
  else (m, n - preceding + 1).

(** [date.fromordinal], as [_ord2ymd] computes it: the 400-year, 100-year
    and 4-year cycles and the years before day [n0], then [month_day]. *)
Definition ord2ymd (n0 : Z) : Z * Z * Z :=
  let n := n0 - 1 in
  let n400 := n / 146097 in let n := n mod 146097 in
  let n100 := n / 36524 in let n := n mod 36524 in
  let n4 := n / 1461 in let n := n mod 1461 in
  let n1 := n / 365 in let n := n mod 365 in
  let y := n400 * 400 + 1 + n100 * 100 + n4 * 4 + n1 in
  if (n1 =? 4) || (n100 =? 4) then (y - 1, 12, 31)
  else
    let leapyear := (n1 =? 3) && (negb (n4 =? 24) || (n100 =? 3)) in
    let '(m, d) := month_day n leapyear in
    (y, m, d).

(** The dates and the datetimes there are: what [_check_date_fields] and
    [_check_time_fields] let through. *)
Definition valid_date (y m d : Z) : bool :=
  between 1 9999 y && between 1 12 m && between 1 (days_in_month y m) d.

Definition valid_datetime (t : datetime) : bool :=
  valid_date (year t) (month t) (day t)
  && between 0 23 (hour t) && between 0 59 (minute t)
  && between 0 59 (second t) && between 0 999999 (microsecond t).

(** [datetime(y, m, d)]: midnight of a date, or the [ValueError] of its
    first field out of range. *)
Definition new_date (y m d : Z) : res datetime :=
  if negb (between 1 9999 y)
  then Raise (mk_exn ValueError
                (lit "year " ++ str_of_int y ++ lit " is out of range"))
  else if negb (between 1 12 m)
  then Raise (mk_exn ValueError (lit "month must be in 1..12"))
  else if negb (between 1 (days_in_month y m) d)
  then Raise (mk_exn ValueError (lit "day is out of range for month"))
  else Ret (mk_datetime y m d 0 0 0 0).

(** [a < b] on naive datetimes: the field tuples, compared in order. *)
Fixpoint lex_lt (a b : list Z) : bool :=
  match a, b with
  | x :: a', y :: b' => (x <? y) || ((x =? y) && lex_lt a' b')
  | _, _ => false
  end.

Definition fields (t : datetime) : list Z :=
  [year t; month t; day t; hour t; minute t; second t; microsecond t].

Definition datetime_lt (a b : datetime) : bool :=
  lex_lt (fields a) (fields b).

(** [now - timedelta(days=days)].  The [timedelta] constructor refuses more
    than 999999999 days, and the difference must be a date of years 1 to
    9999. *)
Definition sub_days (now : datetime) (days : Z) : res datetime :=
  if 999999999 <? Z.abs days
  then Raise (mk_exn OverflowError
                (lit "days=" ++ str_of_int days ++ lit "; must have magnitude <= 999999999"))
  else
    let n := ymd2ord (year now) (month now) (day now) - days in
    if (0 <? n) && (n <=? MAXORDINAL)
    then let '(y, m, d) := ord2ymd n in
         Ret (mk_datetime y m d (hour now) (minute now) (second now)
                (microsecond now))
    else Raise (mk_exn OverflowError (lit "date value out of range")).

(** ** [datetime.strptime(s, "%d %B, %Y")]

    [_strptime] turns the format into the pattern
    [(?P<d>3[0-1]|[1-2]\d|0[1-9]|[1-9]| [1-9])\s+(?P<B>...),\s+(?P<Y>\d\d\d\d)],
    compiled with [re.IGNORECASE], where [...] lists the month names of the
    locale, longest first.  It matches the pattern at the start of the
    input, rejects input left over, and builds the date from [int] of the
    groups. *)

Definition range_set (lo hi : ascii) (c : ascii) : bool :=
  between (ord lo) (ord hi) (ord c).

Definition re_d : regex :=
  RAlt (RCat (RLit (lit "3")) (RSet (range_set "0" "1")))
  (RAlt (RCat (RSet (range_set "1" "2")) (RSet isdecimal))
  (RAlt (RCat (RLit (lit "0")) (RSet (range_set "1" "9")))
  (RAlt (RSet (range_set "1" "9"))
        (RCat (RLit (lit " ")) (RSet (range_set "1" "9")))))).

Definition re_Y : regex := RRep isdecimal 4 (Some 4%nat).

Definition re_spaces : regex := RRep isspace 1 None.

(** [calendar.month_name] in the C locale, lowered, in the order of the
    pattern, each with its month number. *)
Definition month_names : list (str * Z) :=
  [(lit "september", 9); (lit "february", 2); (lit "november", 11);
   (lit "december", 12); (lit "january", 1); (lit "october", 10);
   (lit "august", 8); (lit "march", 3); (lit "april", 4);
   (lit "june", 6); (lit "july", 7); (lit "may", 5)].

Fixpoint match_month {R} (names : list (str * Z)) (s : str)
    (k : Z -> str -> option R) : option R :=
  match names with
  | [] => None
  | (name, m) :: names' =>
      or_else (rmatch (RLitI name) s (k m)) (match_month names' s k)
  end.

(** The groups [d], [B] (as a month number) and [Y] of the first match, and
    the input after the match. *)
Definition match_dBY (s : str) : option (str * Z * str * str) :=
  rmatch re_d s (fun s1 =>
  rmatch re_spaces s1 (fun s2 =>
  match_month month_names s2 (fun m s3 =>
  rmatch (RCat (RLit (lit ",")) re_spaces) s3 (fun s4 =>
  rmatch re_Y s4 (fun s5 =>
  Some (consumed s s1, m, consumed s4 s5, s5)))))).

Definition strptime_dBY (s : str) : res datetime :=
  match match_dBY s with
  | None =>
      Raise (mk_exn ValueError
               (lit "time data '" ++ s ++ lit "' does not match format '%d %B, %Y'"))
  | Some (d, m, y, rest) =>
      match rest with
      | _ :: _ =>
          Raise (mk_exn ValueError (lit "unconverted data remains: " ++ rest))
      | [] => new_date (int_of_digits y) m (int_of_digits (lstrip d))
      end
  end.

(** ** Parsed markup

    What [BeautifulSoup] hands to the program: text nodes and tags with
    their name, their [class] list, their other attributes and their
    children. *)

#[warnings="-register-all"] Inductive node :=
| Text (s : str)
| Tag (name : str) (classes : list str) (attrs : list (str * str))
      (kids : list node).

(** [n.descendants], in document order. *)
Fixpoint descendants (n : node) : list node :=
  match n with
  | Text _ => []
  | Tag _ _ _ kids => flat_map (fun k => k :: descendants k) kids
  end.

Definition is_tag (name : str) (n : node) : bool :=
  match n with
  | Text _ => false
  | Tag nm _ _ _ => str_eqb nm name
  end.

Definition has_class (c : str) (n : node) : bool :=
  match n with
  | Text _ => false
  | Tag _ cs _ _ => existsb (str_eqb c) cs
  end.

(** [n.find_all(name)]. *)
Definition find_all (n : node) (name : str) : list node :=
  filter (is_tag name) (descendants n).

(** [n.find_all(name, class_=c)]. *)
Definition find_all_class (n : node) (name c : str) : list node :=
  filter (fun x => is_tag name x && has_class c x) (descendants n).

(** [n.find(name, class_=c)]. *)
Definition find_class (n : node) (name c : str) : option node :=
  hd_error (find_all_class n name c).

(** [n.get_text(strip=True)]: every text below [n], stripped, the empty
    ones dropped, joined with nothing between. *)
Definition get_text_strip (n : node) : str :=
  concat
    (flat_map (fun x => match x with
                        | Text s => match strip s with
                                    | [] => []
                                    | t => [t]
                                    end
                        | Tag _ _ _ _ => []
                        end)
              (match n with Text _ => [n] | _ => descendants n end)).

(** [a.get(key, default)]. *)
Fixpoint assoc_get {V} (key : str) (default : V) (l : list (str * V)) : V :=
  match l with
  | [] => default
  | (k, v) :: l' => if str_eqb k key then v else assoc_get key default l'
  end.

Definition get_attr (n : node) (key default : str) : str :=
  match n with
  | Text _ => default
  | Tag _ _ attrs _ => assoc_get key default attrs
  end.

(** ** [extract_submission_date] *)

(** [r"Submitted\s*(\d{1,2}\s+\w+,\s*\d{4})"], split at its group. *)
Definition date_pattern_head : regex :=
  RCat (RLit (lit "Submitted")) (RRep isspace 0 None).

Definition date_pattern_group : regex :=
  RCat (RRep isdecimal 1 (Some 2%nat))
  (RCat (RRep isspace 1 None)
  (RCat (RRep isword 1 None)
  (RCat (RLit (lit ","))
  (RCat (RRep isspace 0 None)
        (RRep isdecimal 4 (Some 4%nat)))))).

Definition extract_submission_date (result : node) : res (option datetime) :=
  match find_class result (lit "p") (lit "is-size-7") with
  | None => Ret None
  | Some date_info =>
      let date_text := get_text_strip date_info in
      match search_group1 date_pattern_head date_pattern_group date_text with
      | None => Ret None
      | Some date_str =>
          match strptime_dBY date_str with
          | Ret t => Ret (Some t)
          | Raise e => if is_ValueError e then Ret None else Raise e
          end
      end
  end.

(** ** [extract_pdf_url] *)

(** The loop over [result.find_all("a")]. *)
Fixpoint first_pdf_link (anchors : list node) : option str :=
  match anchors with
  | [] => None
  | a :: rest =>
      let href := get_attr a (lit "href") (lit "") in
      if contains (lit "pdf") (lower href)
      then if negb (startswith href (lit "http"))
           then Some (lit "https://arxiv.org" ++ href)
           else Some href
      else first_pdf_link rest
  end.

Definition extract_pdf_url (result : node) : option str :=
  first_pdf_link (find_all result (lit "a")).

(** ** The outside world *)

(** A [requests.Response]: what the program reads of it. *)
Record response := mk_response {
  status_code : Z;
  reason : str;
  resp_url : str;
  text : str;
  content : str
}.

(** A value [json.load] can return; a [dict] is the list of its items,
    looked up from the front. *)
#[warnings="-register-all"] Inductive pyval :=
| PNone
| PBool (b : bool)
| PInt (n : Z)
| PFloat (repr : str)
| PStr (s : str)
| PList (l : list pyval)
| PDict (items : list (str * pyval)).

(** The lines the program prints, one constructor per [print] call of
    [downloader.py], holding the values its f-string formats. *)
Inductive line :=
| LFetching (paginated_url : str)
| LFound (n : nat)
| LNoDate (idx : Z)
| LDate (idx : Z) (submission_date : datetime)
| LOlder (idx : Z)
| LNoPdf (idx : Z)
| LAnchors (idx : Z) (anchors : list str)
| LQueuing (idx : Z) (pdf_url : str)
| LErrDownload (pdf_url : str) (e : exn)
| LSaved (filepath : str)
| LErrSave (filename : str) (e : exn)
| LDone (output_dir : str) (total_downloaded : Z).

(** What a run does to the world, in the order it happens.  [EvPage] is
    not an effect: it records a call of [process_page] with its offset and
    cutoff. *)
Inductive event :=
| EvLoadJson (config_path : str)
| EvMakedirs (output_dir : str)
| EvNow
| EvPage (offset : Z) (cutoff_date : datetime)
| EvGet (url : str)
| EvWrite (filepath : str) (data : str)
| EvPrint (l : line).

Definition trace := list event.

(** The oracles.  Each answers from the history of the run so far.
    [env_load_json] is [open(path)] followed by [json.load];
    [env_write] is [open(path, "wb")] followed by [f.write(data)];
    [env_parse] is [BeautifulSoup(text, "html.parser")];
    [env_pick] is the scheduling of the pool: which of the pending
    downloads runs next (its index among them, modulo their number), each
    download taken as one step. *)
Record env := mk_env {
  env_load_json : trace -> str -> res pyval;
  env_makedirs : trace -> str -> res unit;
  env_now : trace -> datetime;
  env_get : trace -> str -> res response;
  env_write : trace -> str -> str -> res unit;
  env_parse : str -> node;
  env_pick : trace -> list str -> nat
}.

(** ** Computations: history in, result and new events out *)

Definition M (A : Type) : Type := trace -> res A * trace.

Definition ret {A} (a : A) : M A := fun _ => (Ret a, []).

Definition raise {A} (e : exn) : M A := fun _ => (Raise e, []).

Definition bind {A B} (m : M A) (f : A -> M B) : M B :=
  fun h =>
    match m h with
    | (Ret a, o1) => let '(r, o2) := f a (h ++ o1) in (r, o1 ++ o2)
    | (Raise e, o1) => (Raise e, o1)
    end.

Definition lift {A} (r : res A) : M A := fun _ => (r, []).

(** [try: m  except Exception as e: handler e]. *)
Definition try_except {A} (m : M A) (handler : exn -> M A) : M A :=
  fun h =>
    match m h with
    | (Ret a, o1) => (Ret a, o1)
    | (Raise e, o1) => let '(r, o2) := handler e (h ++ o1) in (r, o1 ++ o2)
    end.

Declare Scope M_scope.
Delimit Scope M_scope with M.
Notation "x <- m ;; k" := (bind m (fun x => k))
  (at level 61, m at next level, right associativity) : M_scope.
Notation "m ;; k" := (bind m (fun _ => k))
  (at level 61, right associativity) : M_scope.
Local Open Scope M_scope.

Section Pipeline.

Variable E : env.

Definition print (l : line) : M unit := fun _ => (Ret tt, [EvPrint l]).

Definition requests_get (url : str) : M response :=
  fun h => (env_get E h url, [EvGet url]).

Definition write_file (filepath data : str) : M unit :=
  fun h => (env_write E h filepath data, [EvWrite filepath data]).

Definition load_json (config_path : str) : M pyval :=
  fun h => (env_load_json E h config_path, [EvLoadJson config_path]).

Definition makedirs (output_dir : str) : M unit :=
  fun h => (env_makedirs E h output_dir, [EvMakedirs output_dir]).

Definition datetime_now : M datetime :=
  fun h => (Ret (env_now E h), [EvNow]).

(** [Response.raise_for_status]: an [HTTPError] for the 4xx and 5xx
    codes, nothing for any other. *)
Definition raise_for_status (r : response) : res unit :=
  let c := status_code r in
  if between 400 499 c
  then Raise (mk_exn HTTPError
                (str_of_int c ++ lit " Client Error: " ++ reason r
                 ++ lit " for url: " ++ resp_url r))
  else if between 500 599 c
  then Raise (mk_exn HTTPError
                (str_of_int c ++ lit " Server Error: " ++ reason r
                 ++ lit " for url: " ++ resp_url r))
  else Ret tt.

(** ** [load_config] *)

Definition load_config (config_path : str) : M str :=
  config_data <- load_json config_path ;;
  match config_data with
  | PDict d =>
      match assoc_get (lit "url") (PStr (lit "")) d with
      | PStr s =>
          let url := strip s in
          match url with
          | [] => raise (mk_exn ValueError (lit "URL not found in configuration."))
          | _ :: _ => ret url
          end
      | _ => raise (mk_exn AttributeError (lit "object has no attribute 'strip'"))
      end
  | _ => raise (mk_exn AttributeError (lit "object has no attribute 'get'"))
  end.

(** ** [download_pdf] *)

Definition download_pdf (pdf_url output_dir : str) : M bool :=
  got <- try_except
           (pdf_response <- requests_get pdf_url ;;
            lift (raise_for_status pdf_response) ;;
            ret (Some pdf_response))
           (fun e => print (LErrDownload pdf_url e) ;; ret None) ;;
  match got with
  | None => ret false
  | Some pdf_response =>
      let pdf_id := last (split "/" pdf_url) [] in
      let filename := pdf_id ++ lit ".pdf" in
      let filepath := path_join output_dir filename in
      try_except
        (write_file filepath (content pdf_response) ;;
         print (LSaved filepath) ;;
         ret true)
        (fun e => print (LErrSave filename e) ;; ret false)
  end.

(** ** [process_page] *)

(** The loop over [enumerate(results, start=idx)], appending to
    [download_tasks]. *)
Fixpoint collect_tasks (results : list node) (idx : Z) (cutoff_date : datetime)
    (download_tasks : list str) : M (list str) :=
  match results with
  | [] => ret download_tasks
  | result :: rest =>
      found <- lift (extract_submission_date result) ;;
      match found with
      | None =>
          print (LNoDate idx) ;;
          collect_tasks rest (idx + 1) cutoff_date download_tasks
      | Some submission_date =>
          print (LDate idx submission_date) ;;
          if datetime_lt submission_date cutoff_date
          then print (LOlder idx) ;;
               collect_tasks rest (idx + 1) cutoff_date download_tasks
          else
            match extract_pdf_url result with
            | None =>
                print (LNoPdf idx) ;;
                print (LAnchors idx
                         (map (fun a => get_attr a (lit "href") (lit ""))
                              (find_all result (lit "a")))) ;;
                collect_tasks rest (idx + 1) cutoff_date download_tasks
            | Some pdf_url =>
                print (LQueuing idx pdf_url) ;;
                collect_tasks rest (idx + 1) cutoff_date
                  (download_tasks ++ [pdf_url])
            end
      end
  end.

(** The pool: as long as downloads are pending, the one the scheduler picks
    runs, and its future keeps what the call returned or raised.  The
    futures come in the order of completion.  [fuel] bounds the number of
    downloads run; the number of submitted downloads is enough. *)
Fixpoint run_pool (fuel : nat) (pending : list str) (output_dir : str)
    : M (list (res bool)) :=
  match fuel, pending with
  | S fuel', _ :: _ =>
      fun h =>
        let i := Nat.modulo (env_pick E h pending) (length pending) in
        let '(r, o1) := download_pdf (nth i pending []) output_dir h in
        let '(rs, o2) :=
          run_pool fuel' (firstn i pending ++ skipn (S i) pending) output_dir
            (h ++ o1) in
        (match rs with Ret l => Ret (r :: l) | Raise e => Raise e end, o1 ++ o2)
  | _, _ => ret []
  end.

(** The loop over [as_completed(futures)]: [future.result()] returns the
    call's value or raises what the call raised. *)
Fixpoint count_completed (futures : list (res bool)) (download_count : Z) : res Z :=
  match futures with
  | [] => Ret download_count
  | Ret true :: rest => count_completed rest (download_count + 1)
  | Ret false :: rest => count_completed rest download_count
  | Raise e :: _ => Raise e
  end.

(** Lines 143 to 150: the download phase of a page. *)
Definition download_phase (download_tasks : list str) (output_dir : str) : M Z :=
  match download_tasks with
  | [] => ret 0
  | _ :: _ =>
      futures <- run_pool (length download_tasks) download_tasks output_dir ;;
      lift (count_completed futures 0)
  end.

Definition process_page (base_url : str) (offset : Z) (cutoff_date : datetime)
    (output_dir : str) : M Z :=
  (fun _ => (Ret tt, [EvPage offset cutoff_date])) ;;
  let paginated_url := base_url ++ lit "&start=" ++ str_of_int offset in
  print (LFetching paginated_url) ;;
  response <- requests_get paginated_url ;;
  lift (raise_for_status response) ;;
  let soup := env_parse E (text response) in
  let results := find_all_class soup (lit "li") (lit "arxiv-result") in
  print (LFound (length results)) ;;
  download_tasks <- collect_tasks results 1 cutoff_date [] ;;
  download_phase download_tasks output_dir.

(** ** [download_pdfs] *)

(** The loop over [offsets], adding to [total_downloaded]. *)
Fixpoint process_offsets (base_url : str) (offsets : list Z)
    (cutoff_date : datetime) (output_dir : str) (total_downloaded : Z) : M Z :=
  match offsets with
  | [] => ret total_downloaded
  | offset :: rest =>
      n <- process_page base_url offset cutoff_date output_dir ;;
      process_offsets base_url rest cutoff_date output_dir (total_downloaded + n)
  end.

(** [days] is the argument as the body sees it, 7 when the caller leaves
    it out; [offsets] is [None] when the caller leaves it out. *)
Definition download_pdfs (config_path output_dir : str) (days : Z)
    (offsets : option (list Z)) : M Z :=
  let offsets := match offsets with None => [0; 50] | Some l => l end in
  base_url <- load_config config_path ;;
  makedirs output_dir ;;
  now <- datetime_now ;;
  cutoff_date <- lift (sub_days now days) ;;
  total_downloaded <- process_offsets base_url offsets cutoff_date output_dir 0 ;;
  print (LDone output_dir total_downloaded) ;;
  ret total_downloaded.

End Pipeline.

(** ** [extract_section] of [util/pdftext.py]

    [doc] is the text [page.get_text()] returns for each page of the
    document, in page order. *)

Definition page_texts (doc : list str) : str :=
  fold_left (fun text_content page => text_content ++ page ++ lit " ") doc [].

Definition flattened (doc : list str) : str :=
  replace_char (chr 10) " "%char (page_texts doc).

Definition extract_section (doc : list str) : str :=
  let text_content := flattened doc in
  let ref_marker := lit "References" in
  let ref_index := find text_content ref_marker in
  slice_to text_content ref_index.

(** ** Vocabulary of the statements *)

(** [sub] occurs in [s]. *)
Definition occurs (sub s : str) : Prop :=
  exists pre post, s = pre ++ sub ++ post.

(** [sub] occurs in [s] after [pre], and nowhere earlier. *)
Definition first_occurrence (sub pre s : str) : Prop :=
  (exists post, s = pre ++ sub ++ post)
  /\ forall pre' post', s = pre' ++ sub ++ post' -> (length pre <= length pre')%nat.

(** The target of a hyperlink: [a.get("href", "")]. *)
Definition href (a : node) : str := get_attr a (lit "href") (lit "").

(** The target contains "pdf", whatever the case of its letters. *)
Definition mentions_pdf (a : node) : Prop := occurs (lit "pdf") (lower (href a)).

(** The name and the path [download_pdf] saves [pdf_url] under. *)
Definition saved_name (pdf_url : str) : str :=
  last (split "/" pdf_url) [] ++ lit ".pdf".

Definition saved_path (output_dir pdf_url : str) : str :=
  path_join output_dir (saved_name pdf_url).

(** The URLs requested in a trace, in order. *)
Definition requested (out : trace) : list str :=
  flat_map (fun ev => match ev with EvGet url => [url] | _ => [] end) out.

(** The number of "Saved PDF to" lines printed in a trace. *)
Definition saved_lines (out : trace) : nat :=
  length (filter (fun ev => match ev with
                            | EvPrint (LSaved _) => true
                            | _ => false
                            end) out).

(** The offsets of the pages processed in a trace, in order. *)
Definition page_offsets (out : trace) : list Z :=
  flat_map (fun ev => match ev with EvPage o _ => [o] | _ => [] end) out.

(** The cutoffs the pages of a trace were processed with, in order. *)
Definition page_cutoffs (out : trace) : list datetime :=
  flat_map (fun ev => match ev with EvPage _ c => [c] | _ => [] end) out.

(** The number of times a trace reads the clock. *)
Definition clock_reads (out : trace) : nat :=
  length (filter (fun ev => match ev with EvNow => true | _ => false end) out).

(** The events of a download: a request, a file written, a line printed. *)
Definition download_event (ev : event) : bool :=
  match ev with
  | EvGet _ | EvWrite _ _ | EvPrint _ => true
  | _ => false
  end.

(** The lines the filter of [process_page] prints about a result. *)
Definition decision_event (ev : event) : bool :=
  match ev with
  | EvPrint (LNoDate _) | EvPrint (LDate _ _) | EvPrint (LOlder _)
  | EvPrint (LNoPdf _) | EvPrint (LAnchors _ _) | EvPrint (LQueuing _ _) => true
  | _ => false
  end.

(** The events of a page: its own record and those of its downloads. *)
Definition page_event (ev : event) : bool :=
  match ev with
  | EvPage _ _ => true
  | _ => download_event ev
  end.

(** A future that holds [True]. *)
Definition succeeded (future : res bool) : bool :=
  match future with
  | Ret true => true
  | _ => false
  end.

(** A future that holds a value, not an exception. *)
Definition returned (future : res bool) : Prop :=
  exists b, future = Ret b.

(** The result passes the date filter of [process_page]: it has a date,
    and the date is not before the cutoff. *)
Definition retained (cutoff_date : datetime) (result : node) : Prop :=
  exists submission_date,
    extract_submission_date result = Ret (Some submission_date)
    /\ datetime_lt submission_date cutoff_date = false.

(** What one result adds to [download_tasks]. *)
Definition queued (cutoff_date : datetime) (result : node) : list str :=
  match extract_submission_date result with
  | Ret (Some submission_date) =>
      if datetime_lt submission_date cutoff_date then []
      else match extract_pdf_url result with
           | Some pdf_url => [pdf_url]
           | None => []
           end
  | _ => []
  end.

(** The URL [process_page] asks for. *)
Definition page_url (base_url : str) (offset : Z) : str :=
  base_url ++ lit "&start=" ++ str_of_int offset.

(** [requests.get(url)] followed by [raise_for_status()], after history
    [h]: the response, or what either of the two raised. *)
Definition fetch (E : env) (h : trace) (url : str) : res response :=
  match env_get E h url with
  | Ret r => match raise_for_status r with
             | Ret _ => Ret r
             | Raise e => Raise e
             end
  | Raise e => Raise e
  end.

(** What [process_page] has done when it comes to fetch its page. *)
Definition page_start (base_url : str) (offset : Z) (cutoff_date : datetime)
    : trace :=
  [EvPage offset cutoff_date; EvPrint (LFetching (page_url base_url offset))].

(** The configuration has no entry under [key]. *)
Definition lacks_key (key : str) (d : list (str * pyval)) : Prop :=
  forall v, ~ In (key, v) d.

(** What [download_pdfs] does before its first page: it loads the
    configuration, makes the output directory and reads the clock. *)
Definition prelude (config_path output_dir : str) : trace :=
  [EvLoadJson config_path; EvMakedirs output_dir; EvNow].

(** The offsets [download_pdfs] goes through. *)
Definition offsets_of (offsets : option (list Z)) : list Z :=
  match offsets with
  | None => [0; 50]
  | Some l => l
  end.

(** The directories and files a trace creates or writes, in order. *)
Definition written (out : trace) : list str :=
  flat_map (fun ev => match ev with
                      | EvMakedirs d => [d]
                      | EvWrite p _ => [p]
                      | _ => []
                      end) out.

(** The microseconds from the start of the day before 1 January of year 1
    to a datetime. *)
Definition timestamp (t : datetime) : Z :=
  (((ymd2ord (year t) (month t) (day t) * 24 + hour t) * 60 + minute t) * 60
   + second t) * 1000000 + microsecond t.

Definition MICROSECONDS_PER_DAY : Z := 86400000000.

(** [month_day] answers with a month and a day of that month, the day of
    index [n] of the year. *)
Definition month_day_ok (n : Z) (leapyear : bool) : bool :=
  let '(m, d) := month_day n leapyear in
  between 1 12 m
  && between 1 (DAYS_IN_MONTH m + (if (m =? 2) && leapyear then 1 else 0)) d
  && (DAYS_BEFORE_MONTH m + (if (2 <? m) && leapyear then 1 else 0) + d =? n + 1).

(** ** Sample data *)

Definition anchor (target label : str) : node :=
  Tag (lit "a") [] [(lit "href", target)] [Text label].

(** One entry of a listing page, shaped like those of the search pages. *)
Definition sample_result : node :=
  Tag (lit "li") [lit "arxiv-result"] []
    [Tag (lit "div") [lit "is-marginless"] []
       [Tag (lit "p") [lit "list-title"; lit "is-inline-block"] []
          [anchor (lit "https://arxiv.org/abs/2503.03395") (lit "arXiv:2503.03395");
           Tag (lit "span") [] []
             [Text (lit " [");
              anchor (lit "/pdf/2503.03395") (lit "pdf");
              Text (lit ", ");
              anchor (lit "https://arxiv.org/format/2503.03395") (lit "other");
              Text (lit "] ")]]];
     Tag (lit "p") [lit "title"; lit "is-5"] [] [Text (lit "A title")];
     Tag (lit "p") [lit "is-size-7"] []
       [Tag (lit "span") [lit "has-text-black-bis"] [] [Text (lit "Submitted")];
        Text (lit " 4 March, 2025; ");
        Tag (lit "span") [lit "has-text-black-bis"] []
          [Text (lit "originally announced")];
        Text (lit " March 2025.")]].

(** An environment whose oracles ignore the history: the configuration
    file holds [config], a request for [url] gets [get url], writing to
    [path] gets [write path], markup is parsed by [parse], the clock shows
    [now] and the pool runs next the pending download of index [pick]. *)
Definition scripted_env (config : res pyval) (get : str -> res response)
    (write : str -> res unit) (parse : str -> node) (now : datetime)
    (pick : list str -> nat) : env :=
  mk_env (fun _ _ => config) (fun _ _ => Ret tt) (fun _ => now)
         (fun _ url => get url) (fun _ path _ => write path) parse
         (fun _ pending => pick pending).

Definition ok_response (url body : str) : response :=
  mk_response 200 (lit "OK") url body body.

Definition connection_error : exn :=
  mk_exn RequestException (lit "Connection aborted.").

Definition disk_full : exn :=
  mk_exn OSError (lit "[Errno 28] No space left on device").

Definition sample_pdf_url : str := lit "https://arxiv.org/pdf/2503.03395".

Definition status_response (code : Z) (why : str) : response :=
  mk_response code why sample_pdf_url (lit "") (lit "").

(** A server that answers every request with the given status and an
    empty body, over a disk that takes every write. *)
Definition status_env (code : Z) (why : str) : env :=
  scripted_env (Ret PNone) (fun _ => Ret (status_response code why))
    (fun _ => Ret tt) (fun _ => Text []) (mk_datetime 2025 3 10 0 0 0 0)
    (fun _ => O).

(** A network that is down. *)
Definition offline_env : env :=
  scripted_env (Ret PNone) (fun _ => Raise connection_error)
    (fun _ => Ret tt) (fun _ => Text []) (mk_datetime 2025 3 10 0 0 0 0)
    (fun _ => O).

(** A server that answers every request with a document, over a full
    disk. *)
Definition full_disk_env : env :=
  scripted_env (Ret PNone) (fun url => Ret (ok_response url (lit "%PDF-1.5")))
    (fun _ => Raise disk_full) (fun _ => Text []) (mk_datetime 2025 3 10 0 0 0 0)
    (fun _ => O).

Definition sample_batch : list str :=
  [lit "https://arxiv.org/pdf/2503.00001";
   lit "https://arxiv.org/pdf/2503.00002";
   lit "https://arxiv.org/pdf/2503.00003"].

(** The second document of [sample_batch] cannot be reached, the others
    download; the pool always runs the last pending download. *)
Definition flaky_env : env :=
  scripted_env (Ret PNone)
    (fun url => if str_eqb url (lit "https://arxiv.org/pdf/2503.00002")
                then Raise connection_error
                else Ret (ok_response url (lit "%PDF-1.5")))
    (fun _ => Ret tt) (fun _ => Text []) (mk_datetime 2025 3 10 0 0 0 0)
    (fun pending => pred (length pending)).

Definition sample_base : str := lit "https://arxiv.org/search/advanced?terms=x".

Definition sample_config : res pyval :=
  Ret (PDict [(lit "url", PStr sample_base)]).

Definition empty_document : node := Tag (lit "[document]") [] [] [].

(** An entry of a listing page with the given date text and link. *)
Definition listing_entry (date_text pdf_link : str) : node :=
  Tag (lit "li") [lit "arxiv-result"] []
    [Tag (lit "p") [lit "list-title"] [] [anchor pdf_link (lit "pdf")];
     Tag (lit "p") [lit "is-size-7"] []
       [Tag (lit "span") [] [] [Text (lit "Submitted")];
        Text (lit " " ++ date_text ++ lit "; ")]].

(** The page at offset 0 lists a document of 9 March 2025 and one of
    1 February 2025; the page at offset 50 lists nothing; every document
    downloads.  The clock shows 10 March 2025, 9:30. *)
Definition listing_env : env :=
  scripted_env sample_config
    (fun url => if str_eqb url (page_url sample_base 0)
                then Ret (ok_response url (lit "page 0"))
                else Ret (ok_response url (lit "other")))
    (fun _ => Ret tt)
    (fun markup => if str_eqb markup (lit "page 0")
                   then Tag (lit "[document]") [] []
                          [Tag (lit "ol") [] []
                             [listing_entry (lit "9 March, 2025") (lit "/pdf/2503.06000");
                              listing_entry (lit "1 February, 2025") (lit "/pdf/2502.00001")]]
                   else empty_document)
    (mk_datetime 2025 3 10 9 30 0 0)
    (fun _ => O).

(** Like [listing_env] without documents, but the page at offset 50
    answers 503. *)
Definition outage_env : env :=
  scripted_env sample_config
    (fun url => if str_eqb url (page_url sample_base 50)
                then Ret (mk_response 503 (lit "Service Unavailable") url
                            (lit "") (lit ""))
                else Ret (ok_response url (lit "")))
    (fun _ => Ret tt) (fun _ => empty_document)
    (mk_datetime 2025 3 10 9 30 0 0) (fun _ => O).

(** Every page answers 304 with an empty body. *)
Definition not_modified_env : env :=
  scripted_env sample_config
    (fun url => Ret (mk_response 304 (lit "Not Modified") url (lit "") (lit "")))
    (fun _ => Ret tt) (fun _ => empty_document)
    (mk_datetime 2025 3 10 9 30 0 0) (fun _ => O).

(** A configuration file that holds [config]; nothing else is asked. *)
Definition config_env (config : pyval) : env :=
  scripted_env (Ret config) (fun _ => Raise connection_error)
    (fun _ => Ret tt) (fun _ => empty_document)
    (mk_datetime 2025 3 10 9 30 0 0) (fun _ => O).

(** ** Vocabulary of the further properties *)

(** The character [text_content.replace] removes. *)
Definition newline : ascii := chr 10.

(** The text of the pages as [extract_section] flattens it: every page
    with its newlines turned into blanks, a blank after each. *)
Definition joined_pages (doc : list str) : str :=
  concat (map (fun page => replace_char newline " "%char page ++ lit " ") doc).

(** What [os.path.join] puts before the file name. *)
Definition dir_prefix (output_dir : str) : str :=
  match rev output_dir with
  | [] => []
  | c :: _ => if ascii_eqb c "/"%char then output_dir else output_dir ++ lit "/"
  end.

(** [calendar.month_name] in the C locale. *)
Definition month_name (m : Z) : str :=
  nth (Z.to_nat m)
    [[]; lit "January"; lit "February"; lit "March"; lit "April"; lit "May";
     lit "June"; lit "July"; lit "August"; lit "September"; lit "October";
     lit "November"; lit "December"] [].

(** A date the way the listing pages write it: "4 March, 2025". *)
Definition date_text (y m d : Z) : str :=
  str_of_int d ++ lit " " ++ month_name m ++ lit ", " ++ str_of_int y.

(** The same without the blank after the comma. *)
Definition tight_date_text (y m d : Z) : str :=
  str_of_int d ++ lit " " ++ month_name m ++ lit "," ++ str_of_int y.

(** What the proofs need of the decimal writing of a day, of a year of
    four digits, and of a month name. *)
Definition day_ok (d : Z) : bool :=
  let w := str_of_int d in
  forallb isdecimal w && (1 <=? length w)%nat && (length w <=? 2)%nat
  && (int_of_digits w =? d).

Definition year_ok (y : Z) : bool :=
  let w := str_of_int y in
  forallb isdecimal w && (length w =? 4)%nat && (int_of_digits w =? y).

Definition month_ok (m : Z) : bool :=
  let w := month_name m in
  forallb isword w
  && match w with
     | [] => false
     | c :: _ => negb (isspace c)
     end.

(** Every file written in the trace was written at the path
    [download_pdf] derives from a URL the trace requested. *)
Definition files_served (output_dir : str) (out : trace) : Prop :=
  forall path data,
    In (EvWrite path data) out ->
    exists url, In url (requested out) /\ path = saved_path output_dir url.

(** ** [main] of [main.py]

    The program around [download_pdfs]: it downloads, finds its
    directories, reads the key of the summarizer, and calls the summarizer
    until the download directory is empty or five calls were made.  The
    summarizer, [process_pdfs_in_directory], is a call to the outside like
    those of [os]: nothing is assumed of what it does. *)

Inductive host_event :=
| HDownloader (ev : event)
| HAbspath (path : str)
| HGetcwd
| HExists (path : str)
| HMakedirs (path : str)
| HNow
| HReadText (path : str)
| HListdir (path : str)
| HSummarize (pdf_directory processed_dir api_key output_directory
                output_name : str).

Definition host_trace := list host_event.

(** What a call can raise: an exception of the classes of the downloader,
    or the [IndexError] of an index out of range. *)
Inductive failure :=
| Raised (e : exn)
| IndexError (msg : str).

Inductive outcome (A : Type) :=
| Done (a : A)
| Failed (f : failure).
Arguments Done {A} a.
Arguments Failed {A} f.

(** The oracles of [main], each answering from the history so far.
    [host_read_text] is the text of the file as [open(path, "r")] hands
    it over, every line ending a newline; [host_summarize] is
    [process_pdfs_in_directory]. *)
Record host := mk_host {
  host_env : env;
  host_abspath : host_trace -> str -> outcome str;
  host_getcwd : host_trace -> outcome str;
  host_exists : host_trace -> str -> bool;
  host_makedirs : host_trace -> str -> outcome unit;
  host_now : host_trace -> datetime;
  host_read_text : host_trace -> str -> outcome str;
  host_listdir : host_trace -> str -> outcome (list str);
  host_summarize : host_trace -> str -> str -> str -> str -> str -> outcome unit
}.

Definition HM (A : Type) : Type := host_trace -> outcome A * host_trace.

Definition hret {A} (a : A) : HM A := fun _ => (Done a, []).

Definition hbind {A B} (m : HM A) (f : A -> HM B) : HM B :=
  fun h =>
    match m h with
    | (Done a, o1) => let '(r, o2) := f a (h ++ o1) in (r, o1 ++ o2)
    | (Failed e, o1) => (Failed e, o1)
    end.

Definition hlift {A} (r : outcome A) : HM A := fun _ => (r, []).

Declare Scope HM_scope.
Delimit Scope HM_scope with HM.
Notation "x <- m ;; k" := (hbind m (fun x => k))
  (at level 61, m at next level, right associativity) : HM_scope.
Notation "m ;; k" := (hbind m (fun _ => k))
  (at level 61, right associativity) : HM_scope.

(** The events of the downloader in a history of [main]. *)
Definition downloader_history (h : host_trace) : trace :=
  flat_map (fun ev => match ev with HDownloader e => [e] | _ => [] end) h.

(** [f.readlines()] on the text of a file: the lines, each with its line
    ending. *)
Fixpoint readlines (text : str) : list str :=
  match text with
  | [] => []
  | c :: rest =>
      if ascii_eqb c newline then [c] :: readlines rest
      else match readlines rest with
           | l :: ls => (c :: l) :: ls
           | [] => [[c]]
           end
  end.

(** [t.strftime("%Y-%m-%d")], the year as the C library of Linux writes
    it, with the digits it has. *)
Definition two_digits (n : Z) : str :=
  (if n <? 10 then lit "0" else []) ++ str_of_int n.

Definition strftime_Ymd (t : datetime) : str :=
  str_of_int (year t) ++ lit "-" ++ two_digits (month t) ++ lit "-"
  ++ two_digits (day t).

Definition patience : Z := 5.

Section Orchestrator.

Variable W : host.

Local Open Scope HM_scope.

(** A call into [downloader.py]. *)
Definition run_downloader {A} (m : M A) : HM A :=
  fun h =>
    let '(r, out) := m (downloader_history h) in
    (match r with Ret a => Done a | Raise e => Failed (Raised e) end,
     map HDownloader out).

Definition os_path_abspath (path : str) : HM str :=
  fun h => (host_abspath W h path, [HAbspath path]).

Definition os_getcwd : HM str :=
  fun h => (host_getcwd W h, [HGetcwd]).

Definition os_path_exists (path : str) : HM bool :=
  fun h => (Done (host_exists W h path), [HExists path]).

Definition os_makedirs (path : str) : HM unit :=
  fun h => (host_makedirs W h path, [HMakedirs path]).

Definition host_datetime_now : HM datetime :=
  fun h => (Done (host_now W h), [HNow]).

Definition read_lines (path : str) : HM (list str) :=
  fun h =>
    (match host_read_text W h path with
     | Done text => Done (readlines text)
     | Failed f => Failed f
     end, [HReadText path]).

Definition os_listdir (path : str) : HM (list str) :=
  fun h => (host_listdir W h path, [HListdir path]).

Definition process_pdfs_in_directory
    (pdf_directory processed_dir api_key output_directory output_name : str)
    : HM unit :=
  fun h =>
    (host_summarize W h pdf_directory processed_dir api_key output_directory
       output_name,
     [HSummarize pdf_directory processed_dir api_key output_directory
        output_name]).

(** The loop [while os.listdir(pdf_directory) and num_try < patience].
    [fuel] bounds the number of times the condition is evaluated; [None]
    is the answer of a loop that ran out of it. *)
Fixpoint summarize_loop (fuel : nat) (num_try : Z)
    (pdf_directory processed_dir api_key output_directory output_name : str)
    : HM (option unit) :=
  match fuel with
  | O => hret None
  | S fuel' =>
      listing <- os_listdir pdf_directory ;;
      if match listing with [] => false | _ :: _ => true end
         && (num_try <? patience)
      then
        process_pdfs_in_directory pdf_directory processed_dir api_key
          output_directory output_name ;;
        summarize_loop fuel' (num_try + 1) pdf_directory processed_dir api_key
          output_directory output_name
      else hret (Some tt)
  end.

Definition main : HM (option unit) :=
  let config_path := lit "config/url.json" in
  let output_dir := lit "data/downloaded_pdfs" in
  let days := 7 in
  run_downloader (download_pdfs (host_env W) config_path output_dir days None) ;;
  pdf_directory <- os_path_abspath output_dir ;;
  cwd <- os_getcwd ;;
  let output_directory := path_join cwd (lit "summary/") in
  present <- os_path_exists output_directory ;;
  (if present then hret tt else os_makedirs output_directory) ;;
  now <- host_datetime_now ;;
  let output_name := lit "summary-" ++ strftime_Ymd now ++ lit ".txt" in
  let processed_dir_acs := lit "data/summarized_pdfs" in
  lines <- read_lines (lit "config/api.txt") ;;
  api_key <- hlift (match lines with
                    | l :: _ => Done l
                    | [] => Failed (IndexError (lit "list index out of range"))
                    end) ;;
  summarize_loop 6 0 pdf_directory processed_dir_acs api_key output_directory
    output_name.

End Orchestrator.

(** One round of the loop: the directory is listed, the summarizer called. *)
Definition round (pdf_directory processed_dir api_key output_directory
                    output_name : str) : host_trace :=
  [HListdir pdf_directory;
   HSummarize pdf_directory processed_dir api_key output_directory output_name].

Fixpoint rounds (k : nat) (one : host_trace) : host_trace :=
  match k with
  | O => []
  | S k' => one ++ rounds k' one
  end.

(** The event belongs to the loop of [main]. *)
Definition loop_event (ev : host_event) : bool :=
  match ev with
  | HListdir _ | HSummarize _ _ _ _ _ => true
  | _ => false
  end.

(** The event comes before the loop. *)
Definition setup_event (ev : host_event) : bool := negb (loop_event ev).

(** The arguments of the calls of the summarizer in a trace, in order. *)
Definition summarizer_calls (out : host_trace)
    : list (str * str * str * str * str) :=
  flat_map (fun ev => match ev with
                      | HSummarize a b c d e => [(a, b, c, d, e)]
                      | _ => []
                      end) out.

(** The directories listed in a trace, in order. *)
Definition listings (out : host_trace) : list str :=
  flat_map (fun ev => match ev with HListdir d => [d] | _ => [] end) out.

(** A machine for [main]: the downloader meets the listing pages of
    [listing_env]; the key file holds one line; the download directory
    lists a file until the summarizer was called twice. *)
Definition sample_host : host :=
  mk_host listing_env
    (fun _ path => Done (lit "/home/user/" ++ path))
    (fun _ => Done (lit "/home/user"))
    (fun _ _ => false)
    (fun _ _ => Done tt)
    (fun _ => mk_datetime 2025 3 10 9 31 0 0)
    (fun _ _ => Done (lit "sk-0123" ++ [newline]))
    (fun h _ => if (length (summarizer_calls h) <? 2)%nat
                then Done [lit "2503.06000.pdf"] else Done [])
    (fun _ _ _ _ _ _ => Done tt).

(** The same machine without network. *)
Definition offline_host : host :=
  mk_host (config_env (PDict [(lit "url", PStr sample_base)]))
    (fun _ path => Done (lit "/home/user/" ++ path))
    (fun _ => Done (lit "/home/user"))
    (fun _ _ => false)
    (fun _ _ => Done tt)
    (fun _ => mk_datetime 2025 3 10 9 31 0 0)
    (fun _ _ => Done (lit "sk-0123" ++ [newline]))
    (fun _ _ => Done [])
    (fun _ _ _ _ _ _ => Done tt).

(** ** Absolute links *)

(** The target is an absolute URL in the sense of RFC 3986: it starts
    with a scheme, a letter followed by letters, digits, "+", "-" or ".",
    and a colon.  The letters of a scheme count in either case. *)
Definition is_letter (c : ascii) : bool :=
  between 65 90 (ord c) || between 97 122 (ord c).

Definition scheme_char (c : ascii) : bool :=
  is_letter c || isdecimal c || ascii_eqb c "+"%char || ascii_eqb c "-"%char
  || ascii_eqb c "."%char.

Fixpoint scheme_ends (s : str) : bool :=
  match s with
  | [] => false
  | c :: s' => if ascii_eqb c ":"%char then true else scheme_char c && scheme_ends s'
  end.

Definition is_absolute (target : str) : bool :=
  match target with
  | [] => false
  | c :: s => is_letter c && scheme_ends s
  end.

(** A result whose only hyperlink is a link labelled "pdf" to [target]. *)
Definition linked_result (target : str) : node :=
  Tag (lit "li") [lit "arxiv-result"] []
    [Tag (lit "p") [lit "list-title"] [] [anchor target (lit "pdf")]].

(** Two absolute links to a document: one by FTP, one with the scheme in
    capitals. *)
Definition ftp_link : str := lit "ftp://ftp.example.org/papers/2503.03395.pdf".

Definition capital_link : str := lit "HTTPS://arxiv.org/pdf/2503.03395".

(** * Properties *)

(** ** Strings *)

Lemma ascii_eqb_eq (a b : ascii) : ascii_eqb a b = true <-> a = b.
Proof. apply Ascii.eqb_eq. Qed.

Lemma ascii_eqb_refl (a : ascii) : ascii_eqb a a = true.
Proof. apply Ascii.eqb_refl. Qed.

Lemma str_eqb_eq (a b : str) : str_eqb a b = true <-> a = b.
Proof.
  revert b. induction a as [|x a IH]; intros [|y b]; simpl;
    try (split; [discriminate | congruence]); try tauto.
  rewrite andb_true_iff, ascii_eqb_eq, IH. split.
  - intros [-> ->]. reflexivity.
  - intros H. injection H as -> ->. auto.
Qed.

Lemma str_eqb_refl (a : str) : str_eqb a a = true.
Proof. apply str_eqb_eq. reflexivity. Qed.

Lemma strip_prefix_Some (p s s' : str) :
  strip_prefix p s = Some s' <-> s = p ++ s'.
Proof.
  revert s. induction p as [|x p IH]; intros s; simpl.
  - split; congruence.
  - destruct s as [|y s]; [split; discriminate|].
    destruct (ascii_eqb x y) eqn:Exy.
    + apply ascii_eqb_eq in Exy. subst y. rewrite IH. split; congruence.
    + split; [discriminate|]. intros H. injection H as -> _.
      rewrite ascii_eqb_refl in Exy. discriminate.
Qed.

Lemma startswith_true (s p : str) :
  startswith s p = true <-> exists post, s = p ++ post.
Proof.
  unfold startswith. destruct (strip_prefix p s) as [s'|] eqn:Hp.
  - apply strip_prefix_Some in Hp. split; eauto.
  - split; [discriminate|]. intros [post Hs].
    apply strip_prefix_Some in Hs. congruence.
Qed.

Lemma find_from_first (sub pre : str) :
  forall s i, first_occurrence sub pre s ->
              find_from sub s i = i + Z.of_nat (length pre).
Proof.
  induction pre as [|c pre IH]; intros s i [[post Hs] Hmin].
  - destruct s; simpl;
      (replace (startswith _ sub) with true;
       [lia | symmetry; apply startswith_true; eauto]).
  - subst s. cbn [app find_from].
    destruct (startswith (c :: pre ++ sub ++ post) sub) eqn:Hsw.
    + apply startswith_true in Hsw. destruct Hsw as [post' Hs'].
      specialize (Hmin [] post' Hs'). simpl in Hmin. lia.
    + rewrite IH.
      * cbn [length]. lia.
      * split; [eauto|]. intros pre' post' Hs'.
        specialize (Hmin (c :: pre') post'). simpl in Hmin.
        rewrite Hs' in Hmin. specialize (Hmin eq_refl). lia.
Qed.

Lemma find_from_absent (sub : str) :
  forall s i, ~ occurs sub s -> find_from sub s i = -1.
Proof.
  induction s as [|c s IH]; intros i Hno; simpl.
  - destruct (startswith [] sub) eqn:Hsw; [|reflexivity].
    apply startswith_true in Hsw. destruct Hsw as [post Hs].
    exfalso. apply Hno. exists [], post. exact Hs.
  - destruct (startswith (c :: s) sub) eqn:Hsw.
    + apply startswith_true in Hsw. destruct Hsw as [post Hs].
      exfalso. apply Hno. exists [], post. exact Hs.
    + apply IH. intros [pre [post Hs]]. apply Hno.
      exists (c :: pre), post. simpl. congruence.
Qed.

Lemma find_from_range (sub : str) :
  forall s i, 0 <= i -> find_from sub s i = -1 \/ i <= find_from sub s i.
Proof.
  induction s as [|c s IH]; intros i Hi; simpl.
  - destruct (startswith [] sub); lia.
  - destruct (startswith (c :: s) sub); [lia|].
    destruct (IH (i + 1)); lia.
Qed.

Lemma find_from_occurs (sub : str) :
  forall s i, 0 <= i -> find_from sub s i <> -1 -> occurs sub s.
Proof.
  induction s as [|c s IH]; intros i Hi; simpl.
  - destruct (startswith [] sub) eqn:Hsw; [|congruence].
    intros _. apply startswith_true in Hsw. destruct Hsw as [post Hs].
    exists [], post. exact Hs.
  - destruct (startswith (c :: s) sub) eqn:Hsw.
    + intros _. apply startswith_true in Hsw. destruct Hsw as [post Hs].
      exists [], post. exact Hs.
    + intros Hf. destruct (IH (i + 1)) as [pre [post Hs]]; [lia | exact Hf |].
      exists (c :: pre), post. simpl. congruence.
Qed.

Lemma occurs_find_from (sub : str) :
  forall s i, occurs sub s -> i <= find_from sub s i.
Proof.
  induction s as [|c s IH]; intros i [pre [post Hs]]; simpl.
  - replace (startswith [] sub) with true; [lia|].
    symmetry. apply startswith_true. destruct pre; [eauto | discriminate].
  - destruct (startswith (c :: s) sub) eqn:Hsw; [lia|].
    destruct pre as [|c' pre].
    + assert (startswith (c :: s) sub = true) by (apply startswith_true; eauto).
      congruence.
    + injection Hs as _ Hs.
      assert (i + 1 <= find_from sub s (i + 1)) by (apply IH; exists pre, post; exact Hs).
      lia.
Qed.

Lemma find_from_sound (sub : str) :
  forall s i k, 0 <= i -> find_from sub s i = i + Z.of_nat k ->
                first_occurrence sub (firstn k s) s.
Proof.
  induction s as [|c s IH]; intros i k Hi; simpl.
  - destruct (startswith [] sub) eqn:Hsw; [|lia].
    intros _. rewrite firstn_nil. apply startswith_true in Hsw.
    split; [exact Hsw | simpl; lia].
  - destruct (startswith (c :: s) sub) eqn:Hsw.
    + intros Hk. replace k with O by lia. apply startswith_true in Hsw.
      split; [exact Hsw | simpl; lia].
    + intros Hk. destruct (find_from_range sub s (i + 1)) as [Hm|Hge]; [lia | lia |].
      destruct k as [|k]; [lia|].
      destruct (IH (i + 1) k) as [[post Hs] Hmin]; [lia | lia |].
      split.
      * exists post. simpl. congruence.
      * intros [|c' pre'] post' Hs'.
        -- assert (startswith (c :: s) sub = true)
             by (apply startswith_true; eauto).
           congruence.
        -- injection Hs' as _ Hs'. specialize (Hmin pre' post' Hs').
           simpl. lia.
Qed.

(** [find] answers with the first occurrence when it answers at all. *)
Lemma find_sound (s sub : str) (k : nat) :
  find s sub = Z.of_nat k -> first_occurrence sub (firstn k s) s.
Proof. intros H. apply (find_from_sound sub s 0 k); [lia | exact H]. Qed.

Lemma contains_occurs (sub s : str) : contains sub s = true <-> occurs sub s.
Proof.
  unfold contains, find. rewrite negb_true_iff, Z.eqb_neq. split.
  - apply find_from_occurs. lia.
  - intros Hocc. pose proof (occurs_find_from sub s 0 Hocc). lia.
Qed.

Lemma contains_false (sub s : str) : contains sub s = false <-> ~ occurs sub s.
Proof.
  rewrite <- contains_occurs. destruct (contains sub s); split; congruence.
Qed.

Lemma slice_to_prefix (pre rest : str) :
  slice_to (pre ++ rest) (Z.of_nat (length pre)) = pre.
Proof.
  unfold slice_to. rewrite length_app.
  destruct (Z.ltb_spec (Z.of_nat (length pre)) 0); [lia|].
  rewrite Z.min_l by lia. rewrite Nat2Z.id.
  rewrite firstn_app, Nat.sub_diag, firstn_all. simpl. apply app_nil_r.
Qed.

Lemma slice_to_minus_one (s : str) : slice_to s (-1) = removelast s.
Proof.
  unfold slice_to. change (-1 <? 0) with true. cbv iota.
  rewrite removelast_firstn_len. f_equal. lia.
Qed.

(** ** The calendar *)

Lemma days_before_year_next (y : Z) :
  days_before_year (y + 1) = days_before_year y + (if is_leap y then 366 else 365).
Proof.
  unfold days_before_year, is_leap.
  replace (y + 1 - 1) with y by lia.
  destruct (Z.eqb_spec (y mod 4) 0); destruct (Z.eqb_spec (y mod 100) 0);
    destruct (Z.eqb_spec (y mod 400) 0); cbn [andb orb negb];
    Z.div_mod_to_equations; lia.
Qed.

Lemma days_before_year_mono (y y' : Z) :
  y <= y' -> days_before_year y <= days_before_year y'.
Proof.
  unfold days_before_year. intros H. Z.div_mod_to_equations. lia.
Qed.

Ltac month_cases m :=
  let H := fresh "Hm" in
  assert (H : m = 1 \/ m = 2 \/ m = 3 \/ m = 4 \/ m = 5 \/ m = 6 \/ m = 7
              \/ m = 8 \/ m = 9 \/ m = 10 \/ m = 11 \/ m = 12) by lia;
  repeat (destruct H as [->|H]); [..|subst m].

Lemma valid_date_bounds (y m d : Z) :
  valid_date y m d = true ->
  1 <= y <= 9999 /\ 1 <= m <= 12 /\ 1 <= d <= days_in_month y m.
Proof.
  unfold valid_date, between. rewrite !andb_true_iff, !Z.leb_le. lia.
Qed.

(** Within a year, later months begin after earlier months end. *)
Lemma days_before_month_mono (y m m' : Z) :
  1 <= m -> m < m' -> m' <= 12 ->
  days_before_month y m + days_in_month y m <= days_before_month y m'.
Proof.
  intros H1 H2 H3. unfold days_before_month, days_in_month.
  destruct (is_leap y); month_cases m; month_cases m';
    first [lia | now vm_compute].
Qed.

Lemma year_length (y m : Z) :
  1 <= m <= 12 ->
  0 <= days_before_month y m
  /\ days_before_month y m + days_in_month y m
     <= (if is_leap y then 366 else 365).
Proof.
  intros H. unfold days_before_month, days_in_month.
  destruct (is_leap y); month_cases m; first [lia | now vm_compute].
Qed.

Lemma ymd2ord_lt (y m d y' m' d' : Z) :
  valid_date y m d = true -> valid_date y' m' d' = true ->
  y < y' \/ (y = y' /\ (m < m' \/ (m = m' /\ d < d'))) ->
  ymd2ord y m d < ymd2ord y' m' d'.
Proof.
  intros Hv Hv' Hlt.
  apply valid_date_bounds in Hv, Hv'. unfold ymd2ord.
  destruct Hlt as [Hy|[-> [Hm|[-> Hd]]]].
  - pose proof (days_before_year_mono (y + 1) y' ltac:(lia)) as Hmono.
    rewrite days_before_year_next in Hmono.
    pose proof (year_length y m ltac:(lia)).
    pose proof (year_length y' m' ltac:(lia)). lia.
  - pose proof (days_before_month_mono y' m m' ltac:(lia) Hm ltac:(lia)). lia.
  - lia.
Qed.

Lemma valid_datetime_bounds (t : datetime) :
  valid_datetime t = true ->
  valid_date (year t) (month t) (day t) = true
  /\ 0 <= hour t <= 23 /\ 0 <= minute t <= 59 /\ 0 <= second t <= 59
  /\ 0 <= microsecond t <= 999999.
Proof.
  unfold valid_datetime, between.
  rewrite !andb_true_iff, !Z.leb_le. tauto.
Qed.

(** [<] on valid datetimes is the order of time. *)
Lemma datetime_lt_timeline (a b : datetime) :
  valid_datetime a = true -> valid_datetime b = true ->
  (datetime_lt a b = true <-> timestamp a < timestamp b).
Proof.
  intros Ha Hb.
  apply valid_datetime_bounds in Ha, Hb.
  destruct Ha as (Hda & Ha), Hb as (Hdb & Hb).
  unfold datetime_lt, fields, timestamp. cbn [lex_lt].
  rewrite andb_false_r, orb_false_r.
  rewrite !orb_true_iff, !andb_true_iff, !Z.ltb_lt, !Z.eqb_eq.
  pose proof (ymd2ord_lt (year a) (month a) (day a) (year b) (month b) (day b)
                Hda Hdb) as Hab.
  pose proof (ymd2ord_lt (year b) (month b) (day b) (year a) (month a) (day a)
                Hdb Hda) as Hba.
  destruct (Z.lt_trichotomy (year a) (year b)) as [Hy|[Hy|Hy]].
  - specialize (Hab ltac:(lia)). clear Hba. split; [lia | intros _; lia].
  - destruct (Z.lt_trichotomy (month a) (month b)) as [Hm|[Hm|Hm]].
    + specialize (Hab ltac:(lia)). clear Hba. split; [lia | intros _; lia].
    + destruct (Z.lt_trichotomy (day a) (day b)) as [Hd|[Hd|Hd]].
      * specialize (Hab ltac:(lia)). clear Hba. split; [lia | intros _; lia].
      * clear Hab Hba. rewrite Hy, Hm, Hd. lia.
      * specialize (Hba ltac:(lia)). clear Hab. lia.
    + specialize (Hba ltac:(lia)). clear Hab. lia.
  - specialize (Hba ltac:(lia)). clear Hab. lia.
Qed.

Lemma month_day_table :
  forallb (fun k => month_day_ok (Z.of_nat k) true && month_day_ok (Z.of_nat k) false)
          (seq 0 365) = true.
Proof. vm_compute. reflexivity. Qed.

Lemma month_day_spec (n : Z) (leapyear : bool) :
  0 <= n < 365 -> month_day_ok n leapyear = true.
Proof.
  intros Hn. pose proof month_day_table as H.
  rewrite forallb_forall in H. specialize (H (Z.to_nat n)).
  rewrite Z2Nat.id in H by lia.
  rewrite andb_true_iff in H.
  destruct leapyear; apply H; apply in_seq; lia.
Qed.

Lemma ord2ymd_spec (n : Z) :
  1 <= n <= MAXORDINAL ->
  let '(y, m, d) := ord2ymd n in
  valid_date y m d = true /\ ymd2ord y m d = n.
Proof.
  unfold MAXORDINAL. intros Hn. unfold ord2ymd.
  set (n400 := (n - 1) / 146097). set (r400 := (n - 1) mod 146097).
  set (n100 := r400 / 36524). set (r100 := r400 mod 36524).
  set (n4 := r100 / 1461). set (r4 := r100 mod 1461).
  set (n1 := r4 / 365). set (r1 := r4 mod 365).
  assert (H400 : n - 1 = 146097 * n400 + r400 /\ 0 <= r400 < 146097)
    by (subst n400 r400; split; [apply Z.div_mod | apply Z.mod_pos_bound]; lia).
  assert (H100 : r400 = 36524 * n100 + r100 /\ 0 <= r100 < 36524)
    by (subst n100 r100; split; [apply Z.div_mod | apply Z.mod_pos_bound]; lia).
  assert (H4 : r100 = 1461 * n4 + r4 /\ 0 <= r4 < 1461)
    by (subst n4 r4; split; [apply Z.div_mod | apply Z.mod_pos_bound]; lia).
  assert (H1 : r4 = 365 * n1 + r1 /\ 0 <= r1 < 365)
    by (subst n1 r1; split; [apply Z.div_mod | apply Z.mod_pos_bound]; lia).
  clearbody n400 r400 n100 r100 n4 r4 n1 r1.
  set (y := n400 * 400 + 1 + n100 * 100 + n4 * 4 + n1).
  assert (Hq : 0 <= n400 <= 24 /\ 0 <= n100 <= 4 /\ 0 <= n4 <= 24 /\ 0 <= n1 <= 4)
    by lia.
  destruct (Z.eqb_spec n1 4) as [E1|E1]; [|destruct (Z.eqb_spec n100 4) as [E100|E100]];
    cbn [orb].
  - (* the last day of a leap year that ends a 4-year cycle *)
    assert (Hleap : is_leap (y - 1) = true).
    { unfold is_leap. subst y.
      replace ((n400 * 400 + 1 + n100 * 100 + n4 * 4 + n1 - 1) mod 4) with 0
        by (Z.div_mod_to_equations; lia).
      cbn [Z.eqb andb].
      destruct (Z.eqb_spec ((n400 * 400 + 1 + n100 * 100 + n4 * 4 + n1 - 1) mod 100) 0)
        as [E|E]; [|reflexivity].
      cbn [negb orb]. apply Z.eqb_eq. Z.div_mod_to_equations. lia. }
    unfold valid_date, ymd2ord, days_before_month, between.
    change (days_in_month (y - 1) 12) with 31. rewrite Hleap.
    change (DAYS_BEFORE_MONTH 12 + (if (2 <? 12) && true then 1 else 0)) with 335.
    split.
    + rewrite !andb_true_iff, !Z.leb_le. subst y. lia.
    + unfold days_before_year. subst y. Z.div_mod_to_equations. lia.
  - assert (Hleap : is_leap (y - 1) = true).
    { unfold is_leap. subst y.
      replace ((n400 * 400 + 1 + n100 * 100 + n4 * 4 + n1 - 1) mod 4) with 0
        by (Z.div_mod_to_equations; lia).
      replace ((n400 * 400 + 1 + n100 * 100 + n4 * 4 + n1 - 1) mod 400) with 0
        by (Z.div_mod_to_equations; lia).
      cbn. apply orb_true_r. }
    unfold valid_date, ymd2ord, days_before_month, between.
    change (days_in_month (y - 1) 12) with 31. rewrite Hleap.
    change (DAYS_BEFORE_MONTH 12 + (if (2 <? 12) && true then 1 else 0)) with 335.
    split.
    + rewrite !andb_true_iff, !Z.leb_le. subst y. lia.
    + unfold days_before_year. subst y. Z.div_mod_to_equations. lia.
  - set (leapyear := (n1 =? 3) && (negb (n4 =? 24) || (n100 =? 3))).
    assert (Hleap : is_leap y = leapyear).
    { unfold is_leap, leapyear. subst y.
      destruct (Z.eqb_spec n1 3); destruct (Z.eqb_spec n4 24);
        destruct (Z.eqb_spec n100 3);
        destruct (Z.eqb_spec ((n400 * 400 + 1 + n100 * 100 + n4 * 4 + n1) mod 4) 0);
        destruct (Z.eqb_spec ((n400 * 400 + 1 + n100 * 100 + n4 * 4 + n1) mod 100) 0);
        destruct (Z.eqb_spec ((n400 * 400 + 1 + n100 * 100 + n4 * 4 + n1) mod 400) 0);
        cbn; try reflexivity; exfalso; Z.div_mod_to_equations; lia. }
    pose proof (month_day_spec r1 leapyear ltac:(lia)) as Hmd.
    unfold month_day_ok in Hmd.
    destruct (month_day r1 leapyear) as [m d].
    unfold between in Hmd. rewrite !andb_true_iff, !Z.leb_le, Z.eqb_eq in Hmd.
    unfold valid_date, ymd2ord, days_before_month, days_in_month, between.
    rewrite Hleap. split.
    + rewrite !andb_true_iff, !Z.leb_le. subst y. clearbody leapyear.
      destruct (Z.eqb_spec m 2) as [->|_]; [|cbn [andb] in *; lia].
      change (DAYS_IN_MONTH 2) with 28 in *.
      destruct leapyear; cbn [andb] in *; lia.
    + assert (Hy : days_before_year y = n - 1 - r1).
      { unfold days_before_year. subst y. Z.div_mod_to_equations. lia. }
      lia.
Qed.

(** [now - timedelta(days=days)] is a datetime, [days] days before [now]. *)
Lemma sub_days_spec (now cutoff : datetime) (days : Z) :
  valid_datetime now = true ->
  sub_days now days = Ret cutoff ->
  valid_datetime cutoff = true
  /\ timestamp cutoff = timestamp now - days * MICROSECONDS_PER_DAY.
Proof.
  intros Hnow. unfold sub_days.
  destruct (999999999 <? Z.abs days); [discriminate|].
  destruct ((0 <? ymd2ord (year now) (month now) (day now) - days)
            && (ymd2ord (year now) (month now) (day now) - days <=? MAXORDINAL))
    eqn:Hrange; [|discriminate].
  apply andb_true_iff in Hrange. rewrite Z.ltb_lt, Z.leb_le in Hrange.
  pose proof (ord2ymd_spec (ymd2ord (year now) (month now) (day now) - days)
                ltac:(lia)) as Hord.
  destruct (ord2ymd _) as [[y m] d]. destruct Hord as [Hvalid Hsame].
  intros H. injection H as <-.
  apply valid_datetime_bounds in Hnow. destruct Hnow as (_ & Hh & Hm & Hs & Hu).
  split.
  - unfold valid_datetime, between. cbn [year month day hour minute second microsecond].
    rewrite Hvalid, !andb_true_iff, !Z.leb_le. cbn [andb]. lia.
  - unfold timestamp, MICROSECONDS_PER_DAY.
    cbn [year month day hour minute second microsecond]. rewrite Hsame. lia.
Qed.

(** [strptime] returns datetimes only. *)
Lemma strptime_dBY_valid (s : str) (t : datetime) :
  strptime_dBY s = Ret t -> valid_datetime t = true.
Proof.
  unfold strptime_dBY.
  destruct (match_dBY s) as [[[[d m] y] rest]|]; [|discriminate].
  destruct rest; [|discriminate].
  unfold new_date.
  destruct (between 1 9999 (int_of_digits y)) eqn:Hy; [|discriminate].
  destruct (between 1 12 m) eqn:Hm; [|discriminate].
  destruct (between 1 (days_in_month (int_of_digits y) m) (int_of_digits (lstrip d)))
    eqn:Hd; [|discriminate].
  cbn [negb]. intros H. injection H as <-.
  unfold valid_datetime, valid_date.
  cbn [year month day hour minute second microsecond].
  rewrite Hy, Hm, Hd. reflexivity.
Qed.

(** ** [extract_section] *)

(** C9. [extract_section] returns the flattened text of the document up to
    the first occurrence of "References", the marker and what follows it
    left out.  When the marker does not occur, [find] answers -1 and the
    slice [text_content[:-1]] is taken: the flattened text without its last
    character, which is not a cut at any marker. *)
Theorem extract_section_truncates (doc : list str) :
  (forall pre, first_occurrence (lit "References") pre (flattened doc) ->
               extract_section doc = pre)
  /\ (~ occurs (lit "References") (flattened doc) ->
      find (flattened doc) (lit "References") = -1
      /\ extract_section doc = slice_to (flattened doc) (-1)
      /\ extract_section doc = removelast (flattened doc)).
Proof.
  unfold extract_section, find. split.
  - intros pre Hfirst. rewrite (find_from_first _ pre) by exact Hfirst.
    destruct Hfirst as [[post Hs] _]. rewrite Hs. apply slice_to_prefix.
  - intros Hno. rewrite find_from_absent by exact Hno.
    repeat split; auto using slice_to_minus_one.
Qed.

(** With the marker on the second page, the text before it comes back;
    without it, the last character is lost. *)
Lemma extract_section_truncates_witness :
  extract_section [lit "ab" ++ [chr 10] ++ lit "c"; lit "d References [1]"]
  = lit "ab c d "
  /\ extract_section [lit "ab" ++ [chr 10] ++ lit "c"; lit "d"] = lit "ab c d".
Proof.
  split.
  - apply (proj1 (extract_section_truncates _)).
    apply (find_sound
             (flattened [lit "ab" ++ [chr 10] ++ lit "c"; lit "d References [1]"])
             (lit "References") 7).
    reflexivity.
  - destruct (proj2 (extract_section_truncates
                       [lit "ab" ++ [chr 10] ++ lit "c"; lit "d"]))
      as (_ & _ & H); [apply contains_false; reflexivity | exact H].
Defined.

(** ** [extract_pdf_url] *)

Lemma first_pdf_link_skip (before rest : list node) :
  (forall x, In x before -> ~ mentions_pdf x) ->
  first_pdf_link (before ++ rest) = first_pdf_link rest.
Proof.
  induction before as [|x before IH]; intros Hno; [reflexivity|].
  cbn [app first_pdf_link]. fold (href x).
  replace (contains (lit "pdf") (lower (href x))) with false.
  - apply IH. intros y Hy. apply Hno. right. exact Hy.
  - symmetry. apply contains_false. apply Hno. left. reflexivity.
Qed.

Lemma first_pdf_link_hit (a : node) (rest : list node) :
  mentions_pdf a ->
  first_pdf_link (a :: rest)
  = Some (if startswith (href a) (lit "http") then href a
          else lit "https://arxiv.org" ++ href a).
Proof.
  intros Ha. cbn [first_pdf_link]. fold (href a).
  replace (contains (lit "pdf") (lower (href a))) with true
    by (symmetry; apply contains_occurs; exact Ha).
  destruct (startswith (href a) (lit "http")); reflexivity.
Qed.

(** What [extract_pdf_url] does, case by case: it takes the first
    hyperlink of the block whose target contains "pdf" in any case.  A
    target that starts with "http" comes back as it is, any other is put
    after "https://arxiv.org", so "/pdf/2503.03395" becomes
    "https://arxiv.org/pdf/2503.03395".  With no such hyperlink the URL is
    absent. *)
Theorem extract_pdf_url_first_pdf_link (result : node) :
  (forall before a after,
      find_all result (lit "a") = before ++ a :: after ->
      (forall x, In x before -> ~ mentions_pdf x) ->
      mentions_pdf a ->
      (startswith (href a) (lit "http") = true ->
       extract_pdf_url result = Some (href a))
      /\ (startswith (href a) (lit "http") = false ->
          extract_pdf_url result = Some (lit "https://arxiv.org" ++ href a))
      /\ (href a = lit "/pdf/2503.03395" ->
          extract_pdf_url result = Some (lit "https://arxiv.org/pdf/2503.03395")))
  /\ ((forall x, In x (find_all result (lit "a")) -> ~ mentions_pdf x) ->
      extract_pdf_url result = None).
Proof.
  unfold extract_pdf_url. split.
  - intros before a after Hall Hbefore Ha.
    rewrite Hall, first_pdf_link_skip by exact Hbefore.
    rewrite first_pdf_link_hit by exact Ha.
    repeat split.
    + intros ->. reflexivity.
    + intros ->. reflexivity.
    + intros ->. reflexivity.
  - intros Hno. rewrite <- (app_nil_r (find_all _ _)).
    rewrite first_pdf_link_skip by exact Hno. reflexivity.
Qed.

(** The sample entry: its first hyperlink is the abstract page, its second
    the relative link to the document. *)
Lemma extract_pdf_url_first_pdf_link_witness :
  extract_pdf_url sample_result = Some (lit "https://arxiv.org/pdf/2503.03395").
Proof.
  destruct (proj1 (extract_pdf_url_first_pdf_link sample_result)
              [anchor (lit "https://arxiv.org/abs/2503.03395") (lit "arXiv:2503.03395")]
              (anchor (lit "/pdf/2503.03395") (lit "pdf"))
              [anchor (lit "https://arxiv.org/format/2503.03395") (lit "other")])
    as (_ & _ & H).
  - reflexivity.
  - intros x [<-|[]]. apply contains_false. reflexivity.
  - apply contains_occurs. reflexivity.
  - apply H. reflexivity.
Defined.

(** C4. An absolute link is not always returned unchanged: the test of
    [extract_pdf_url] is whether the target starts with "http".  A link by
    FTP, and a link whose scheme is written in capitals, are absolute, are
    the first hyperlink with "pdf" in the target, and come back with
    "https://arxiv.org" put before them. *)
Theorem extract_pdf_url_changes_absolute_link :
  (find_all (linked_result ftp_link) (lit "a") = [anchor ftp_link (lit "pdf")]
   /\ href (anchor ftp_link (lit "pdf")) = ftp_link
   /\ is_absolute ftp_link = true
   /\ extract_pdf_url (linked_result ftp_link)
      = Some (lit "https://arxiv.orgftp://ftp.example.org/papers/2503.03395.pdf")
   /\ extract_pdf_url (linked_result ftp_link) <> Some ftp_link)
  /\ (find_all (linked_result capital_link) (lit "a")
      = [anchor capital_link (lit "pdf")]
      /\ href (anchor capital_link (lit "pdf")) = capital_link
      /\ is_absolute capital_link = true
      /\ extract_pdf_url (linked_result capital_link)
         = Some (lit "https://arxiv.orgHTTPS://arxiv.org/pdf/2503.03395")
      /\ extract_pdf_url (linked_result capital_link) <> Some capital_link).
Proof.
  split.
  - split; [reflexivity|]. split; [reflexivity|]. split; [reflexivity|].
    split; [reflexivity|]. vm_compute. discriminate.
  - split; [reflexivity|]. split; [reflexivity|]. split; [reflexivity|].
    split; [reflexivity|]. vm_compute. discriminate.
Qed.

(** ** [extract_submission_date] *)

Lemma consumed_app (a b : str) : consumed (a ++ b) b = a.
Proof.
  unfold consumed. rewrite length_app, Nat.add_sub.
  rewrite firstn_app, Nat.sub_diag, firstn_all. simpl. apply app_nil_r.
Qed.

Lemma rep_match_exhausted {R} (p : ascii -> bool) (s : str) (k : str -> option R) :
  rep_match p 0 (Some 0%nat) s k = k s.
Proof. destruct s; simpl; [|rewrite andb_false_r]; reflexivity. Qed.

(** Every failure of [strptime] is a [ValueError]. *)
Lemma strptime_dBY_raises (s : str) (e : exn) :
  strptime_dBY s = Raise e -> is_ValueError e = true.
Proof.
  unfold strptime_dBY.
  destruct (match_dBY s) as [[[[d m] y] rest]|]; [destruct rest|].
  - unfold new_date.
    repeat (match goal with
            | |- (if ?c then _ else _) = _ -> _ => destruct c
            end; [intros H; injection H as <-; reflexivity|]).
    discriminate.
  - intros H; injection H as <-; reflexivity.
  - intros H; injection H as <-; reflexivity.
Qed.

Lemma match_group1_needs_marker (s : str) :
  strip_prefix (lit "Submitted") s = None ->
  match_group1 date_pattern_head date_pattern_group s = None.
Proof.
  intros H. unfold match_group1, date_pattern_head.
  cbn [rmatch]. rewrite H. reflexivity.
Qed.

Lemma search_group1_no_marker (s : str) :
  ~ occurs (lit "Submitted") s ->
  search_group1 date_pattern_head date_pattern_group s = None.
Proof.
  induction s as [|c s IH]; intros Hno; cbn [search_group1];
    rewrite match_group1_needs_marker.
  - reflexivity.
  - destruct (strip_prefix (lit "Submitted") []) eqn:Hp; [|reflexivity].
    discriminate Hp.
  - apply IH. intros [pre [post Hs]]. apply Hno.
    exists (c :: pre), post. rewrite Hs. reflexivity.
  - destruct (strip_prefix (lit "Submitted") (c :: s)) as [s'|] eqn:Hp;
      [|reflexivity].
    apply strip_prefix_Some in Hp. exfalso. apply Hno. exists [], s'. exact Hp.
Qed.

(** "Submitted" cannot begin inside a text free of it and end inside a
    following text that begins with its capital S. *)
Lemma marker_no_straddle (pre rest : str) :
  ~ occurs (lit "Submitted") pre -> pre <> [] ->
  strip_prefix (lit "Submitted") (pre ++ "S"%char :: rest) = None.
Proof.
  intros Hno Hne.
  destruct (strip_prefix (lit "Submitted") (pre ++ "S"%char :: rest))
    as [s'|] eqn:Hp; [|reflexivity].
  exfalso. apply strip_prefix_Some in Hp.
  destruct pre as [|c1 pre]; [congruence|].
  do 8 (destruct pre as [|? pre]; [cbn in Hp; congruence|]).
  cbn in Hp. injection Hp as -> -> -> -> -> -> -> -> -> _.
  apply Hno. exists [], pre. reflexivity.
Qed.

Lemma search_group1_skip (pre rest : str) :
  ~ occurs (lit "Submitted") pre ->
  search_group1 date_pattern_head date_pattern_group (pre ++ "S"%char :: rest)
  = search_group1 date_pattern_head date_pattern_group ("S"%char :: rest).
Proof.
  induction pre as [|c pre IH]; intros Hno; [reflexivity|].
  cbn [app search_group1].
  rewrite match_group1_needs_marker.
  - apply IH. intros [p [q Hs]]. apply Hno. exists (c :: p), q.
    rewrite Hs. reflexivity.
  - apply (marker_no_straddle (c :: pre) rest Hno). discriminate.
Qed.

Lemma match_group1_spaced (post : str) :
  match_group1 date_pattern_head date_pattern_group
    (lit "Submitted 4 March, 2025" ++ post)
  = Some (lit "4 March, 2025").
Proof.
  unfold match_group1, date_pattern_head, date_pattern_group.
  cbn -[consumed]. rewrite rep_match_exhausted.
  change (consumed _ post) with (consumed (lit "4 March, 2025" ++ post) post).
  rewrite consumed_app. reflexivity.
Qed.

Lemma match_group1_unspaced (post : str) :
  match_group1 date_pattern_head date_pattern_group
    (lit "Submitted4 March, 2025" ++ post)
  = Some (lit "4 March, 2025").
Proof.
  unfold match_group1, date_pattern_head, date_pattern_group.
  cbn -[consumed]. rewrite rep_match_exhausted.
  change (consumed _ post) with (consumed (lit "4 March, 2025" ++ post) post).
  rewrite consumed_app. reflexivity.
Qed.

Lemma search_group1_spaced (pre post : str) :
  ~ occurs (lit "Submitted") pre ->
  search_group1 date_pattern_head date_pattern_group
    (pre ++ lit "Submitted 4 March, 2025" ++ post)
  = Some (lit "4 March, 2025").
Proof.
  intros Hno. change (lit "Submitted 4 March, 2025" ++ post)
    with ("S"%char :: lit "ubmitted 4 March, 2025" ++ post).
  rewrite search_group1_skip by exact Hno.
  cbn [search_group1].
  change ("S"%char :: lit "ubmitted 4 March, 2025" ++ post)
    with (lit "Submitted 4 March, 2025" ++ post).
  rewrite match_group1_spaced. reflexivity.
Qed.

Lemma search_group1_unspaced (pre post : str) :
  ~ occurs (lit "Submitted") pre ->
  search_group1 date_pattern_head date_pattern_group
    (pre ++ lit "Submitted4 March, 2025" ++ post)
  = Some (lit "4 March, 2025").
Proof.
  intros Hno. change (lit "Submitted4 March, 2025" ++ post)
    with ("S"%char :: lit "ubmitted4 March, 2025" ++ post).
  rewrite search_group1_skip by exact Hno.
  cbn [search_group1].
  change ("S"%char :: lit "ubmitted4 March, 2025" ++ post)
    with (lit "Submitted4 March, 2025" ++ post).
  rewrite match_group1_unspaced. reflexivity.
Qed.

Lemma extract_submission_date_returns (result : node) :
  exists found, extract_submission_date result = Ret found.
Proof.
  unfold extract_submission_date.
  destruct (find_class result (lit "p") (lit "is-size-7")); [|eauto].
  destruct (search_group1 _ _ _) as [date_str|]; [|eauto].
  destruct (strptime_dBY date_str) as [t|e] eqn:Hp; [eauto|].
  rewrite (strptime_dBY_raises _ _ Hp). eauto.
Qed.

(** The date of a block is a datetime. *)
Lemma extract_submission_date_valid (result : node) (t : datetime) :
  extract_submission_date result = Ret (Some t) -> valid_datetime t = true.
Proof.
  unfold extract_submission_date.
  destruct (find_class result (lit "p") (lit "is-size-7")); [|discriminate].
  destruct (search_group1 _ _ _) as [date_str|]; [|discriminate].
  destruct (strptime_dBY date_str) as [t'|e] eqn:Hp.
  - intros H. injection H as <-. apply (strptime_dBY_valid _ _ Hp).
  - destruct (is_ValueError e); discriminate.
Qed.

(** C3. A block whose date paragraph reads "Submitted 4 March, 2025", or
    "Submitted4 March, 2025" without the space, after text free of
    "Submitted" and before any text, yields 4 March 2025 at midnight.  A
    block without date paragraph, one whose paragraph lacks "Submitted",
    and one whose captured date [strptime] refuses all yield no date; the
    function never raises. *)
Theorem extract_submission_date_parses (result : node) :
  (find_class result (lit "p") (lit "is-size-7") = None ->
   extract_submission_date result = Ret None)
  /\ (forall date_info,
        find_class result (lit "p") (lit "is-size-7") = Some date_info ->
        (forall pre post,
            get_text_strip date_info = pre ++ lit "Submitted 4 March, 2025" ++ post ->
            ~ occurs (lit "Submitted") pre ->
            extract_submission_date result
            = Ret (Some (mk_datetime 2025 3 4 0 0 0 0)))
        /\ (forall pre post,
              get_text_strip date_info = pre ++ lit "Submitted4 March, 2025" ++ post ->
              ~ occurs (lit "Submitted") pre ->
              extract_submission_date result
              = Ret (Some (mk_datetime 2025 3 4 0 0 0 0)))
        /\ (~ occurs (lit "Submitted") (get_text_strip date_info) ->
            extract_submission_date result = Ret None)
        /\ (forall date_str e,
              search_group1 date_pattern_head date_pattern_group
                (get_text_strip date_info) = Some date_str ->
              strptime_dBY date_str = Raise e ->
              extract_submission_date result = Ret None))
  /\ exists found, extract_submission_date result = Ret found.
Proof.
  split; [|split]; [| |apply extract_submission_date_returns];
    unfold extract_submission_date.
  - intros ->. reflexivity.
  - intros date_info ->. repeat split.
    + intros pre post -> Hno. rewrite search_group1_spaced by exact Hno.
      reflexivity.
    + intros pre post -> Hno. rewrite search_group1_unspaced by exact Hno.
      reflexivity.
    + intros Hno. rewrite search_group1_no_marker by exact Hno. reflexivity.
    + intros date_str e -> Hp. rewrite Hp.
      rewrite (strptime_dBY_raises _ _ Hp). reflexivity.
Qed.

(** The sample entry: its date paragraph flattens to
    "Submitted4 March, 2025;originally announcedMarch 2025.". *)
Lemma extract_submission_date_parses_witness :
  extract_submission_date sample_result
  = Ret (Some (mk_datetime 2025 3 4 0 0 0 0)).
Proof.
  destruct (extract_submission_date_parses sample_result) as (_ & H & _).
  destruct (H (Tag (lit "p") [lit "is-size-7"] []
                 [Tag (lit "span") [lit "has-text-black-bis"] [] [Text (lit "Submitted")];
                  Text (lit " 4 March, 2025; ");
                  Tag (lit "span") [lit "has-text-black-bis"] []
                    [Text (lit "originally announced")];
                  Text (lit " March 2025.")]) eq_refl) as (_ & Hcompact & _).
  apply (Hcompact [] (lit ";originally announcedMarch 2025.")).
  - reflexivity.
  - apply contains_false. reflexivity.
Defined.

(** The pattern accepts a date with nothing after its comma, [strptime]
    wants white space there; and 31 February is no date. *)
Example extract_submission_date_unparsable :
  extract_submission_date
    (Tag (lit "li") [] [] [Tag (lit "p") [lit "is-size-7"] []
                             [Text (lit "Submitted 4 March,2025")]])
  = Ret None
  /\ extract_submission_date
       (Tag (lit "li") [] [] [Tag (lit "p") [lit "is-size-7"] []
                                [Text (lit "Submitted 31 February, 2025")]])
     = Ret None.
Proof. split; reflexivity. Qed.

(** ** [download_pdf] *)

(** Every way a call of [download_pdf] can go. *)
Lemma download_pdf_cases (E : env) (url dir : str) (h : trace) :
  download_pdf E url dir h =
  match env_get E h url with
  | Raise e => (Ret false, [EvGet url; EvPrint (LErrDownload url e)])
  | Ret r =>
      match raise_for_status r with
      | Raise e => (Ret false, [EvGet url; EvPrint (LErrDownload url e)])
      | Ret _ =>
          match env_write E (h ++ [EvGet url]) (saved_path dir url) (content r) with
          | Ret _ =>
              (Ret true, [EvGet url; EvWrite (saved_path dir url) (content r);
                          EvPrint (LSaved (saved_path dir url))])
          | Raise e =>
              (Ret false, [EvGet url; EvWrite (saved_path dir url) (content r);
                           EvPrint (LErrSave (saved_name url) e)])
          end
      end
  end.
Proof.
  unfold download_pdf, bind, try_except, requests_get, write_file, lift, print, ret.
  destruct (env_get E h url) as [r|e]; [|reflexivity].
  destruct (raise_for_status r) as [[]|e]; [|reflexivity].
  unfold saved_path, saved_name. cbn.
  destruct (env_write _ _ _ _) as [[]|e]; reflexivity.
Qed.

Lemma raise_for_status_raises (r : response) :
  between 400 599 (status_code r) = true ->
  exists e, raise_for_status r = Raise e /\ exn_cls e = HTTPError.
Proof.
  unfold raise_for_status, between. intros H.
  destruct ((400 <=? status_code r) && (status_code r <=? 499)) eqn:H4;
    [eauto|].
  destruct ((500 <=? status_code r) && (status_code r <=? 599)) eqn:H5;
    [eauto|].
  exfalso. rewrite andb_true_iff in H. rewrite andb_false_iff in H4, H5. lia.
Qed.

Lemma raise_for_status_passes (r : response) :
  between 400 599 (status_code r) = false -> raise_for_status r = Ret tt.
Proof.
  unfold raise_for_status, between. intros H.
  destruct ((400 <=? status_code r) && (status_code r <=? 499)) eqn:H4.
  - exfalso. rewrite andb_true_iff in H4. rewrite andb_false_iff in H. lia.
  - destruct ((500 <=? status_code r) && (status_code r <=? 599)) eqn:H5;
      [|reflexivity].
    exfalso. rewrite andb_true_iff in H5. rewrite andb_false_iff in H. lia.
Qed.

(** A download returns a value, asks for its URL once, and prints one
    "Saved" line exactly when it returns [True]. *)
Lemma download_pdf_returns (E : env) (url dir : str) (h : trace) :
  exists b out,
    download_pdf E url dir h = (Ret b, out)
    /\ requested out = [url]
    /\ saved_lines out = (if b then 1 else 0)%nat
    /\ forallb download_event out = true.
Proof.
  rewrite download_pdf_cases.
  destruct (env_get E h url) as [r|e]; [|do 2 eexists; repeat split].
  destruct (raise_for_status r) as [[]|e]; [|do 2 eexists; repeat split].
  destruct (env_write _ _ _ _) as [[]|e]; do 2 eexists; repeat split.
Qed.

(** C5, as the code has it.  [download_pdf] never raises: it returns a
    value.  A transport failure and a response with a 4xx or 5xx status
    both print "Error downloading PDF" and return [False]; a failure to
    write the file prints "Error saving PDF" and returns [False].
    ([raise_for_status] lets every other status through.) *)
Theorem download_pdf_failures_are_values (E : env) (url dir : str) (h : trace) :
  (exists b out, download_pdf E url dir h = (Ret b, out))
  /\ (forall e,
        env_get E h url = Raise e ->
        download_pdf E url dir h
        = (Ret false, [EvGet url; EvPrint (LErrDownload url e)]))
  /\ (forall r,
        env_get E h url = Ret r ->
        between 400 599 (status_code r) = true ->
        exists e,
          exn_cls e = HTTPError
          /\ download_pdf E url dir h
             = (Ret false, [EvGet url; EvPrint (LErrDownload url e)]))
  /\ (forall r e,
        env_get E h url = Ret r ->
        between 400 599 (status_code r) = false ->
        env_write E (h ++ [EvGet url]) (saved_path dir url) (content r) = Raise e ->
        download_pdf E url dir h
        = (Ret false, [EvGet url; EvWrite (saved_path dir url) (content r);
                       EvPrint (LErrSave (saved_name url) e)])).
Proof.
  repeat split.
  - destruct (download_pdf_returns E url dir h) as (b & out & H & _). eauto.
  - intros e He. rewrite download_pdf_cases, He. reflexivity.
  - intros r Hr Hs. destruct (raise_for_status_raises r Hs) as (e & He & Hc).
    exists e. split; [exact Hc|]. rewrite download_pdf_cases, Hr, He. reflexivity.
  - intros r e Hr Hs Hw.
    rewrite download_pdf_cases, Hr, (raise_for_status_passes r Hs), Hw.
    reflexivity.
Qed.

(** A dead network, a 404 and a full disk: three times [False], each with
    its line. *)
Lemma download_pdf_failures_are_values_witness :
  download_pdf offline_env sample_pdf_url (lit "out") []
  = (Ret false, [EvGet sample_pdf_url;
                 EvPrint (LErrDownload sample_pdf_url connection_error)])
  /\ (exists e,
        exn_cls e = HTTPError
        /\ download_pdf (status_env 404 (lit "Not Found")) sample_pdf_url (lit "out") []
           = (Ret false, [EvGet sample_pdf_url;
                          EvPrint (LErrDownload sample_pdf_url e)]))
  /\ download_pdf full_disk_env sample_pdf_url (lit "out") []
     = (Ret false, [EvGet sample_pdf_url;
                    EvWrite (lit "out/2503.03395.pdf") (lit "%PDF-1.5");
                    EvPrint (LErrSave (lit "2503.03395.pdf") disk_full)]).
Proof.
  split; [|split].
  - apply (proj1 (proj2 (download_pdf_failures_are_values
                           offline_env sample_pdf_url (lit "out") []))).
    reflexivity.
  - apply (proj1 (proj2 (proj2 (download_pdf_failures_are_values
                                  (status_env 404 (lit "Not Found"))
                                  sample_pdf_url (lit "out") [])))
             (status_response 404 (lit "Not Found"))); reflexivity.
  - apply (proj2 (proj2 (proj2 (download_pdf_failures_are_values
                                  full_disk_env sample_pdf_url (lit "out") [])))
             (ok_response sample_pdf_url (lit "%PDF-1.5")) disk_full);
      reflexivity.
Defined.

(** C5, as the specification has it, fails: a response that is neither
    2xx nor 4xx/5xx passes [raise_for_status], so a 304 is saved and
    counted as a success. *)
Lemma download_pdf_saves_non_2xx :
  env_get (status_env 304 (lit "Not Modified")) [] sample_pdf_url
  = Ret (status_response 304 (lit "Not Modified"))
  /\ between 200 299 (status_code (status_response 304 (lit "Not Modified"))) = false
  /\ download_pdf (status_env 304 (lit "Not Modified")) sample_pdf_url (lit "out") []
     = (Ret true, [EvGet sample_pdf_url;
                   EvWrite (lit "out/2503.03395.pdf") (lit "");
                   EvPrint (LSaved (lit "out/2503.03395.pdf"))]).
Proof. repeat split. Qed.

(** ** The download phase of [process_page] *)

Lemma requested_app (a b : trace) : requested (a ++ b) = requested a ++ requested b.
Proof. apply flat_map_app. Qed.

Lemma saved_lines_app (a b : trace) :
  saved_lines (a ++ b) = (saved_lines a + saved_lines b)%nat.
Proof. unfold saved_lines. rewrite filter_app, length_app. reflexivity. Qed.

Lemma requested_perm (a b : trace) :
  Permutation (requested (a ++ b)) (requested a ++ requested b).
Proof. rewrite requested_app. apply Permutation_refl. Qed.

(** Taking the element of index [i] out of a list. *)
Lemma pick_permutation (l : list str) (i : nat) :
  (i < length l)%nat ->
  Permutation (nth i l [] :: firstn i l ++ skipn (S i) l) l.
Proof.
  revert i. induction l as [|x l IH]; intros i Hi; [simpl in Hi; lia|].
  destruct i as [|i]; [apply Permutation_refl|].
  cbn [nth firstn skipn app]. simpl in Hi.
  eapply Permutation_trans; [apply perm_swap|].
  apply perm_skip. apply IH. lia.
Qed.

Lemma pick_length (l : list str) (i : nat) :
  (i < length l)%nat -> length (firstn i l ++ skipn (S i) l) = pred (length l).
Proof.
  intros Hi. rewrite length_app, length_firstn, length_skipn. lia.
Qed.

(** The pool runs every pending download once; no future holds an
    exception. *)
Lemma run_pool_spec (E : env) (dir : str) (fuel : nat) :
  forall pending h,
    (length pending <= fuel)%nat ->
    exists futures out,
      run_pool E fuel pending dir h = (Ret futures, out)
      /\ Forall returned futures
      /\ length futures = length pending
      /\ Permutation (requested out) pending
      /\ saved_lines out = length (filter succeeded futures)
      /\ forallb download_event out = true.
Proof.
  induction fuel as [|fuel IH]; intros pending h Hlen.
  - destruct pending; [|simpl in Hlen; lia].
    exists [], []. repeat split; constructor.
  - destruct pending as [|u pending]; [exists [], []; repeat split; constructor|].
    cbn [run_pool].
    set (l := u :: pending) in *.
    set (i := Nat.modulo (env_pick E h l) (length l)).
    assert (Hi : (i < length l)%nat)
      by (apply Nat.mod_upper_bound; discriminate).
    destruct (download_pdf_returns E (nth i l []) dir h)
      as (b & o1 & H1 & Hr1 & Hs1 & He1).
    destruct (IH (firstn i l ++ skipn (S i) l) (h ++ o1))
      as (fs & o2 & H2 & Hf2 & Hl2 & Hp2 & Hs2 & He2).
    { rewrite pick_length by exact Hi. lia. }
    exists (Ret b :: fs), (o1 ++ o2). rewrite H1, H2.
    repeat split.
    + constructor; [exists b; reflexivity | exact Hf2].
    + cbn [length]. rewrite Hl2, pick_length by exact Hi. lia.
    + rewrite requested_app, Hr1. cbn [app].
      eapply Permutation_trans; [apply perm_skip; exact Hp2|].
      apply pick_permutation. exact Hi.
    + rewrite saved_lines_app, Hs1, Hs2. destruct b; reflexivity.
    + rewrite forallb_app, He1, He2. reflexivity.
Qed.

(** The counting loop adds one for every future that holds [True]. *)
Lemma count_completed_spec (futures : list (res bool)) :
  Forall returned futures ->
  forall n, count_completed futures n
            = Ret (n + Z.of_nat (length (filter succeeded futures))).
Proof.
  induction 1 as [|f fs [b ->] _ IH]; intros n; cbn [count_completed].
  - f_equal. simpl. lia.
  - destruct b; rewrite IH; f_equal; cbn [filter succeeded length]; lia.
Qed.

(** ** The filter of [process_page] *)

Lemma lex_lt_irrefl (a : list Z) : lex_lt a a = false.
Proof.
  induction a as [|x a IH]; [reflexivity|].
  simpl. rewrite Z.ltb_irrefl, Z.eqb_refl, IH. reflexivity.
Qed.

Lemma datetime_lt_irrefl (t : datetime) : datetime_lt t t = false.
Proof. apply lex_lt_irrefl. Qed.

Lemma decision_events_quiet (out : trace) :
  forallb decision_event out = true ->
  forallb download_event out = true /\ saved_lines out = O.
Proof.
  induction out as [|ev out IH]; [split; reflexivity|].
  cbn [forallb]. rewrite andb_true_iff. intros [Hev Hout].
  destruct (IH Hout) as [Hd Hs]. unfold saved_lines in *.
  destruct ev as [| | | | | |l]; try discriminate.
  destruct l; try discriminate; cbn; auto.
Qed.

(** The loop appends to [download_tasks] what each result queues, prints,
    and does nothing else. *)
Lemma collect_tasks_spec (cutoff : datetime) (results : list node) :
  forall idx acc h, exists out,
    collect_tasks results idx cutoff acc h
    = (Ret (acc ++ flat_map (queued cutoff) results), out)
    /\ forallb decision_event out = true.
Proof.
  induction results as [|r results IH]; intros idx acc h.
  - exists []. cbn. rewrite app_nil_r. split; reflexivity.
  - cbn [collect_tasks flat_map]. unfold queued at 1.
    destruct (extract_submission_date_returns r) as [[d|] Hd]; rewrite Hd.
    + destruct (datetime_lt d cutoff) eqn:Hlt.
      * destruct (IH (idx + 1) acc (h ++ [EvPrint (LDate idx d); EvPrint (LOlder idx)]))
          as (out & Hout & Hev).
        exists ([EvPrint (LDate idx d); EvPrint (LOlder idx)] ++ out).
        unfold bind, lift, print. cbn [app]. rewrite Hlt.
        rewrite <- !app_assoc. cbn [app]. rewrite Hout. split; [reflexivity|].
        cbn. exact Hev.
      * destruct (extract_pdf_url r) as [u|] eqn:Hu.
        -- destruct (IH (idx + 1) (acc ++ [u])
                       (h ++ [EvPrint (LDate idx d); EvPrint (LQueuing idx u)]))
             as (out & Hout & Hev).
           exists ([EvPrint (LDate idx d); EvPrint (LQueuing idx u)] ++ out).
           unfold bind, lift, print. cbn [app]. rewrite Hlt.
           rewrite <- !app_assoc. cbn [app]. rewrite Hout.
           rewrite <- app_assoc. split; [reflexivity|]. cbn. exact Hev.
        -- destruct (IH (idx + 1) acc
                       (h ++ [EvPrint (LDate idx d); EvPrint (LNoPdf idx);
                              EvPrint (LAnchors idx
                                         (map (fun a => get_attr a (lit "href") (lit ""))
                                              (find_all r (lit "a"))))]))
             as (out & Hout & Hev).
           eexists (_ :: _ :: _ :: out).
           unfold bind, lift, print. cbn [app]. rewrite Hlt.
           rewrite <- !app_assoc. cbn [app]. rewrite Hout.
           split; [reflexivity|]. cbn. exact Hev.
    + destruct (IH (idx + 1) acc (h ++ [EvPrint (LNoDate idx)])) as (out & Hout & Hev).
      exists (EvPrint (LNoDate idx) :: out).
      unfold bind, lift, print. cbn [app].
      rewrite <- !app_assoc. cbn [app]. rewrite Hout. split; [reflexivity|].
      cbn. exact Hev.
Qed.

Lemma queued_retained (cutoff : datetime) (r : node) (url : str) :
  In url (queued cutoff r) <-> retained cutoff r /\ extract_pdf_url r = Some url.
Proof.
  unfold queued, retained. split.
  - destruct (extract_submission_date r) as [[d|]|e]; try (intros []).
    destruct (datetime_lt d cutoff) eqn:Hlt; [intros []|].
    destruct (extract_pdf_url r) as [u|]; [|intros []].
    intros [->|[]]. eauto.
  - intros [(d & -> & ->) ->]. left. reflexivity.
Qed.

(** C2. The loop of [process_page] queues, in page order, the payload URL
    of every result that has a date not before the cutoff, and of no other
    result.  A result dated exactly at the cutoff passes the filter and its
    URL is queued; a result dated before the cutoff adds nothing after its
    date was printed; a result without date adds nothing and is dropped
    with "No submission date found" before any date is compared.  Before
    is before in time: against a cutoff that is a datetime, a dated result
    passes exactly when its instant is not earlier than the cutoff's. *)
Theorem process_page_date_filter (cutoff : datetime) (results : list node)
    (idx : Z) (h : trace) :
  (exists out,
      collect_tasks results idx cutoff [] h
      = (Ret (flat_map (queued cutoff) results), out))
  /\ (forall url,
        In url (flat_map (queued cutoff) results)
        <-> exists r, In r results /\ retained cutoff r
                      /\ extract_pdf_url r = Some url)
  /\ (forall r,
        extract_submission_date r = Ret (Some cutoff) ->
        retained cutoff r
        /\ forall url,
            extract_pdf_url r = Some url ->
            queued cutoff r = [url]
            /\ collect_tasks [r] idx cutoff [] h
               = (Ret [url], [EvPrint (LDate idx cutoff);
                              EvPrint (LQueuing idx url)]))
  /\ (forall r d,
        extract_submission_date r = Ret (Some d) ->
        datetime_lt d cutoff = true ->
        ~ retained cutoff r
        /\ queued cutoff r = []
        /\ collect_tasks [r] idx cutoff [] h
           = (Ret [], [EvPrint (LDate idx d); EvPrint (LOlder idx)]))
  /\ (forall r,
        extract_submission_date r = Ret None ->
        ~ retained cutoff r
        /\ queued cutoff r = []
        /\ collect_tasks [r] idx cutoff [] h
           = (Ret [], [EvPrint (LNoDate idx)]))
  /\ (forall r d,
        extract_submission_date r = Ret (Some d) ->
        valid_datetime cutoff = true ->
        (retained cutoff r <-> timestamp cutoff <= timestamp d)).
Proof.
  split; [|split; [|split; [|split; [|split]]]].
  - destruct (collect_tasks_spec cutoff results idx [] h) as (out & H & _).
    exists out. exact H.
  - intros url. rewrite in_flat_map. split.
    + intros (r & Hin & Hq). apply queued_retained in Hq. eauto.
    + intros (r & Hin & Hret & Hu). exists r. split; [exact Hin|].
      apply queued_retained. auto.
  - intros r Hd. split.
    + exists cutoff. split; [exact Hd | apply datetime_lt_irrefl].
    + intros url Hu. unfold queued. cbn [collect_tasks].
      unfold bind, lift, print, ret. cbn [app].
      rewrite Hd, datetime_lt_irrefl, Hu. split; reflexivity.
  - intros r d Hd Hlt. split; [|split].
    + intros (d' & Hd' & Hlt'). congruence.
    + unfold queued. rewrite Hd, Hlt. reflexivity.
    + cbn [collect_tasks]. unfold bind, lift, print, ret. cbn [app].
      rewrite Hd, Hlt. reflexivity.
  - intros r Hd. split; [|split].
    + intros (d' & Hd' & _). congruence.
    + unfold queued. rewrite Hd. reflexivity.
    + cbn [collect_tasks]. unfold bind, lift, print, ret. cbn [app].
      rewrite Hd. reflexivity.
  - intros r d Hd Hcut.
    pose proof (datetime_lt_timeline d cutoff
                  (extract_submission_date_valid r d Hd) Hcut) as Htime.
    unfold retained. split.
    + intros (d' & Hd' & Hlt). rewrite Hd in Hd'. injection Hd' as <-.
      destruct (Z.lt_ge_cases (timestamp d) (timestamp cutoff)) as [Hb|Hb];
        [|lia].
      apply Htime in Hb. congruence.
    + intros Hle. exists d. split; [exact Hd|].
      destruct (datetime_lt d cutoff); [|reflexivity].
      assert (timestamp d < timestamp cutoff) by (apply Htime; reflexivity).
      lia.
Qed.

(** The date filter on the sample entry, dated 4 March 2025: kept at a
    cutoff of that very midnight, dropped one microsecond later. *)
Lemma process_page_date_filter_witness :
  collect_tasks [sample_result] 1 (mk_datetime 2025 3 4 0 0 0 0) [] []
  = (Ret [lit "https://arxiv.org/pdf/2503.03395"],
     [EvPrint (LDate 1 (mk_datetime 2025 3 4 0 0 0 0));
      EvPrint (LQueuing 1 (lit "https://arxiv.org/pdf/2503.03395"))])
  /\ collect_tasks [sample_result] 1 (mk_datetime 2025 3 4 0 0 0 1) [] []
     = (Ret [], [EvPrint (LDate 1 (mk_datetime 2025 3 4 0 0 0 0));
                 EvPrint (LOlder 1)]).
Proof.
  split.
  - destruct (process_page_date_filter (mk_datetime 2025 3 4 0 0 0 0)
                [sample_result] 1 []) as (_ & _ & H & _).
    destruct (H sample_result eq_refl) as [_ Hq].
    apply (Hq (lit "https://arxiv.org/pdf/2503.03395") eq_refl).
  - destruct (process_page_date_filter (mk_datetime 2025 3 4 0 0 0 1)
                [sample_result] 1 []) as (_ & _ & _ & H & _).
    apply (H sample_result (mk_datetime 2025 3 4 0 0 0 0) eq_refl eq_refl).
Defined.

(** ** [process_page] and the loop over the offsets *)

Lemma download_events_quiet (out : trace) :
  forallb download_event out = true ->
  page_offsets out = [] /\ page_cutoffs out = [] /\ clock_reads out = O.
Proof.
  induction out as [|ev out IH]; [repeat split|].
  cbn [forallb]. rewrite andb_true_iff. intros [Hev Hout].
  destruct (IH Hout) as (Ho & Hc & Hn).
  unfold page_offsets, page_cutoffs, clock_reads in *.
  destruct ev; try discriminate; cbn; auto.
Qed.

(** The download phase returns, without any hypothesis on the pool. *)
Lemma download_phase_returns (E : env) (tasks : list str) (dir : str) (h : trace) :
  exists out,
    download_phase E tasks dir h = (Ret (Z.of_nat (saved_lines out)), out)
    /\ forallb download_event out = true.
Proof.
  destruct tasks as [|t tasks]; [exists []; split; reflexivity|].
  destruct (run_pool_spec E dir (length (t :: tasks)) (t :: tasks) h (le_n _))
    as (fs & out & Hrun & Hret & _ & _ & Hsaved & Hev).
  exists out. unfold download_phase, bind, lift. rewrite Hrun.
  rewrite (count_completed_spec fs Hret 0), app_nil_r, Hsaved.
  split; [reflexivity | exact Hev].
Qed.

(** A page whose fetch fails raises at once; any other page returns the
    number of documents it saved. *)
Lemma process_page_spec (E : env) (base : str) (o : Z) (c : datetime)
    (dir : str) (h : trace) :
  match fetch E (h ++ page_start base o c) (page_url base o) with
  | Raise e =>
      process_page E base o c dir h
      = (Raise e, page_start base o c ++ [EvGet (page_url base o)])
  | Ret _ =>
      exists out,
        process_page E base o c dir h
        = (Ret (Z.of_nat (saved_lines out)),
           page_start base o c ++ EvGet (page_url base o) :: out)
        /\ forallb download_event out = true
  end.
Proof.
  unfold fetch, process_page, page_start, bind, print, requests_get, lift.
  cbn [app]. rewrite <- !app_assoc. cbn [app]. fold (page_url base o).
  destruct (env_get E _ (page_url base o)) as [r|e]; [|reflexivity].
  destruct (raise_for_status r) as [[]|e]; [|reflexivity].
  set (results := find_all_class (env_parse E (text r)) (lit "li") (lit "arxiv-result")).
  set (h1 := (h ++ _) ++ _).
  destruct (collect_tasks_spec c results 1 [] h1) as (o1 & H1 & Hev1).
  destruct (download_phase_returns E (flat_map (queued c) results) dir (h1 ++ o1))
    as (o2 & H2 & Hev2).
  apply decision_events_quiet in Hev1. destruct Hev1 as [Hev1 Hs1].
  exists (EvPrint (LFound (length results)) :: o1 ++ o2).
  rewrite H1. cbn [app]. rewrite H2. split.
  - f_equal. f_equal. f_equal.
    change (saved_lines (EvPrint (LFound (length results)) :: o1 ++ o2))
      with (saved_lines (o1 ++ o2)).
    rewrite saved_lines_app, Hs1. reflexivity.
  - cbn [forallb download_event]. rewrite forallb_app, Hev1, Hev2. reflexivity.
Qed.

Lemma page_offsets_app (a b : trace) :
  page_offsets (a ++ b) = page_offsets a ++ page_offsets b.
Proof. apply flat_map_app. Qed.

Lemma page_cutoffs_app (a b : trace) :
  page_cutoffs (a ++ b) = page_cutoffs a ++ page_cutoffs b.
Proof. apply flat_map_app. Qed.

Lemma clock_reads_app (a b : trace) :
  clock_reads (a ++ b) = (clock_reads a + clock_reads b)%nat.
Proof. unfold clock_reads. rewrite filter_app, length_app. reflexivity. Qed.

Lemma page_events_no_clock (out : trace) :
  forallb page_event out = true -> clock_reads out = O.
Proof.
  induction out as [|ev out IH]; [reflexivity|].
  cbn [forallb]. rewrite andb_true_iff. intros [Hev Hout].
  unfold clock_reads in *. destruct ev; try discriminate; cbn; auto.
Qed.

Lemma download_events_page_events (out : trace) :
  forallb download_event out = true -> forallb page_event out = true.
Proof.
  rewrite !forallb_forall. intros H ev Hin. specialize (H ev Hin).
  destruct ev; try discriminate; reflexivity.
Qed.

(** One call of [process_page]: one page record, with the cutoff it was
    given; the count it returns is the number of documents it saved. *)
Lemma process_page_run (E : env) (base : str) (o : Z) (c : datetime)
    (dir : str) (h : trace) :
  exists r out,
    process_page E base o c dir h = (r, out)
    /\ forallb page_event out = true
    /\ page_offsets out = [o]
    /\ page_cutoffs out = [c]
    /\ (forall n, r = Ret n -> n = Z.of_nat (saved_lines out)).
Proof.
  pose proof (process_page_spec E base o c dir h) as H.
  destruct (fetch E (h ++ page_start base o c) (page_url base o)) as [r|e].
  - destruct H as (out & H & Hev).
    destruct (download_events_quiet out Hev) as (Ho & Hc & _).
    do 2 eexists. split; [exact H|].
    unfold page_start. cbn [app]. repeat split.
    + cbn [forallb page_event download_event].
      apply download_events_page_events. exact Hev.
    + change (page_offsets (?x :: ?y :: ?z :: out)) with (o :: page_offsets out).
      rewrite Ho. reflexivity.
    + change (page_cutoffs (?x :: ?y :: ?z :: out)) with (c :: page_cutoffs out).
      rewrite Hc. reflexivity.
    + intros n Hn. injection Hn as <-. reflexivity.
  - do 2 eexists. split; [exact H|]. repeat split. discriminate.
Qed.

(** C1. The download phase of a page returns the number of downloads that
    returned [True], which is also the number of "Saved PDF to" lines it
    printed.  It does not raise, whatever fails and however the pool
    schedules the downloads: no future holds an exception.  Every URL of
    the batch is requested, as often as it was queued.  The count is what
    [process_page] returns: the number of documents the page saved. *)
Theorem download_phase_counts_successes (E : env) (tasks : list str)
    (dir : str) (h : trace) :
  exists futures out,
    run_pool E (length tasks) tasks dir h = (Ret futures, out)
    /\ Forall returned futures
    /\ length futures = length tasks
    /\ download_phase E tasks dir h
       = (Ret (Z.of_nat (length (filter succeeded futures))), out)
    /\ saved_lines out = length (filter succeeded futures)
    /\ Permutation (requested out) tasks
    /\ forall base offset cutoff h' n out',
        process_page E base offset cutoff dir h' = (Ret n, out') ->
        n = Z.of_nat (saved_lines out').
Proof.
  destruct (run_pool_spec E dir (length tasks) tasks h (le_n _))
    as (fs & out & Hrun & Hret & Hlen & Hreq & Hsaved & _).
  exists fs, out. repeat split; auto.
  - destruct tasks as [|t tasks].
    + injection Hrun as <- <-. reflexivity.
    + unfold download_phase, bind, lift. rewrite Hrun.
      rewrite (count_completed_spec fs Hret 0), app_nil_r. reflexivity.
  - intros base offset cutoff h' n out' Hpage.
    destruct (process_page_run E base offset cutoff dir h')
      as (r & o & Hrun' & _ & _ & _ & Hn).
    rewrite Hpage in Hrun'. injection Hrun' as <- <-. apply Hn. reflexivity.
Qed.

(** Three URLs, the second unreachable: two successes, no exception, all
    three requested.  And the first page of the listing scenario returns
    1, having saved one document. *)
Lemma download_phase_counts_successes_witness :
  (exists out,
      download_phase flaky_env sample_batch (lit "out") [] = (Ret 2, out)
      /\ saved_lines out = 2%nat
      /\ Permutation (requested out) sample_batch)
  /\ fst (process_page listing_env sample_base 0 (mk_datetime 2025 3 3 9 30 0 0)
            (lit "data") []) = Ret 1
  /\ 1 = Z.of_nat
           (saved_lines
              (snd (process_page listing_env sample_base 0
                      (mk_datetime 2025 3 3 9 30 0 0) (lit "data") []))).
Proof.
  split; [|split; [reflexivity|]].
  - destruct (download_phase_counts_successes flaky_env sample_batch (lit "out") [])
      as (fs & out & Hrun & _ & _ & Hphase & Hsaved & Hreq & _).
    injection Hrun as <- <-.
    eexists. split; [exact Hphase|]. split; [exact Hsaved | exact Hreq].
  - destruct (download_phase_counts_successes listing_env [] (lit "data") [])
      as (_ & _ & _ & _ & _ & _ & _ & _ & Hpage).
    apply (Hpage sample_base 0 (mk_datetime 2025 3 3 9 30 0 0) []). reflexivity.
Defined.

Example download_phase_partial_failure :
  fst (download_phase flaky_env sample_batch (lit "out") []) = Ret 2
  /\ requested (snd (download_phase flaky_env sample_batch (lit "out") []))
     = rev sample_batch.
Proof. split; reflexivity. Qed.

(** The loop over the offsets, once the pages of [l1] are done. *)
Lemma process_offsets_app (E : env) (base : str) (c : datetime) (dir : str)
    (l1 l2 : list Z) :
  forall total h t1 out1,
    process_offsets E base l1 c dir total h = (Ret t1, out1) ->
    process_offsets E base (l1 ++ l2) c dir total h
    = (fst (process_offsets E base l2 c dir t1 (h ++ out1)),
       out1 ++ snd (process_offsets E base l2 c dir t1 (h ++ out1))).
Proof.
  induction l1 as [|o l1 IH]; intros total h t1 out1 H1.
  - injection H1 as <- <-. rewrite app_nil_r. cbn [app].
    destruct (process_offsets E base l2 c dir total h). reflexivity.
  - cbn [app process_offsets] in *. unfold bind in *.
    destruct (process_page E base o c dir h) as [[n|e] o1]; [|discriminate].
    destruct (process_offsets E base l1 c dir (total + n) (h ++ o1))
      as [r o2] eqn:Hrest.
    injection H1 as -> <-.
    rewrite (IH _ _ _ _ Hrest). rewrite <- !app_assoc. reflexivity.
Qed.

(** The loop stops at the first page that raises. *)
Lemma process_offsets_raise (E : env) (base : str) (c : datetime) (dir : str)
    (o : Z) (rest : list Z) (total : Z) (h : trace) (e : exn) (out : trace) :
  process_page E base o c dir h = (Raise e, out) ->
  process_offsets E base (o :: rest) c dir total h = (Raise e, out).
Proof. intros H. cbn [process_offsets]. unfold bind. rewrite H. reflexivity. Qed.

(** Every run of the loop: the pages it processed are the first of the
    offsets, all with the cutoff it was given; it returns only after the
    last, with the total it started from plus the documents saved. *)
Lemma process_offsets_run (E : env) (base : str) (c : datetime) (dir : str)
    (offsets : list Z) :
  forall total h, exists r out,
    process_offsets E base offsets c dir total h = (r, out)
    /\ forallb page_event out = true
    /\ Forall (eq c) (page_cutoffs out)
    /\ (exists rest, offsets = page_offsets out ++ rest)
    /\ (forall n, r = Ret n ->
                  page_offsets out = offsets
                  /\ n = total + Z.of_nat (saved_lines out)).
Proof.
  induction offsets as [|o offsets IH]; intros total h.
  - exists (Ret total), []. repeat split; try constructor.
    + exists []. reflexivity.
    + injection H as <-. cbn. lia.
  - destruct (process_page_run E base o c dir h)
      as (r1 & o1 & H1 & Hev1 & Ho1 & Hc1 & Hn1).
    destruct r1 as [n1|e].
    + destruct (IH (total + n1) (h ++ o1))
        as (r2 & o2 & H2 & Hev2 & Hc2 & [rest Ho2] & Hn2).
      exists r2, (o1 ++ o2). cbn [process_offsets]. unfold bind.
      rewrite H1, H2. repeat split.
      * rewrite forallb_app, Hev1, Hev2. reflexivity.
      * rewrite page_cutoffs_app, Hc1. constructor; [reflexivity | exact Hc2].
      * exists rest. rewrite page_offsets_app, Ho1. cbn [app]. congruence.
      * rewrite page_offsets_app, Ho1. cbn [app].
        f_equal. apply (Hn2 n). exact H.
      * rewrite saved_lines_app, Nat2Z.inj_add.
        rewrite <- (Hn1 n1 eq_refl). destruct (Hn2 n H) as [_ ->]. lia.
    + exists (Raise e), o1. rewrite (process_offsets_raise _ _ _ _ _ _ _ _ _ _ H1).
      repeat split; try discriminate.
      * exact Hev1.
      * rewrite Hc1. constructor; [reflexivity | constructor].
      * exists offsets. rewrite Ho1. reflexivity.
Qed.

(** ** [download_pdfs] *)

Lemma load_config_run (E : env) (cfg : str) (h : trace) :
  exists r, load_config E cfg h = (r, [EvLoadJson cfg]).
Proof.
  unfold load_config, bind, load_json.
  destruct (env_load_json E h cfg) as [v|e]; [|eauto].
  destruct v as [| | | | | |d]; try solve [cbn; eauto].
  destruct (assoc_get (lit "url") (PStr (lit "")) d) as [| | | |s| |];
    try solve [cbn; eauto].
  destruct (strip s); cbn; eauto.
Qed.

(** Every run of [download_pdfs]: either it raises before its first page,
    or it reads the clock once, computes the cutoff, and processes the
    first of its offsets, all with that cutoff; it returns only after the
    last, printing and returning the number of documents saved. *)
Lemma download_pdfs_run (E : env) (cfg dir : str) (days : Z)
    (offsets : option (list Z)) (h : trace) :
  exists r out,
    download_pdfs E cfg dir days offsets h = (r, out)
    /\ ((exists e, r = Raise e
                   /\ (out = [EvLoadJson cfg]
                       \/ out = [EvLoadJson cfg; EvMakedirs dir]
                       \/ out = prelude cfg dir))
        \/ exists cutoff pages tail,
            out = prelude cfg dir ++ pages ++ tail
            /\ sub_days (env_now E (h ++ [EvLoadJson cfg; EvMakedirs dir])) days
               = Ret cutoff
            /\ forallb page_event pages = true
            /\ Forall (eq cutoff) (page_cutoffs pages)
            /\ (exists rest, offsets_of offsets = page_offsets pages ++ rest)
            /\ ((exists e, r = Raise e /\ tail = [])
                \/ (exists n, r = Ret n
                              /\ tail = [EvPrint (LDone dir n)]
                              /\ page_offsets pages = offsets_of offsets
                              /\ n = Z.of_nat (saved_lines pages)))).
Proof.
  unfold download_pdfs. fold (offsets_of offsets).
  destruct (load_config_run E cfg h) as [rc Hc].
  unfold bind at 1. rewrite Hc.
  destruct rc as [base|e]; [|do 2 eexists; split; [reflexivity|eauto 6]].
  unfold bind at 1. unfold makedirs at 1.
  destruct (env_makedirs E (h ++ [EvLoadJson cfg]) dir) as [[]|e];
    [|do 2 eexists; split; [reflexivity|cbn [app]; eauto 7]].
  unfold bind at 1. unfold datetime_now at 1.
  unfold bind at 1. unfold lift at 1.
  rewrite <- !app_assoc. cbn [app].
  destruct (sub_days (env_now E (h ++ [EvLoadJson cfg; EvMakedirs dir])) days)
    as [cutoff|e] eqn:Hsub;
    [|do 2 eexists; split; [reflexivity|cbn [app]; unfold prelude; eauto 8]].
  destruct (process_offsets_run E base cutoff dir (offsets_of offsets) 0
              (h ++ [EvLoadJson cfg; EvMakedirs dir; EvNow]))
    as (r & pages & Hrun & Hev & Hcut & Hpre & Hret).
  unfold bind at 1. rewrite Hrun.
  destruct r as [n|e].
  - destruct (Hret n eq_refl) as [Hall Hn].
    exists (Ret n), (prelude cfg dir ++ pages ++ [EvPrint (LDone dir n)]).
    split; [unfold bind, print, ret; cbn [app]; reflexivity|].
    right. exists cutoff, pages, [EvPrint (LDone dir n)].
    repeat split; auto. right. exists n. repeat split; auto.
  - exists (Raise e), (prelude cfg dir ++ pages ++ []).
    split; [cbn [app]; rewrite !app_nil_r; reflexivity|].
    right. exists cutoff, pages, []. repeat split; auto. left. eauto.
Qed.

Lemma assoc_get_lacks (key : str) (default : pyval) (d : list (str * pyval)) :
  lacks_key key d -> assoc_get key default d = default.
Proof.
  induction d as [|[k v] d IH]; intros Hno; [reflexivity|].
  cbn [assoc_get]. destruct (str_eqb k key) eqn:Hk.
  - apply str_eqb_eq in Hk. subst k. exfalso. apply (Hno v). left. reflexivity.
  - apply IH. intros v' Hin. apply (Hno v'). right. exact Hin.
Qed.

Lemma assoc_get_present (key : str) (default : pyval) (d : list (str * pyval))
    (s : str) :
  assoc_get key PNone d = PStr s -> assoc_get key default d = PStr s.
Proof.
  induction d as [|[k v] d IH]; cbn [assoc_get]; [discriminate|].
  destruct (str_eqb k key); auto.
Qed.

(** C7. When the configuration has no "url" entry, or has one whose text
    is empty once stripped, [download_pdfs] raises the [ValueError] of
    [load_config] having done nothing but read the configuration file: no
    request, no directory made, no file written, no document saved, and no
    count returned. *)
Theorem missing_url_aborts_run (E : env) (cfg dir : str) (days : Z)
    (offsets : option (list Z)) (h : trace) (d : list (str * pyval)) :
  env_load_json E h cfg = Ret (PDict d) ->
  lacks_key (lit "url") d
  \/ (exists s, assoc_get (lit "url") PNone d = PStr s /\ strip s = []) ->
  exists out,
    download_pdfs E cfg dir days offsets h
    = (Raise (mk_exn ValueError (lit "URL not found in configuration.")), out)
    /\ out = [EvLoadJson cfg]
    /\ requested out = []
    /\ written out = []
    /\ saved_lines out = O.
Proof.
  intros Hload Hurl. exists [EvLoadJson cfg].
  split; [|repeat split].
  unfold download_pdfs, bind at 1, load_config, bind at 1, load_json.
  rewrite Hload.
  destruct Hurl as [Hno|(s & Hs & Hempty)].
  - rewrite (assoc_get_lacks _ _ _ Hno).
    change (strip (lit "")) with (@nil ascii). reflexivity.
  - rewrite (assoc_get_present _ _ _ _ Hs), Hempty. reflexivity.
Qed.

(** An empty configuration object, and one whose URL is blank. *)
Lemma missing_url_aborts_run_witness :
  (exists out,
      download_pdfs (config_env (PDict [])) (lit "config/url.json") (lit "data") 7 None []
      = (Raise (mk_exn ValueError (lit "URL not found in configuration.")), out)
      /\ out = [EvLoadJson (lit "config/url.json")]
      /\ requested out = [] /\ written out = [] /\ saved_lines out = O)
  /\ (exists out,
        download_pdfs (config_env (PDict [(lit "url", PStr (lit "  "))]))
          (lit "config/url.json") (lit "data") 7 None []
        = (Raise (mk_exn ValueError (lit "URL not found in configuration.")), out)
        /\ out = [EvLoadJson (lit "config/url.json")]
        /\ requested out = [] /\ written out = [] /\ saved_lines out = O).
Proof.
  split.
  - apply (missing_url_aborts_run (config_env (PDict [])) _ _ _ _ [] []).
    + reflexivity.
    + left. intros v [].
  - apply (missing_url_aborts_run
             (config_env (PDict [(lit "url", PStr (lit "  "))])) _ _ _ _ []
             [(lit "url", PStr (lit "  "))]).
    + reflexivity.
    + right. exists (lit "  "). split; reflexivity.
Defined.

(** A page fetch fails when [requests.get] raises or when the status of
    the response is 4xx or 5xx. *)
Lemma fetch_raises (E : env) (h : trace) (url : str) (e : exn) :
  fetch E h url = Raise e
  <-> env_get E h url = Raise e
      \/ exists r, env_get E h url = Ret r
                   /\ between 400 599 (status_code r) = true
                   /\ raise_for_status r = Raise e.
Proof.
  unfold fetch. split.
  - destruct (env_get E h url) as [r|e'].
    + destruct (raise_for_status r) as [[]|e'] eqn:Hr; [discriminate|].
      intros H. injection H as ->. right. exists r. repeat split; auto.
      destruct (between 400 599 (status_code r)) eqn:Hb; [reflexivity|].
      rewrite (raise_for_status_passes r Hb) in Hr. discriminate.
    + intros H. injection H as ->. left. reflexivity.
  - intros [->|(r & -> & _ & ->)]; reflexivity.
Qed.

(** C6, as the code has it.  When the pages of the offsets [l1] went
    through and the fetch of the page at the next offset [o] fails, by a
    transport error or a 4xx or 5xx status, [download_pdfs] raises that
    failure: the trace ends with the failed request, no page of the later
    offsets [l2] is processed, and no total is printed or returned.
    (Any other status lets the run go on.) *)
Theorem page_fetch_failure_aborts_run (E : env) (cfg dir : str) (days : Z)
    (l1 : list Z) (o : Z) (l2 : list Z) (h : trace) (base : str)
    (cutoff : datetime) (t1 : Z) (out1 : trace) (e : exn) :
  load_config E cfg h = (Ret base, [EvLoadJson cfg]) ->
  env_makedirs E (h ++ [EvLoadJson cfg]) dir = Ret tt ->
  sub_days (env_now E (h ++ [EvLoadJson cfg; EvMakedirs dir])) days = Ret cutoff ->
  process_offsets E base l1 cutoff dir 0 (h ++ prelude cfg dir) = (Ret t1, out1) ->
  (env_get E (h ++ prelude cfg dir ++ out1 ++ page_start base o cutoff)
     (page_url base o) = Raise e
   \/ exists r,
       env_get E (h ++ prelude cfg dir ++ out1 ++ page_start base o cutoff)
         (page_url base o) = Ret r
       /\ between 400 599 (status_code r) = true
       /\ raise_for_status r = Raise e) ->
  exists out,
    download_pdfs E cfg dir days (Some (l1 ++ o :: l2)) h = (Raise e, out)
    /\ out = prelude cfg dir ++ out1 ++ page_start base o cutoff
             ++ [EvGet (page_url base o)]
    /\ page_offsets out = l1 ++ [o].
Proof.
  intros Hcfg Hmk Hsub Hl1 Hfail. apply fetch_raises in Hfail.
  eexists. split; [|split; [reflexivity|]].
  - unfold download_pdfs. unfold bind at 1. rewrite Hcfg.
    unfold bind at 1. unfold makedirs at 1. rewrite Hmk.
    unfold bind at 1. unfold datetime_now at 1.
    unfold bind at 1. unfold lift at 1.
    rewrite <- !app_assoc. cbn [app]. rewrite Hsub.
    unfold bind at 1. fold (prelude cfg dir).
    rewrite (process_offsets_app E base cutoff dir l1 (o :: l2) 0 _ t1 out1 Hl1).
    pose proof (process_page_spec E base o cutoff dir ((h ++ prelude cfg dir) ++ out1))
      as Hpage.
    rewrite <- !app_assoc in Hpage. rewrite Hfail in Hpage.
    rewrite <- !app_assoc.
    rewrite (process_offsets_raise _ _ _ _ _ _ _ _ _ _ Hpage).
    cbn [fst snd]. unfold prelude. cbn [app]. reflexivity.
  - destruct (process_offsets_run E base cutoff dir l1 0 (h ++ prelude cfg dir))
      as (r & out' & Hrun & _ & _ & _ & Hret).
    rewrite Hl1 in Hrun. injection Hrun as <- <-.
    destruct (Hret t1 eq_refl) as [Hall _].
    rewrite !page_offsets_app, Hall. reflexivity.
Qed.

(** Offsets 0, 50 and 100 with a 503 at offset 50: the run raises after
    the second request, and offset 100 is never reached. *)
Lemma page_fetch_failure_aborts_run_witness :
  exists e out,
    download_pdfs outage_env (lit "config/url.json") (lit "data") 7
      (Some [0; 50; 100]) []
    = (Raise e, out)
    /\ exn_cls e = HTTPError
    /\ page_offsets out = [0; 50]
    /\ requested out = [page_url sample_base 0; page_url sample_base 50].
Proof.
  destruct (page_fetch_failure_aborts_run outage_env
              (lit "config/url.json") (lit "data") 7 [0] 50 [100] []
              sample_base (mk_datetime 2025 3 3 9 30 0 0) 0
              (page_start sample_base 0 (mk_datetime 2025 3 3 9 30 0 0)
               ++ [EvGet (page_url sample_base 0); EvPrint (LFound 0)])
              (mk_exn HTTPError
                 (lit "503 Server Error: Service Unavailable for url: "
                  ++ page_url sample_base 50)))
    as (out & Hrun & Hout & Hpages).
  - reflexivity.
  - reflexivity.
  - reflexivity.
  - reflexivity.
  - right. eexists. repeat split.
  - do 2 eexists. split; [exact Hrun|]. rewrite Hout. repeat split.
Defined.

(** C6, as the specification has it, fails: a page answered with 304 is
    not a failed fetch for the code.  The run goes on to offset 50 and
    returns a total. *)
Lemma download_pdfs_survives_non_2xx :
  (forall h url,
      exists r, env_get not_modified_env h url = Ret r
                /\ between 200 299 (status_code r) = false)
  /\ exists out,
      download_pdfs not_modified_env (lit "config/url.json") (lit "data") 7
        (Some [0; 50]) []
      = (Ret 0, out)
      /\ page_offsets out = [0; 50]
      /\ In (EvPrint (LDone (lit "data") 0)) out.
Proof.
  split.
  - intros h url. eexists. split; reflexivity.
  - eexists. split; [reflexivity|]. split; [reflexivity|].
    cbn. do 11 right. left. reflexivity.
Qed.

(** C8. A run reads the clock at most once.  When it processes pages, it
    has read the clock once, before the first of them; the cutoff is that
    reading minus [days], which for a clock that shows a datetime is the
    instant [days] days earlier; and every page of the run is processed
    with that one cutoff. *)
Theorem cutoff_computed_once (E : env) (cfg dir : str) (days : Z)
    (offsets : option (list Z)) (h : trace) (r : res Z) (out : trace) :
  download_pdfs E cfg dir days offsets h = (r, out) ->
  (clock_reads out <= 1)%nat
  /\ (page_offsets out <> [] ->
      exists before after cutoff,
        out = before ++ EvNow :: after
        /\ clock_reads before = O
        /\ page_offsets before = []
        /\ clock_reads after = O
        /\ sub_days (env_now E (h ++ before)) days = Ret cutoff
        /\ (valid_datetime (env_now E (h ++ before)) = true ->
            timestamp cutoff
            = timestamp (env_now E (h ++ before)) - days * MICROSECONDS_PER_DAY)
        /\ page_cutoffs out = repeat cutoff (length (page_offsets out))).
Proof.
  intros Hrun.
  destruct (download_pdfs_run E cfg dir days offsets h) as (r' & out' & Hrun' & Hcases).
  rewrite Hrun in Hrun'. injection Hrun' as <- <-.
  destruct Hcases as [(e & _ & [-> | [-> | ->]])|Hpages].
  - split; [cbn; lia | intros H; exfalso; apply H; reflexivity].
  - split; [cbn; lia | intros H; exfalso; apply H; reflexivity].
  - split; [cbn; lia | intros H; exfalso; apply H; reflexivity].
  - destruct Hpages as (cutoff & pages & tail & -> & Hsub & Hev & Hcut & _ & Htail).
    assert (Htl : clock_reads tail = O /\ page_offsets tail = []
                  /\ page_cutoffs tail = []).
    { destruct Htail as [(e & _ & ->)|(n & _ & -> & _)]; repeat split. }
    destruct Htl as (Htc & Hto & Htcut).
    pose proof (page_events_no_clock pages Hev) as Hpc.
    split.
    + rewrite !clock_reads_app, Hpc, Htc. cbn. lia.
    + intros _. exists [EvLoadJson cfg; EvMakedirs dir], (pages ++ tail), cutoff.
      repeat split.
      * rewrite clock_reads_app, Hpc, Htc. reflexivity.
      * exact Hsub.
      * intros Hnow. apply (sub_days_spec _ _ _ Hnow Hsub).
      * rewrite !page_cutoffs_app, !page_offsets_app, Hto, Htcut.
        change (page_cutoffs (prelude cfg dir)) with (@nil datetime).
        change (page_offsets (prelude cfg dir)) with (@nil Z).
        cbn [app]. rewrite !app_nil_r.
        clear - Hcut. induction pages as [|ev pages IH]; [reflexivity|].
        unfold page_cutoffs, page_offsets in *.
        destruct ev; cbn in *; auto.
        inversion Hcut; subst. cbn. f_equal. auto.
Qed.

(** The run of the listing scenario: one clock reading, before both
    pages, and both pages filtered against 3 March 2025, 9:30. *)
Lemma cutoff_computed_once_witness :
  exists before after,
    snd (download_pdfs listing_env (lit "config/url.json") (lit "data") 7 None [])
    = before ++ EvNow :: after
    /\ clock_reads before = O
    /\ page_offsets before = []
    /\ clock_reads after = O
    /\ page_cutoffs
         (snd (download_pdfs listing_env (lit "config/url.json") (lit "data") 7 None []))
       = [mk_datetime 2025 3 3 9 30 0 0; mk_datetime 2025 3 3 9 30 0 0].
Proof.
  destruct (download_pdfs listing_env (lit "config/url.json") (lit "data") 7 None [])
    as [r out] eqn:Hrun.
  destruct (cutoff_computed_once listing_env _ _ _ _ _ _ _ Hrun)
    as [_ H].
  assert (Hout : out = snd (download_pdfs listing_env (lit "config/url.json")
                              (lit "data") 7 None []))
    by (rewrite Hrun; reflexivity).
  destruct H as (before & after & cutoff & Hsplit & Hb & Hpb & Ha & Hsub & _ & Hcut).
  - rewrite Hout. vm_compute. discriminate.
  - exists before, after. cbn [snd]. repeat split; auto.
    rewrite Hout. reflexivity.
Defined.

(** C10. Called without offsets, [download_pdfs] is the run with the
    offsets 0 and 50: the same result and the same trace from its first
    step on.  The pages it processes are a first part of 0, 50, in that
    order, and when it returns they are exactly 0 and 50. *)
Theorem default_offsets_are_0_and_50 (E : env) (cfg dir : str) (days : Z)
    (h : trace) :
  download_pdfs E cfg dir days None h
  = download_pdfs E cfg dir days (Some [0; 50]) h
  /\ (exists rest,
        [0; 50]
        = page_offsets (snd (download_pdfs E cfg dir days None h)) ++ rest)
  /\ (forall n,
        fst (download_pdfs E cfg dir days None h) = Ret n ->
        page_offsets (snd (download_pdfs E cfg dir days None h)) = [0; 50]).
Proof.
  split; [reflexivity|].
  destruct (download_pdfs_run E cfg dir days None h) as (r & out & Hrun & Hcases).
  rewrite Hrun. cbn [fst snd].
  destruct Hcases as [(e & -> & [-> | [-> | ->]])|Hpages].
  - split; [exists [0; 50]; reflexivity | discriminate].
  - split; [exists [0; 50]; reflexivity | discriminate].
  - split; [exists [0; 50]; reflexivity | discriminate].
  - destruct Hpages as (cutoff & pages & tail & -> & _ & _ & _ & [rest Hpre] & Htail).
    assert (Hout : page_offsets (prelude cfg dir ++ pages ++ tail)
                   = page_offsets pages).
    { rewrite !page_offsets_app.
      destruct Htail as [(e & _ & ->)|(n & _ & -> & _)];
        cbn; rewrite app_nil_r; reflexivity. }
    rewrite Hout. split.
    + exists rest. exact Hpre.
    + intros n ->. destruct Htail as [(e & He & _)|(n' & _ & _ & Hall & _)];
        [discriminate | exact Hall].
Qed.

(** The listing scenario of the specification, run without offsets: the
    document of 9 March is fetched and saved, the one of 1 February is
    not, both pages are processed and the total is 1. *)
Example download_pdfs_listing_scenario :
  fst (download_pdfs listing_env (lit "config/url.json") (lit "data") 7 None [])
  = Ret 1
  /\ page_offsets
       (snd (download_pdfs listing_env (lit "config/url.json") (lit "data") 7 None []))
     = [0; 50]
  /\ requested
       (snd (download_pdfs listing_env (lit "config/url.json") (lit "data") 7 None []))
     = [page_url sample_base 0; lit "https://arxiv.org/pdf/2503.06000";
        page_url sample_base 50]
  /\ written
       (snd (download_pdfs listing_env (lit "config/url.json") (lit "data") 7 None []))
     = [lit "data"; lit "data/2503.06000.pdf"].
Proof. repeat split. Qed.

(** The listing scenario returns, so its pages are those of 0 and 50. *)
Lemma default_offsets_are_0_and_50_witness :
  page_offsets
    (snd (download_pdfs listing_env (lit "config/url.json") (lit "data") 7 None []))
  = [0; 50].
Proof.
  apply (proj2 (proj2 (default_offsets_are_0_and_50 listing_env
                         (lit "config/url.json") (lit "data") 7 [])) 1).
  reflexivity.
Defined.

(** * Further properties *)

(** ** [extract_section] *)

Lemma page_texts_from (doc : list str) :
  forall acc,
    fold_left (fun text_content page => text_content ++ page ++ lit " ") doc acc
    = acc ++ concat (map (fun page => page ++ lit " ") doc).
Proof.
  induction doc as [|p doc IH]; intros acc; cbn [fold_left map concat].
  - symmetry. apply app_nil_r.
  - rewrite IH, <- !app_assoc. reflexivity.
Qed.

Lemma replace_char_app (a b : ascii) (s t : str) :
  replace_char a b (s ++ t) = replace_char a b s ++ replace_char a b t.
Proof. apply map_app. Qed.

Lemma flattened_joined (doc : list str) : flattened doc = joined_pages doc.
Proof.
  unfold flattened, joined_pages, page_texts. rewrite page_texts_from.
  cbn [app]. induction doc as [|p doc IH]; [reflexivity|].
  cbn [map concat]. rewrite !replace_char_app, IH. reflexivity.
Qed.

Lemma flattened_ends_blank (doc : list str) :
  doc <> [] -> exists body, flattened doc = body ++ lit " ".
Proof.
  intros Hne. destruct (exists_last Hne) as (front & p & ->).
  rewrite flattened_joined. unfold joined_pages.
  rewrite map_app, concat_app. cbn [map concat].
  rewrite app_nil_r, app_assoc. eauto.
Qed.

(** X1. Without the marker nothing of the document is lost: the slice
    [text_content[:-1]] only takes away the blank the loop put after the
    last page.  The result, with that blank back, is the text of all the
    pages, newlines turned into blanks and a blank after each page.  A
    document without pages gives the empty text. *)
Theorem extract_section_without_marker (doc : list str) :
  ~ occurs (lit "References") (flattened doc) ->
  (doc <> [] -> extract_section doc ++ lit " " = joined_pages doc)
  /\ (doc = [] -> extract_section doc = []).
Proof.
  intros Hno. split.
  - intros Hne. unfold extract_section, find.
    rewrite find_from_absent by exact Hno. rewrite slice_to_minus_one.
    destruct (flattened_ends_blank doc Hne) as [body Hbody].
    rewrite <- flattened_joined, Hbody.
    change (lit " ") with [" "%char]. rewrite removelast_last. reflexivity.
  - intros ->. reflexivity.
Qed.

Lemma extract_section_without_marker_witness :
  extract_section [lit "Abstract" ++ [newline] ++ lit "We study"; lit "graphs."]
  ++ lit " "
  = lit "Abstract We study graphs. ".
Proof.
  apply (proj1 (extract_section_without_marker
                  [lit "Abstract" ++ [newline] ++ lit "We study"; lit "graphs."]
                  ltac:(apply contains_false; reflexivity))).
  discriminate.
Defined.

Lemma occurs_longer (sub a b s : str) :
  s = a ++ sub ++ b -> occurs sub s.
Proof. intros ->. exists a, b. reflexivity. Qed.

Lemma flattened_no_newline (doc : list str) : ~ In newline (flattened doc).
Proof.
  unfold flattened, replace_char. rewrite in_map_iff. intros (c & Hc & _).
  fold newline in Hc. destruct (ascii_eqb c newline) eqn:E.
  - discriminate Hc.
  - subst c. rewrite ascii_eqb_refl in E. discriminate.
Qed.

(** X2. Whatever the document, the result is a beginning of the
    flattened text, holds no newline, and does not contain "References":
    the cut is at the first occurrence, so no occurrence is left. *)
Theorem extract_section_is_clean_prefix (doc : list str) :
  (exists rest, flattened doc = extract_section doc ++ rest)
  /\ ~ In newline (extract_section doc)
  /\ ~ occurs (lit "References") (extract_section doc).
Proof.
  assert (Hpre : exists rest, flattened doc = extract_section doc ++ rest).
  { unfold extract_section, slice_to.
    eexists. symmetry. apply firstn_skipn. }
  split; [exact Hpre|]. destruct Hpre as [rest Hrest]. split.
  - intros Hin. apply (flattened_no_newline doc). rewrite Hrest.
    apply in_or_app. left. exact Hin.
  - destruct (contains (lit "References") (flattened doc)) eqn:Hc.
    + apply contains_occurs in Hc.
      pose proof (occurs_find_from _ _ 0 Hc) as Hge. fold (find (flattened doc) (lit "References")) in Hge.
      pose proof (find_sound (flattened doc) (lit "References")
                    (Z.to_nat (find (flattened doc) (lit "References")))) as Hfirst.
      rewrite Z2Nat.id in Hfirst by exact Hge. specialize (Hfirst eq_refl).
      pose proof (find_from_first _ _ (flattened doc) 0 Hfirst) as Hidx.
      fold (find (flattened doc) (lit "References")) in Hidx.
      destruct Hfirst as [[post Hs] Hmin].
      set (pre := firstn (Z.to_nat (find (flattened doc) (lit "References")))
                    (flattened doc)) in *.
      assert (Hcut : extract_section doc = pre).
      { unfold extract_section. rewrite Hidx. cbn [Z.add].
        rewrite Hs at 1. apply slice_to_prefix. }
      rewrite Hcut. intros (a & b & Hab).
      specialize (Hmin a (b ++ lit "References" ++ post)).
      rewrite Hs, Hab in Hmin at 1. rewrite <- !app_assoc in Hmin.
      specialize (Hmin eq_refl). rewrite Hab, !length_app in Hmin.
      cbn in Hmin. lia.
    + apply contains_false in Hc. intros (a & b & Hab). apply Hc.
      exists a, (b ++ rest). rewrite Hrest, Hab, <- !app_assoc. reflexivity.
Qed.

(** ** [extract_pdf_url] *)

Lemma lower_app (s t : str) : lower (s ++ t) = lower s ++ lower t.
Proof. apply map_app. Qed.

Lemma first_pdf_link_shape (anchors : list node) (u : str) :
  first_pdf_link anchors = Some u ->
  exists a, In a anchors /\ mentions_pdf a
            /\ (u = href a \/ u = lit "https://arxiv.org" ++ href a)
            /\ startswith u (lit "http") = true.
Proof.
  induction anchors as [|a anchors IH]; [discriminate|].
  cbn [first_pdf_link]. fold (href a).
  destruct (contains (lit "pdf") (lower (href a))) eqn:Hc.
  - apply contains_occurs in Hc.
    destruct (startswith (href a) (lit "http")) eqn:Hs; cbn [negb];
      intros H; injection H as <-; exists a;
      (split; [left; reflexivity|]); (split; [exact Hc|]).
    + split; [left; reflexivity | exact Hs].
    + split; [right; reflexivity | reflexivity].
  - intros H. destruct (IH H) as (b & Hin & Hb). exists b.
    split; [right; exact Hin | exact Hb].
Qed.

(** X3. A URL that [extract_pdf_url] returns always starts with "http"
    and always contains "pdf" in some case: it is the target of a
    hyperlink of the block that does, taken as it is or put after
    "https://arxiv.org".  The downloader is never handed a relative or
    empty URL. *)
Theorem extract_pdf_url_is_http (result : node) (u : str) :
  extract_pdf_url result = Some u ->
  startswith u (lit "http") = true
  /\ occurs (lit "pdf") (lower u)
  /\ u <> []
  /\ exists a, In a (find_all result (lit "a"))
               /\ (u = href a \/ u = lit "https://arxiv.org" ++ href a).
Proof.
  unfold extract_pdf_url. intros H.
  destruct (first_pdf_link_shape _ _ H) as (a & Hin & Hpdf & Hu & Hhttp).
  split; [exact Hhttp|]. split; [|split].
  - destruct Hu as [->| ->]; [exact Hpdf|].
    destruct Hpdf as (p & q & Hpq). rewrite lower_app, Hpq.
    exists (lower (lit "https://arxiv.org") ++ p), q.
    rewrite <- !app_assoc. reflexivity.
  - intros ->. discriminate Hhttp.
  - exists a. split; [exact Hin | exact Hu].
Qed.

Lemma extract_pdf_url_is_http_witness :
  startswith (lit "https://arxiv.org/pdf/2503.03395") (lit "http") = true
  /\ occurs (lit "pdf") (lower (lit "https://arxiv.org/pdf/2503.03395")).
Proof.
  destruct (extract_pdf_url_is_http sample_result
              (lit "https://arxiv.org/pdf/2503.03395") eq_refl)
    as (H1 & H2 & _).
  split; [exact H1 | exact H2].
Defined.

(** ** [download_pdf] *)

Lemma written_app (a b : trace) : written (a ++ b) = written a ++ written b.
Proof. apply flat_map_app. Qed.

(** X4. A call of [download_pdf] sends one request, for its URL.  It
    returns [True] exactly when the response passed [raise_for_status] and
    its body was written; then it has written one file, the body of the
    response at the saved path.  When the request or the status check
    fails, nothing is written at all. *)
Theorem download_pdf_succeeds_iff (E : env) (url dir : str) (h : trace)
    (b : bool) (out : trace) :
  download_pdf E url dir h = (Ret b, out) ->
  requested out = [url]
  /\ (b = true <->
      exists r, fetch E h url = Ret r
                /\ env_write E (h ++ [EvGet url]) (saved_path dir url) (content r)
                   = Ret tt)
  /\ (b = true ->
      exists r, fetch E h url = Ret r
                /\ In (EvWrite (saved_path dir url) (content r)) out
                /\ written out = [saved_path dir url])
  /\ (forall e, fetch E h url = Raise e -> written out = []).
Proof.
  rewrite download_pdf_cases. unfold fetch.
  destruct (env_get E h url) as [r|e].
  - destruct (raise_for_status r) as [[]|e].
    + destruct (env_write _ _ _ _) as [[]|e] eqn:Hw;
        intros H; injection H as <- <-.
      * split; [reflexivity|]. split; [|split].
        -- split; [intros _; exists r; split; [reflexivity | exact Hw] | reflexivity].
        -- intros _. exists r. split; [reflexivity|].
           split; [right; left; reflexivity | reflexivity].
        -- discriminate.
      * split; [reflexivity|]. split; [|split].
        -- split; [discriminate|].
           intros (r' & Hr' & Hw'). injection Hr' as <-. congruence.
        -- discriminate.
        -- discriminate.
    + intros H; injection H as <- <-.
      split; [reflexivity|]. split; [|split].
      * split; [discriminate | intros (r' & Hr' & _); discriminate].
      * discriminate.
      * reflexivity.
  - intros H; injection H as <- <-.
    split; [reflexivity|]. split; [|split].
    + split; [discriminate | intros (r' & Hr' & _); discriminate].
    + discriminate.
    + reflexivity.
Qed.

Lemma download_pdf_succeeds_iff_witness :
  requested (snd (download_pdf full_disk_env sample_pdf_url (lit "out") []))
  = [sample_pdf_url]
  /\ written (snd (download_pdf offline_env sample_pdf_url (lit "out") [])) = [].
Proof.
  split.
  - apply (proj1 (download_pdf_succeeds_iff full_disk_env sample_pdf_url (lit "out") []
                    false _ eq_refl)).
  - apply (proj2 (proj2 (proj2 (download_pdf_succeeds_iff offline_env sample_pdf_url
                                  (lit "out") [] false _ eq_refl)))
             connection_error).
    reflexivity.
Defined.

(** ** The name and the place of a saved document *)

Lemma split_nonempty (sep : ascii) (s : str) : split sep s <> [].
Proof.
  destruct s as [|c s]; cbn [split]; [discriminate|].
  destruct (ascii_eqb c sep); [discriminate|].
  destruct (split sep s); discriminate.
Qed.

Lemma last_cons_nonempty (x : str) (l : list str) :
  l <> [] -> last (x :: l) [] = last l [].
Proof. destruct l; [congruence | reflexivity]. Qed.

Lemma last_split_no_sep (sep : ascii) (s : str) :
  ~ In sep (last (split sep s) []).
Proof.
  induction s as [|c s IH]; cbn [split]; [intros []|].
  destruct (ascii_eqb c sep) eqn:Ec.
  - rewrite last_cons_nonempty by apply split_nonempty. exact IH.
  - pose proof (split_nonempty sep s) as Hne.
    destruct (split sep s) as [|w ws]; [congruence|].
    destruct ws as [|w' ws].
    + cbn [last] in *. intros [->|Hin]; [|exact (IH Hin)].
      rewrite ascii_eqb_refl in Ec. discriminate.
    + exact IH.
Qed.

(** The last piece of [s.split(sep)] is what follows the last [sep] of
    [s], or all of [s] when it has none. *)
Lemma last_split_suffix (sep : ascii) (s : str) :
  exists pre,
    s = pre ++ last (split sep s) []
    /\ (length (split sep s) = 1%nat -> pre = [])
    /\ (length (split sep s) <> 1%nat -> exists p, pre = p ++ [sep]).
Proof.
  induction s as [|c s (pre & Hs & Hone & Hmore)]; cbn [split].
  - exists []. repeat split. intros H. exfalso. apply H. reflexivity.
  - pose proof (split_nonempty sep s) as Hne.
    destruct (ascii_eqb c sep) eqn:Ec.
    + apply ascii_eqb_eq in Ec. subst c.
      rewrite last_cons_nonempty by exact Hne.
      exists (sep :: pre). split; [cbn [app]; congruence|]. split.
      * destruct (split sep s); [congruence | discriminate].
      * intros _. destruct (Nat.eq_dec (length (split sep s)) 1) as [H1|H1].
        -- rewrite (Hone H1). exists []. reflexivity.
        -- destruct (Hmore H1) as [p ->]. exists (sep :: p). reflexivity.
    + destruct (split sep s) as [|w ws]; [congruence|].
      destruct ws as [|w' ws].
      * cbn [last length] in *. rewrite (Hone eq_refl) in Hs. cbn [app] in Hs.
        exists []. repeat split; [cbn [app]; congruence|].
        intros H. exfalso. apply H. reflexivity.
      * change (last ((c :: w) :: w' :: ws) []) with (last (w :: w' :: ws) []).
        destruct (Hmore ltac:(discriminate)) as [p Hp].
        exists (c :: pre). split; [cbn [app]; congruence|]. split.
        -- discriminate.
        -- intros _. exists (c :: p). rewrite Hp. reflexivity.
Qed.

Lemma saved_name_no_slash (url : str) : ~ In "/"%char (saved_name url).
Proof.
  unfold saved_name. intros Hin. apply in_app_or in Hin.
  destruct Hin as [Hin|Hin]; [exact (last_split_no_sep "/"%char url Hin)|].
  cbn in Hin. repeat (destruct Hin as [Hin|Hin]; [discriminate Hin|]).
  exact Hin.
Qed.

(** X5. The file name of a download is what follows the last "/" of the
    URL (all of the URL when it has none), with ".pdf" after it; the name
    holds no "/". *)
Theorem saved_name_is_last_segment (url : str) :
  exists before segment,
    url = before ++ segment
    /\ ~ In "/"%char segment
    /\ (before = [] \/ exists p, before = p ++ lit "/")
    /\ saved_name url = segment ++ lit ".pdf"
    /\ ~ In "/"%char (saved_name url).
Proof.
  destruct (last_split_suffix "/"%char url) as (pre & Hs & Hone & Hmore).
  pose proof (last_split_no_sep "/"%char url) as Hno.
  exists pre, (last (split "/" url) []).
  split; [exact Hs|]. split; [exact Hno|]. split; [|split].
  - destruct (Nat.eq_dec (length (split "/" url)) 1) as [H1|H1];
      [left; auto | right; apply (Hmore H1)].
  - reflexivity.
  - apply saved_name_no_slash.
Qed.

Lemma saved_name_not_absolute (url : str) :
  startswith (saved_name url) (lit "/") = false.
Proof.
  pose proof (saved_name_no_slash url) as Hno.
  destruct (saved_name url) as [|c s] eqn:E; [reflexivity|].
  unfold startswith. change (lit "/") with ["/"%char]. cbn [strip_prefix].
  destruct (ascii_eqb "/" c) eqn:Ec; [|reflexivity].
  apply ascii_eqb_eq in Ec. subst c. exfalso. apply Hno. left. reflexivity.
Qed.

Lemma saved_path_prefix (dir url : str) :
  saved_path dir url = dir_prefix dir ++ saved_name url.
Proof.
  unfold saved_path, path_join, dir_prefix.
  rewrite saved_name_not_absolute.
  destruct (rev dir) as [|c r]; [reflexivity|].
  destruct (ascii_eqb c "/"); [reflexivity|].
  rewrite <- app_assoc. reflexivity.
Qed.

(** X6. A download is written directly into the output directory: its
    path is the directory, a "/" unless the directory is empty or ends
    with one, and the file name, in which the URL can put no "/".  Two
    URLs are written to the same path exactly when what follows their last
    "/" is the same, so documents that differ there never overwrite each
    other and documents that agree there always do. *)
Theorem saved_path_in_output_dir (dir url : str) :
  saved_path dir url = dir_prefix dir ++ saved_name url
  /\ ~ In "/"%char (saved_name url)
  /\ forall url',
      saved_path dir url = saved_path dir url'
      <-> last (split "/" url) [] = last (split "/" url') [].
Proof.
  split; [apply saved_path_prefix|]. split.
  - apply saved_name_no_slash.
  - intros url'. rewrite !saved_path_prefix. unfold saved_name. split.
    + intros H. apply app_inv_head in H. apply app_inv_tail in H. exact H.
    + intros ->. reflexivity.
Qed.

(** ** One page *)

Lemma download_pdf_writes (E : env) (url dir : str) (h : trace) :
  (saved_lines (snd (download_pdf E url dir h))
   <= length (written (snd (download_pdf E url dir h))))%nat
  /\ (length (written (snd (download_pdf E url dir h))) <= 1)%nat.
Proof.
  rewrite download_pdf_cases.
  destruct (env_get E h url) as [r|e];
    [|cbn [snd saved_lines written flat_map filter length app]; lia].
  destruct (raise_for_status r) as [[]|e];
    [|cbn [snd saved_lines written flat_map filter length app]; lia].
  destruct (env_write _ _ _ _) as [[]|e];
    cbn [snd saved_lines written flat_map filter length app]; lia.
Qed.

(** The pool writes at most one file for each pending download, and
    prints "Saved" only for files it wrote. *)
Lemma run_pool_writes (E : env) (dir : str) (fuel : nat) :
  forall pending h,
    (saved_lines (snd (run_pool E fuel pending dir h))
     <= length (written (snd (run_pool E fuel pending dir h))))%nat
    /\ (length (written (snd (run_pool E fuel pending dir h)))
        <= length pending)%nat.
Proof.
  induction fuel as [|fuel IH]; intros pending h.
  - destruct pending; cbn; lia.
  - destruct pending as [|u pending]; [cbn; lia|].
    cbn [run_pool].
    set (l := u :: pending).
    set (i := Nat.modulo (env_pick E h l) (length l)).
    assert (Hi : (i < length l)%nat)
      by (apply Nat.mod_upper_bound; discriminate).
    pose proof (download_pdf_writes E (nth i l []) dir h) as [Hs1 Hw1].
    destruct (download_pdf E (nth i l []) dir h) as [r o1]. cbn [snd] in *.
    pose proof (IH (firstn i l ++ skipn (S i) l) (h ++ o1)) as [Hs2 Hw2].
    destruct (run_pool E fuel _ dir (h ++ o1)) as [rs o2]. cbn [snd] in *.
    rewrite pick_length in Hw2 by exact Hi.
    rewrite saved_lines_app, written_app, length_app. lia.
Qed.

Lemma decision_events_silent (out : trace) :
  forallb decision_event out = true -> requested out = [] /\ written out = [].
Proof.
  induction out as [|ev out IH]; [split; reflexivity|].
  cbn [forallb]. rewrite andb_true_iff. intros [Hev Hout].
  destruct (IH Hout) as [Hr Hw]. unfold requested, written in *.
  destruct ev as [| | | | | |l]; try discriminate. cbn. auto.
Qed.

Lemma queued_at_most_one (c : datetime) (r : node) :
  (length (queued c r) <= 1)%nat.
Proof.
  unfold queued.
  destruct (extract_submission_date r) as [[d|]|e]; cbn [length]; try lia.
  destruct (datetime_lt d c); cbn [length]; try lia.
  destruct (extract_pdf_url r); cbn [length]; lia.
Qed.

Lemma queued_at_most_results (c : datetime) (results : list node) :
  (length (flat_map (queued c) results) <= length results)%nat.
Proof.
  induction results as [|r results IH]; [cbn; lia|].
  cbn [flat_map]. rewrite length_app. pose proof (queued_at_most_one c r).
  cbn [length]. lia.
Qed.

(** A page whose fetch went through: what it requests, writes and
    returns, in terms of the URLs its results queue. *)
Lemma process_page_tasks (E : env) (base : str) (o : Z) (c : datetime)
    (dir : str) (h : trace) (r : response) :
  fetch E (h ++ page_start base o c) (page_url base o) = Ret r ->
  exists out,
    process_page E base o c dir h = (Ret (Z.of_nat (saved_lines out)), out)
    /\ Permutation (requested out)
         (page_url base o
          :: flat_map (queued c)
               (find_all_class (env_parse E (text r)) (lit "li") (lit "arxiv-result")))
    /\ (saved_lines out <= length (written out))%nat
    /\ (length (written out)
        <= length (flat_map (queued c)
                     (find_all_class (env_parse E (text r)) (lit "li")
                        (lit "arxiv-result"))))%nat.
Proof.
  unfold fetch, process_page, page_start, bind, print, requests_get, lift.
  cbn [app]. rewrite <- !app_assoc. cbn [app]. fold (page_url base o).
  destruct (env_get E _ (page_url base o)) as [r'|e]; [|discriminate].
  destruct (raise_for_status r') as [[]|e]; [|discriminate].
  intros H. injection H as ->.
  set (results := find_all_class (env_parse E (text r)) (lit "li") (lit "arxiv-result")).
  set (h1 := (h ++ _) ++ _).
  destruct (collect_tasks_spec c results 1 [] h1) as (o1 & H1 & Hev1).
  rewrite H1. cbn [app].
  set (tasks := flat_map (queued c) results).
  pose proof (run_pool_spec E dir (length tasks) tasks (h1 ++ o1) (le_n _))
    as (fs & o2 & Hrun & Hret & _ & Hreq & Hsaved & _).
  pose proof (run_pool_writes E dir (length tasks) tasks (h1 ++ o1)) as [Hs2 Hw2].
  rewrite Hrun in Hs2, Hw2. cbn [snd] in Hs2, Hw2.
  assert (Hphase : download_phase E tasks dir (h1 ++ o1)
                   = (Ret (Z.of_nat (saved_lines o2)), o2)).
  { destruct tasks as [|t tasks'] eqn:Et.
    - injection Hrun as <- <-. reflexivity.
    - unfold download_phase, bind, lift. rewrite Hrun.
      rewrite (count_completed_spec fs Hret 0), app_nil_r, Hsaved. reflexivity. }
  rewrite Hphase.
  destruct (decision_events_quiet o1 Hev1) as [_ Hsl1].
  destruct (decision_events_silent o1 Hev1) as [Hrq1 Hwr1].
  eexists. split; [|split; [|split]].
  - f_equal. f_equal. f_equal.
    change (saved_lines (EvPage o c :: EvPrint (LFetching (page_url base o))
                           :: EvGet (page_url base o)
                           :: EvPrint (LFound (length results)) :: o1 ++ o2))
      with (saved_lines (o1 ++ o2)).
    rewrite saved_lines_app, Hsl1. reflexivity.
  - change (requested (EvPage o c :: EvPrint (LFetching (page_url base o))
                         :: EvGet (page_url base o)
                         :: EvPrint (LFound (length results)) :: o1 ++ o2))
      with (page_url base o :: requested (o1 ++ o2)).
    rewrite requested_app, Hrq1. cbn [app]. apply perm_skip. exact Hreq.
  - change (saved_lines (EvPage o c :: EvPrint (LFetching (page_url base o))
                           :: EvGet (page_url base o)
                           :: EvPrint (LFound (length results)) :: o1 ++ o2))
      with (saved_lines (o1 ++ o2)).
    change (written (EvPage o c :: EvPrint (LFetching (page_url base o))
                       :: EvGet (page_url base o)
                       :: EvPrint (LFound (length results)) :: o1 ++ o2))
      with (written (o1 ++ o2)).
    rewrite saved_lines_app, written_app, Hsl1, Hwr1. exact Hs2.
  - change (written (EvPage o c :: EvPrint (LFetching (page_url base o))
                       :: EvGet (page_url base o)
                       :: EvPrint (LFound (length results)) :: o1 ++ o2))
      with (written (o1 ++ o2)).
    rewrite written_app, Hwr1. exact Hw2.
Qed.

Lemma process_page_returned (E : env) (base : str) (o : Z) (c : datetime)
    (dir : str) (h : trace) (n : Z) (out : trace) :
  process_page E base o c dir h = (Ret n, out) ->
  exists r, fetch E (h ++ page_start base o c) (page_url base o) = Ret r.
Proof.
  intros Hrun. pose proof (process_page_spec E base o c dir h) as H.
  destruct (fetch E _ _) as [r|e]; [eauto|]. congruence.
Qed.

(** X7. A page that returns has fetched its listing.  It requests the
    listing and, once each, the URLs its results queue, and nothing else;
    it writes at most one file per queued URL; and the count it returns is
    at least 0, at most the number of files it wrote, hence at most the
    number of queued URLs and of results on the page. *)
Theorem process_page_bounds (E : env) (base : str) (o : Z) (c : datetime)
    (dir : str) (h : trace) (n : Z) (out : trace) :
  process_page E base o c dir h = (Ret n, out) ->
  exists r,
    fetch E (h ++ page_start base o c) (page_url base o) = Ret r
    /\ Permutation (requested out)
         (page_url base o
          :: flat_map (queued c)
               (find_all_class (env_parse E (text r)) (lit "li") (lit "arxiv-result")))
    /\ 0 <= n <= Z.of_nat (length (written out))
    /\ (length (written out)
        <= length (flat_map (queued c)
                     (find_all_class (env_parse E (text r)) (lit "li")
                        (lit "arxiv-result")))
        <= length (find_all_class (env_parse E (text r)) (lit "li")
                     (lit "arxiv-result")))%nat.
Proof.
  intros Hrun. destruct (process_page_returned _ _ _ _ _ _ _ _ Hrun) as [r Hr].
  exists r. split; [exact Hr|].
  destruct (process_page_tasks E base o c dir h r Hr) as (out' & Hrun' & Hreq & Hs & Hw).
  rewrite Hrun in Hrun'. injection Hrun' as -> <-.
  split; [exact Hreq|]. split; [lia|]. split; [exact Hw|].
  apply queued_at_most_results.
Qed.

(** X8. A page on which no result is both retained and linked to a
    document, an empty page among them, returns 0 after one request, the
    one for the listing: the pool is not used, nothing is written. *)
Theorem process_page_nothing_to_download (E : env) (base : str) (o : Z)
    (c : datetime) (dir : str) (h : trace) (r : response) :
  fetch E (h ++ page_start base o c) (page_url base o) = Ret r ->
  (forall result,
      In result (find_all_class (env_parse E (text r)) (lit "li") (lit "arxiv-result")) ->
      ~ retained c result \/ extract_pdf_url result = None) ->
  exists out,
    process_page E base o c dir h = (Ret 0, out)
    /\ requested out = [page_url base o]
    /\ written out = []
    /\ saved_lines out = O.
Proof.
  intros Hr Hnone.
  destruct (process_page_tasks E base o c dir h r Hr) as (out & Hrun & Hreq & Hs & Hw).
  assert (Htasks : flat_map (queued c)
                     (find_all_class (env_parse E (text r)) (lit "li")
                        (lit "arxiv-result")) = []).
  { destruct (flat_map _ _) as [|u us] eqn:Hf; [reflexivity|]. exfalso.
    assert (Hin : In u (flat_map (queued c)
                          (find_all_class (env_parse E (text r)) (lit "li")
                             (lit "arxiv-result"))))
      by (rewrite Hf; left; reflexivity).
    apply in_flat_map in Hin. destruct Hin as (res & Hres & Hq).
    apply queued_retained in Hq. destruct Hq as [Hret Hu].
    destruct (Hnone res Hres) as [H|H]; [exact (H Hret) | congruence]. }
  rewrite Htasks in *. cbn [length] in Hw.
  assert (Hwr : written out = []) by (destruct (written out); [reflexivity | cbn in Hw; lia]).
  rewrite Hwr in Hs. cbn [length] in Hs.
  assert (Hsl : saved_lines out = O) by lia.
  exists out. rewrite Hsl in Hrun. split; [exact Hrun|].
  split; [|split; [exact Hwr | exact Hsl]].
  apply Permutation_sym, Permutation_length_1_inv in Hreq. exact Hreq.
Qed.

Lemma process_page_bounds_witness :
  0 <= 1 <= Z.of_nat
              (length
                 (written
                    (snd (process_page listing_env sample_base 0
                            (mk_datetime 2025 3 3 9 30 0 0) (lit "data") [])))).
Proof.
  destruct (process_page_bounds listing_env sample_base 0
              (mk_datetime 2025 3 3 9 30 0 0) (lit "data") [] 1 _ eq_refl)
    as (r & _ & _ & H & _).
  exact H.
Defined.

Lemma process_page_nothing_to_download_witness :
  exists out,
    process_page listing_env sample_base 50 (mk_datetime 2025 3 3 9 30 0 0)
      (lit "data") [] = (Ret 0, out)
    /\ requested out = [page_url sample_base 50]
    /\ written out = []
    /\ saved_lines out = O.
Proof.
  apply (process_page_nothing_to_download listing_env sample_base 50
           (mk_datetime 2025 3 3 9 30 0 0) (lit "data") []
           (ok_response (page_url sample_base 50) (lit "other"))).
  - reflexivity.
  - intros result Hin. vm_compute in Hin. destruct Hin.
Defined.

(** ** The run *)

Lemma saved_lines_prelude (cfg dir : str) (pages tail : trace) (n : Z) :
  tail = [] \/ tail = [EvPrint (LDone dir n)] ->
  saved_lines (prelude cfg dir ++ pages ++ tail) = saved_lines pages.
Proof.
  intros Ht. rewrite !saved_lines_app.
  destruct Ht as [-> | ->]; cbn; lia.
Qed.

(** X9. A run that returns has gone through all its offsets, in the order
    given and as often as given; it has read the clock once; its last act
    is to print the total; and the total it prints and returns is the
    number of "Saved PDF" lines of the whole run, at least 0. *)
Theorem download_pdfs_total (E : env) (cfg dir : str) (days : Z)
    (offsets : option (list Z)) (h : trace) (n : Z) (out : trace) :
  download_pdfs E cfg dir days offsets h = (Ret n, out) ->
  page_offsets out = offsets_of offsets
  /\ clock_reads out = 1%nat
  /\ (exists before, out = before ++ [EvPrint (LDone dir n)])
  /\ n = Z.of_nat (saved_lines out)
  /\ 0 <= n.
Proof.
  intros Hrun.
  destruct (download_pdfs_run E cfg dir days offsets h) as (r & out' & Hrun' & Hcases).
  rewrite Hrun in Hrun'. injection Hrun' as <- <-.
  destruct Hcases as [(e & He & _)|Hpages]; [discriminate|].
  destruct Hpages as (cutoff & pages & tail & -> & _ & Hev & _ & _ & Htail).
  destruct Htail as [(e & He & _)|(n' & Hn' & -> & Hall & Hn)]; [discriminate|].
  injection Hn' as <-.
  split; [|split; [|split; [|split]]].
  - rewrite !page_offsets_app, Hall. cbn. apply app_nil_r.
  - rewrite !clock_reads_app, (page_events_no_clock pages Hev). reflexivity.
  - exists (prelude cfg dir ++ pages). rewrite <- app_assoc. reflexivity.
  - rewrite (saved_lines_prelude cfg dir pages _ n) by (right; reflexivity).
    exact Hn.
  - lia.
Qed.

Lemma download_pdfs_total_witness :
  page_offsets
    (snd (download_pdfs listing_env (lit "config/url.json") (lit "data") 7
            (Some [0; 50; 0]) []))
  = [0; 50; 0]
  /\ 2 = Z.of_nat
           (saved_lines
              (snd (download_pdfs listing_env (lit "config/url.json") (lit "data") 7
                      (Some [0; 50; 0]) []))).
Proof.
  destruct (download_pdfs_total listing_env (lit "config/url.json") (lit "data") 7
              (Some [0; 50; 0]) [] 2 _ eq_refl) as (H1 & _ & _ & H2 & _).
  split; [exact H1 | exact H2].
Defined.

(** [now - timedelta(days=days)] fails exactly when the day count is out
    of the range of [timedelta] or the date falls outside years 1 to
    9999, and then with an [OverflowError]. *)
Lemma sub_days_raises (now : datetime) (days : Z) :
  (exists e, sub_days now days = Raise e)
  <-> 999999999 < Z.abs days
      \/ ymd2ord (year now) (month now) (day now) - days <= 0
      \/ MAXORDINAL < ymd2ord (year now) (month now) (day now) - days.
Proof.
  unfold sub_days.
  destruct (Z.ltb_spec 999999999 (Z.abs days)) as [Hbig|Hsmall].
  - split; [intros _; left; exact Hbig | eauto].
  - destruct (Z.ltb_spec 0 (ymd2ord (year now) (month now) (day now) - days))
      as [Hpos|Hneg]; cbn [andb].
    + destruct (Z.leb_spec (ymd2ord (year now) (month now) (day now) - days)
                  MAXORDINAL) as [Hle|Hgt].
      * destruct (ord2ymd _) as [[y m] d]. split.
        -- intros [e He]. discriminate.
        -- intros [H|[H|H]]; lia.
      * split; [intros _; right; right; exact Hgt | eauto].
    + split; [intros _; right; left; exact Hneg | eauto].
Qed.

Lemma sub_days_overflow (now : datetime) (days : Z) (e : exn) :
  sub_days now days = Raise e -> exn_cls e = OverflowError.
Proof.
  unfold sub_days. destruct (999999999 <? Z.abs days).
  - intros H. injection H as <-. reflexivity.
  - destruct ((0 <? _) && (_ <=? MAXORDINAL)).
    + destruct (ord2ymd _) as [[y m] d]. discriminate.
    + intros H. injection H as <-. reflexivity.
Qed.

(** X10. When the configuration is loaded but the output directory
    cannot be made, the run raises that failure without reading the clock
    or sending a request.  When the day count is beyond 999999999 in size,
    or reaches back to before year 1 or forward past year 9999, the run
    raises an [OverflowError]: the directory is made already and the clock
    read, but no page is requested. *)
Theorem download_pdfs_fails_before_pages (E : env) (cfg dir : str) (days : Z)
    (offsets : option (list Z)) (h : trace) (base : str) :
  load_config E cfg h = (Ret base, [EvLoadJson cfg]) ->
  (forall e,
      env_makedirs E (h ++ [EvLoadJson cfg]) dir = Raise e ->
      download_pdfs E cfg dir days offsets h
      = (Raise e, [EvLoadJson cfg; EvMakedirs dir]))
  /\ (env_makedirs E (h ++ [EvLoadJson cfg]) dir = Ret tt ->
      999999999 < Z.abs days
      \/ (let now := env_now E (h ++ [EvLoadJson cfg; EvMakedirs dir]) in
          ymd2ord (year now) (month now) (day now) - days <= 0
          \/ MAXORDINAL < ymd2ord (year now) (month now) (day now) - days) ->
      exists e,
        exn_cls e = OverflowError
        /\ download_pdfs E cfg dir days offsets h = (Raise e, prelude cfg dir)
        /\ requested (prelude cfg dir) = []
        /\ written (prelude cfg dir) = [dir]).
Proof.
  intros Hcfg. split.
  - intros e Hmk. unfold download_pdfs. unfold bind at 1. rewrite Hcfg.
    unfold bind at 1. unfold makedirs at 1. rewrite Hmk. reflexivity.
  - intros Hmk Hover.
    destruct (proj2 (sub_days_raises
                       (env_now E (h ++ [EvLoadJson cfg; EvMakedirs dir])) days))
      as [e He].
    { destruct Hover as [H|H]; [left; exact H | right; exact H]. }
    exists e. split; [exact (sub_days_overflow _ _ _ He)|].
    split; [|split; reflexivity].
    unfold download_pdfs. unfold bind at 1. rewrite Hcfg.
    unfold bind at 1. unfold makedirs at 1. rewrite Hmk.
    unfold bind at 1. unfold datetime_now at 1.
    unfold bind at 1. unfold lift at 1.
    rewrite <- !app_assoc. cbn [app]. rewrite He. reflexivity.
Qed.

Lemma download_pdfs_fails_before_pages_witness :
  exists e,
    exn_cls e = OverflowError
    /\ download_pdfs listing_env (lit "config/url.json") (lit "data") 1000000 None []
       = (Raise e, prelude (lit "config/url.json") (lit "data")).
Proof.
  destruct (proj2 (download_pdfs_fails_before_pages listing_env
                     (lit "config/url.json") (lit "data") 1000000 None []
                     sample_base eq_refl) eq_refl) as (e & Hc & Hrun & _).
  - right. left. vm_compute. discriminate.
  - exists e. split; [exact Hc | exact Hrun].
Defined.

(** ** [load_config] *)

Lemma lstrip_spec (s : str) :
  exists l,
    s = l ++ lstrip s
    /\ forallb isspace l = true
    /\ (forall c m, lstrip s = c :: m -> isspace c = false).
Proof.
  induction s as [|c s IH].
  - exists []. repeat split. intros c m H. discriminate.
  - cbn [lstrip]. destruct (isspace c) eqn:Hc.
    + destruct IH as (l & Hs & Hl & Hhead).
      exists (c :: l). split; [cbn [app]; f_equal; exact Hs|].
      split; [cbn [forallb]; rewrite Hc; exact Hl | exact Hhead].
    + exists []. repeat split. intros c' m H. injection H as <- <-. exact Hc.
Qed.

Lemma forallb_rev {A} (f : A -> bool) (l : list A) :
  forallb f l = true -> forallb f (rev l) = true.
Proof.
  rewrite !forallb_forall. intros H x Hx. apply H, in_rev, Hx.
Qed.

Lemma rstrip_spec (s : str) :
  exists r,
    s = rstrip s ++ r
    /\ forallb isspace r = true
    /\ (forall m c, rstrip s = m ++ [c] -> isspace c = false).
Proof.
  unfold rstrip. destruct (lstrip_spec (rev s)) as (l & Hs & Hl & Hhead).
  exists (rev l). split; [|split].
  - rewrite <- rev_app_distr, <- Hs, rev_involutive. reflexivity.
  - apply forallb_rev, Hl.
  - intros m c Hm. apply (Hhead c (rev m)).
    rewrite <- (rev_involutive (lstrip (rev s))), Hm, rev_app_distr.
    reflexivity.
Qed.

Lemma strip_spec (s : str) :
  exists l r,
    s = l ++ strip s ++ r
    /\ forallb isspace l = true
    /\ forallb isspace r = true
    /\ (forall c m, strip s = c :: m -> isspace c = false)
    /\ (forall m c, strip s = m ++ [c] -> isspace c = false).
Proof.
  unfold strip.
  destruct (lstrip_spec s) as (l & Hs & Hl & Hhead).
  destruct (rstrip_spec (lstrip s)) as (r & Ht & Hr & Hlast).
  exists l, r. split; [rewrite <- Ht; exact Hs|].
  split; [exact Hl|]. split; [exact Hr|]. split; [|exact Hlast].
  intros c m Hc. rewrite Hc in Ht.
  apply (Hhead c (m ++ r)). rewrite Ht. reflexivity.
Qed.

(** X11. The address [load_config] returns is the "url" string of the
    configuration object without the white space around it: it is not
    empty, and neither its first nor its last character is white space. *)
Theorem load_config_returns_stripped (E : env) (cfg : str) (h : trace)
    (base : str) (out : trace) :
  load_config E cfg h = (Ret base, out) ->
  exists d s l r,
    env_load_json E h cfg = Ret (PDict d)
    /\ assoc_get (lit "url") (PStr (lit "")) d = PStr s
    /\ s = l ++ base ++ r
    /\ forallb isspace l = true
    /\ forallb isspace r = true
    /\ (exists c m, base = c :: m /\ isspace c = false)
    /\ (exists m c, base = m ++ [c] /\ isspace c = false).
Proof.
  unfold load_config, bind, load_json.
  destruct (env_load_json E h cfg) as [v|e]; [|discriminate].
  destruct v as [| | | | | |d]; try discriminate.
  destruct (assoc_get (lit "url") (PStr (lit "")) d) as [| | | |s| |] eqn:Hget;
    try discriminate.
  destruct (strip_spec s) as (l & r & Hs & Hl & Hr & Hhead & Hlast).
  destruct (strip s) as [|c m] eqn:Hstrip; [discriminate|].
  intros H. cbn in H. injection H as <- _.
  exists d, s, l, r. repeat (split; [solve [auto]|]).
  split.
  - exists c, m. split; [reflexivity | exact (Hhead c m eq_refl)].
  - destruct (exists_last (l := c :: m) ltac:(discriminate)) as (m' & c' & Hm).
    exists m', c'. split; [exact Hm | exact (Hlast m' c' Hm)].
Qed.

Lemma load_config_returns_stripped_witness :
  exists d s l r,
    env_load_json
      (config_env (PDict [(lit "url", PStr (lit "  " ++ sample_base ++ [newline]))]))
      [] (lit "config/url.json") = Ret (PDict d)
    /\ assoc_get (lit "url") (PStr (lit "")) d = PStr s
    /\ s = l ++ sample_base ++ r
    /\ forallb isspace l = true
    /\ forallb isspace r = true
    /\ (exists c m, sample_base = c :: m /\ isspace c = false)
    /\ (exists m c, sample_base = m ++ [c] /\ isspace c = false).
Proof.
  apply (load_config_returns_stripped
           (config_env (PDict [(lit "url", PStr (lit "  " ++ sample_base ++ [newline]))]))
           (lit "config/url.json") [] sample_base [EvLoadJson (lit "config/url.json")]).
  reflexivity.
Defined.

(** X12. A configuration file that cannot be read or parsed makes the run
    raise that failure.  One that parses to something other than a JSON
    object, or to an object whose "url" is not a string, makes it raise an
    [AttributeError].  Either way the run has done nothing but read the
    configuration file. *)
Theorem unusable_config_aborts_run (E : env) (cfg dir : str) (days : Z)
    (offsets : option (list Z)) (h : trace) :
  (forall e,
      env_load_json E h cfg = Raise e ->
      download_pdfs E cfg dir days offsets h = (Raise e, [EvLoadJson cfg]))
  /\ (forall v,
      env_load_json E h cfg = Ret v ->
      (forall d, v <> PDict d)
      \/ (exists d,
             v = PDict d
             /\ forall s, assoc_get (lit "url") (PStr (lit "")) d <> PStr s) ->
      exists e,
        exn_cls e = AttributeError
        /\ load_config E cfg h = (Raise e, [EvLoadJson cfg])
        /\ download_pdfs E cfg dir days offsets h = (Raise e, [EvLoadJson cfg])).
Proof.
  split.
  - intros e He. unfold download_pdfs, bind at 1.
    unfold load_config, bind at 1, load_json. rewrite He. reflexivity.
  - intros v Hv Hshape.
    assert (Hcfg : exists e, exn_cls e = AttributeError
                             /\ load_config E cfg h = (Raise e, [EvLoadJson cfg])).
    { unfold load_config, bind, load_json. rewrite Hv.
      destruct Hshape as [Hno|(d & -> & Hno)].
      - destruct v as [| | | | | |d];
          try solve [eexists; split; [|reflexivity]; reflexivity].
        exfalso. exact (Hno d eq_refl).
      - destruct (assoc_get (lit "url") (PStr (lit "")) d) as [| | | |s| |];
          try solve [eexists; split; [|reflexivity]; reflexivity].
        exfalso. exact (Hno s eq_refl). }
    destruct Hcfg as (e & Hcls & Hcfg). exists e.
    split; [exact Hcls|]. split; [exact Hcfg|].
    unfold download_pdfs, bind at 1. rewrite Hcfg. reflexivity.
Qed.

Lemma unusable_config_aborts_run_witness :
  exists e,
    exn_cls e = AttributeError
    /\ download_pdfs (config_env (PDict [(lit "url", PInt 7)]))
         (lit "config/url.json") (lit "data") 7 None []
       = (Raise e, [EvLoadJson (lit "config/url.json")]).
Proof.
  destruct (proj2 (unusable_config_aborts_run
                     (config_env (PDict [(lit "url", PInt 7)]))
                     (lit "config/url.json") (lit "data") 7 None [])
              (PDict [(lit "url", PInt 7)]) eq_refl) as (e & Hc & _ & Hrun).
  - right. exists [(lit "url", PInt 7)]. split; [reflexivity|].
    intros s. vm_compute. discriminate.
  - exists e. split; [exact Hc | exact Hrun].
Defined.

(** ** Dates in the text of a result *)

Lemma isdecimal_not_space (c : ascii) : isdecimal c = true -> isspace c = false.
Proof.
  unfold isdecimal, isspace, between. intros H.
  apply andb_true_iff in H. destruct H as [H1 H2].
  apply Z.leb_le in H1, H2.
  repeat match goal with
         | |- context [?a <=? ?b] => destruct (Z.leb_spec a b); try lia
         | |- context [?a =? ?b] => destruct (Z.eqb_spec a b); try lia
         end; reflexivity.
Qed.

(** A greedy repetition takes a whole run of matching characters when the
    continuation accepts what follows the run. *)
Lemma rep_match_greedy {R} (p : ascii -> bool) (w : str) :
  forall (lo : nat) (hi : option nat) (rest : str) (k : str -> option R) (x : R),
    forallb p w = true ->
    (lo <= length w)%nat ->
    match hi with Some n => (length w <= n)%nat | None => True end ->
    hi = Some (length w)
    \/ match rest with [] => True | c :: _ => p c = false end ->
    k rest = Some x ->
    rep_match p lo hi (w ++ rest) k = Some x.
Proof.
  induction w as [|c w IH]; intros lo hi rest k x Hw Hlo Hhi Hstop Hk.
  - cbn [length] in Hlo. assert (lo = O) by lia. subst lo.
    cbn [app]. destruct rest as [|c rest]; cbn [rep_match]; [exact Hk|].
    destruct Hstop as [-> | Hc].
    + cbn [length may_repeat]. rewrite andb_false_r. exact Hk.
    + rewrite Hc. exact Hk.
  - cbn [forallb] in Hw. apply andb_true_iff in Hw. destruct Hw as [Hc Hw].
    cbn [app rep_match]. rewrite Hc.
    assert (Hmay : may_repeat hi = true).
    { destruct hi as [[|n]|]; cbn [length] in Hhi; [lia | reflexivity | reflexivity]. }
    rewrite Hmay. cbn [andb].
    rewrite (IH (pred lo) (one_less hi) rest k x Hw).
    + reflexivity.
    + cbn [length] in Hlo. lia.
    + destruct hi as [n|]; cbn [one_less length] in *; [lia | exact I].
    + destruct Hstop as [-> | Hc']; [left | right; exact Hc'].
      reflexivity.
    + exact Hk.
Qed.

Lemma day_table :
  forallb day_ok (map Z.of_nat (seq (Z.to_nat 1) (Z.to_nat 31))) = true.
Proof. vm_compute. reflexivity. Qed.

Lemma year_table :
  forallb year_ok (map Z.of_nat (seq (Z.to_nat 1000) (Z.to_nat 9000))) = true.
Proof. vm_compute. reflexivity. Qed.

Lemma month_table :
  forallb month_ok (map Z.of_nat (seq (Z.to_nat 1) (Z.to_nat 12))) = true.
Proof. vm_compute. reflexivity. Qed.

Lemma table_lookup (f : Z -> bool) (lo len n : Z) :
  forallb f (map Z.of_nat (seq (Z.to_nat lo) (Z.to_nat len))) = true ->
  0 <= lo <= n -> n < lo + len ->
  f n = true.
Proof.
  intros H Hlo Hn. rewrite forallb_forall in H. apply H.
  rewrite <- (Z2Nat.id n) by lia. apply in_map, in_seq. lia.
Qed.

Lemma day_spec (d : Z) :
  1 <= d <= 31 ->
  exists c w,
    str_of_int d = c :: w
    /\ isdecimal c = true
    /\ forallb isdecimal w = true
    /\ (length w <= 1)%nat
    /\ int_of_digits (c :: w) = d.
Proof.
  intros Hd. pose proof (table_lookup day_ok 1 31 d day_table ltac:(lia) ltac:(lia)) as H.
  unfold day_ok in H. cbv zeta in H.
  rewrite !andb_true_iff, Z.eqb_eq, Nat.leb_le, Nat.leb_le in H.
  destruct H as (((Hall & Hlo) & Hhi) & Hint).
  destruct (str_of_int d) as [|c w]; [cbn in Hlo; lia|].
  cbn [forallb] in Hall. apply andb_true_iff in Hall.
  exists c, w. cbn [length] in Hhi.
  repeat split; try tauto; lia.
Qed.

Lemma year_spec (y : Z) :
  1000 <= y <= 9999 ->
  exists c1 c2 c3 c4,
    str_of_int y = [c1; c2; c3; c4]
    /\ forallb isdecimal [c1; c2; c3; c4] = true
    /\ int_of_digits [c1; c2; c3; c4] = y.
Proof.
  intros Hy. pose proof (table_lookup year_ok 1000 9000 y year_table ltac:(lia) ltac:(lia)) as H.
  unfold year_ok in H. cbv zeta in H.
  rewrite !andb_true_iff, Z.eqb_eq, Nat.eqb_eq in H.
  destruct H as ((Hall & Hlen) & Hint).
  destruct (str_of_int y) as [|c1 [|c2 [|c3 [|c4 [|c5 w]]]]]; try discriminate.
  exists c1, c2, c3, c4. auto.
Qed.

Lemma month_spec (m : Z) :
  1 <= m <= 12 ->
  exists c w,
    month_name m = c :: w
    /\ isspace c = false
    /\ forallb isword (c :: w) = true.
Proof.
  intros Hm. pose proof (table_lookup month_ok 1 12 m month_table ltac:(lia) ltac:(lia)) as H.
  unfold month_ok in H. cbv zeta in H.
  rewrite andb_true_iff in H. destruct H as (Hall & Hhead).
  destruct (month_name m) as [|c w]; [discriminate|].
  exists c, w. apply negb_true_iff in Hhead. auto.
Qed.

Ltac write_out_number :=
  match goal with
  | |- context [str_of_int ?z] =>
      let w := eval vm_compute in (str_of_int z) in
      change (str_of_int z) with w
  end.

Ltac write_out_month :=
  match goal with
  | |- context [month_name ?z] =>
      let w := eval vm_compute in (month_name z) in
      change (month_name z) with w
  end.

Lemma small_cases (P : Z -> Prop) (lo len n : Z) :
  Forall P (map Z.of_nat (seq (Z.to_nat lo) (Z.to_nat len))) ->
  0 <= lo <= n -> n < lo + len -> P n.
Proof.
  intros H Hlo Hn. rewrite Forall_forall in H. apply H.
  rewrite <- (Z2Nat.id n) by lia. apply in_map, in_seq. lia.
Qed.

(** The day group of [strptime] takes a day written without padding when
    a blank follows it. *)
Lemma re_d_day {R} (d : Z) (rest : str) (k : str -> option R) :
  1 <= d <= 31 ->
  (forall c r, isdecimal c = true -> k (c :: r) = None) ->
  rmatch re_d (str_of_int d ++ " "%char :: rest) k = k (" "%char :: rest).
Proof.
  intros Hd Hk. revert Hk.
  apply (small_cases
           (fun d => (forall c r, isdecimal c = true -> k (c :: r) = None) ->
                     rmatch re_d (str_of_int d ++ " "%char :: rest) k
                     = k (" "%char :: rest)) 1 31 d); [|lia|lia].
  change (Z.to_nat 1) with 1%nat. change (Z.to_nat 31) with 31%nat.
  cbn [seq map].
  repeat (apply Forall_cons;
          [intros Hk; write_out_number; unfold re_d; cbn;
           repeat match goal with
                  | |- context [k (?c :: " "%char :: ?r)] =>
                      rewrite (Hk c (" "%char :: r)) by reflexivity
                  end;
           destruct (k (" "%char :: rest)); reflexivity|]).
  apply Forall_nil.
Qed.

(** The month group of [strptime] takes a month name, whatever follows. *)
Lemma match_month_name {R} (m : Z) (rest : str) (k : Z -> str -> option R) :
  1 <= m <= 12 ->
  match_month month_names (month_name m ++ rest) k = k m rest.
Proof.
  intros Hm.
  apply (small_cases
           (fun m => match_month month_names (month_name m ++ rest) k = k m rest)
           1 12 m); [|lia|lia].
  change (Z.to_nat 1) with 1%nat. change (Z.to_nat 12) with 12%nat.
  cbn [seq map].
  repeat (apply Forall_cons;
          [write_out_month; cbn;
           match goal with |- context [k ?a ?b] => destruct (k a b) end;
           reflexivity|]).
  apply Forall_nil.
Qed.

Lemma strip_prefix_app (p s : str) : strip_prefix p (p ++ s) = Some s.
Proof.
  induction p as [|c p IH]; [reflexivity|].
  cbn [app strip_prefix]. rewrite ascii_eqb_refl. exact IH.
Qed.

(** The date pattern on a text of the shape it describes: the marker,
    blanks or none, one or two digits, a blank, a word, a comma, blanks or
    none, four digits.  Group 1 is the text from the first digit to the
    last. *)
Lemma match_group1_shape (sp ds ms sep ys post : str) :
  forallb isspace sp = true ->
  forallb isdecimal ds = true -> (1 <= length ds <= 2)%nat ->
  forallb isword ms = true ->
  (exists c w, ms = c :: w /\ isspace c = false) ->
  forallb isspace sep = true ->
  forallb isdecimal ys = true -> length ys = 4%nat ->
  match_group1 date_pattern_head date_pattern_group
    (lit "Submitted" ++ sp ++ ds ++ " "%char :: ms ++ ","%char :: sep ++ ys ++ post)
  = Some (ds ++ " "%char :: ms ++ ","%char :: sep ++ ys).
Proof.
  intros Hsp Hds Hlen Hms (cm & wm & -> & Hcm) Hsep Hys Hlys.
  destruct ds as [|cd wd]; [cbn in Hlen; lia|].
  destruct ys as [|c1 ys]; [discriminate|].
  assert (Hc1 : isspace c1 = false).
  { apply isdecimal_not_space. cbn [forallb] in Hys.
    apply andb_true_iff in Hys. tauto. }
  assert (Hcd : isspace cd = false).
  { apply isdecimal_not_space. cbn [forallb] in Hds.
    apply andb_true_iff in Hds. tauto. }
  set (date := (cd :: wd) ++ " "%char :: (cm :: wm) ++ ","%char :: sep ++ c1 :: ys).
  assert (Hdate : (cd :: wd) ++ " "%char :: (cm :: wm) ++ ","%char :: sep
                  ++ (c1 :: ys) ++ post = date ++ post).
  { unfold date. rewrite <- !app_assoc. cbn [app]. do 2 f_equal.
    rewrite <- !app_assoc. cbn [app]. do 2 f_equal.
    rewrite <- !app_assoc. reflexivity. }
  unfold match_group1, date_pattern_head. cbn [rmatch].
  rewrite strip_prefix_app.
  apply (rep_match_greedy isspace sp 0 None _ _ date Hsp);
    [lia | exact I | right; exact Hcd |].
  cbv beta.
  match goal with
  | |- context [consumed ?s] =>
      replace (consumed s) with (consumed (date ++ post))
        by (rewrite <- Hdate; reflexivity)
  end.
  unfold date_pattern_group. cbn [rmatch].
  apply (rep_match_greedy isdecimal (cd :: wd) 1 (Some 2%nat) _ _ date Hds);
    [lia | lia | right; reflexivity |].
  apply (rep_match_greedy isspace [" "%char] 1 None _ _ date eq_refl);
    [cbn; lia | exact I | right; exact Hcm |].
  apply (rep_match_greedy isword (cm :: wm) 1 None _ _ date Hms);
    [cbn; lia | exact I | right; reflexivity |].
  change (strip_prefix (lit ",") (","%char :: sep ++ (c1 :: ys) ++ post))
    with (Some (sep ++ (c1 :: ys) ++ post)).
  cbv iota.
  apply (rep_match_greedy isspace sep 0 None _ _ date Hsep);
    [lia | exact I | right; exact Hc1 |].
  apply (rep_match_greedy isdecimal (c1 :: ys) 4 (Some 4%nat) _ _ date Hys);
    [lia | lia | left; rewrite Hlys; reflexivity |].
  rewrite consumed_app. reflexivity.
Qed.

Lemma spaces_one {R} (rest : str) (k : str -> option R) :
  match rest with c :: _ => isspace c = false | [] => True end ->
  rep_match isspace 1 None (" "%char :: rest) k = k rest.
Proof.
  intros Hrest. cbn [rep_match].
  change (isspace " "%char) with true. cbn [andb may_repeat pred one_less].
  destruct rest as [|c r]; cbn [rep_match].
  - destruct (k []); reflexivity.
  - rewrite Hrest. cbn [andb]. destruct (k (c :: r)); reflexivity.
Qed.

Lemma spaces_none {R} (c : ascii) (rest : str) (k : str -> option R) :
  isspace c = false -> rep_match isspace 1 None (c :: rest) k = None.
Proof. intros Hc. cbn [rep_match]. rewrite Hc. reflexivity. Qed.

(** [strptime] takes apart a date written the way the pages write it. *)
Lemma match_dBY_date (y m d : Z) :
  1000 <= y <= 9999 -> 1 <= m <= 12 -> 1 <= d <= 31 ->
  match_dBY (date_text y m d) = Some (str_of_int d, m, str_of_int y, []).
Proof.
  intros Hy Hm Hd.
  destruct (month_spec m Hm) as (cm & wm & Hmn & Hcm & _).
  destruct (year_spec y Hy) as (c1 & c2 & c3 & c4 & Hys & Hdec & _).
  assert (Hc1 : isspace c1 = false).
  { apply isdecimal_not_space. cbn [forallb] in Hdec.
    apply andb_true_iff in Hdec. tauto. }
  unfold match_dBY.
  change (date_text y m d)
    with (str_of_int d
          ++ " "%char :: month_name m ++ ","%char :: " "%char :: str_of_int y).
  rewrite re_d_day;
    [|lia|intros c r Hc; unfold re_spaces; cbn [rmatch];
          apply spaces_none, isdecimal_not_space, Hc].
  unfold re_spaces. cbn [rmatch].
  rewrite spaces_one by (rewrite Hmn; exact Hcm).
  rewrite match_month_name by lia.
  change (strip_prefix (lit ",") (","%char :: " "%char :: str_of_int y))
    with (Some (" "%char :: str_of_int y)).
  cbv iota.
  rewrite spaces_one by (rewrite Hys; exact Hc1).
  unfold re_Y. cbn [rmatch].
  rewrite <- (app_nil_r (str_of_int y)) at 1.
  apply (rep_match_greedy isdecimal (str_of_int y) 4 (Some 4%nat)).
  - rewrite Hys. exact Hdec.
  - rewrite Hys. cbn. lia.
  - rewrite Hys. cbn. lia.
  - left. rewrite Hys. reflexivity.
  - rewrite consumed_app.
    rewrite <- (app_nil_r (str_of_int y)) at 1. rewrite consumed_app.
    reflexivity.
Qed.

(** Without the blank after the comma [strptime] finds no date. *)
Lemma match_dBY_tight (y m d : Z) :
  1000 <= y <= 9999 -> 1 <= m <= 12 -> 1 <= d <= 31 ->
  match_dBY (tight_date_text y m d) = None.
Proof.
  intros Hy Hm Hd.
  destruct (month_spec m Hm) as (cm & wm & Hmn & Hcm & _).
  destruct (year_spec y Hy) as (c1 & c2 & c3 & c4 & Hys & Hdec & _).
  assert (Hc1 : isspace c1 = false).
  { apply isdecimal_not_space. cbn [forallb] in Hdec.
    apply andb_true_iff in Hdec. tauto. }
  unfold match_dBY.
  change (tight_date_text y m d)
    with (str_of_int d ++ " "%char :: month_name m ++ ","%char :: str_of_int y).
  rewrite re_d_day;
    [|lia|intros c r Hc; unfold re_spaces; cbn [rmatch];
          apply spaces_none, isdecimal_not_space, Hc].
  unfold re_spaces. cbn [rmatch].
  rewrite spaces_one by (rewrite Hmn; exact Hcm).
  rewrite match_month_name by lia.
  change (strip_prefix (lit ",") (","%char :: str_of_int y))
    with (Some (str_of_int y)).
  cbv iota. rewrite Hys. apply spaces_none, Hc1.
Qed.

Lemma new_date_in_range (y m d : Z) :
  1 <= y <= 9999 -> 1 <= m <= 12 -> 1 <= d ->
  new_date y m d
  = if d <=? days_in_month y m
    then Ret (mk_datetime y m d 0 0 0 0)
    else Raise (mk_exn ValueError (lit "day is out of range for month")).
Proof.
  intros Hy Hm Hd. unfold new_date, between.
  destruct (Z.leb_spec 1 y); [|lia]. destruct (Z.leb_spec y 9999); [|lia].
  destruct (Z.leb_spec 1 m); [|lia]. destruct (Z.leb_spec m 12); [|lia].
  destruct (Z.leb_spec 1 d); [|lia]. cbn [andb negb].
  destruct (d <=? days_in_month y m); reflexivity.
Qed.

Lemma strptime_dBY_date (y m d : Z) :
  1000 <= y <= 9999 -> 1 <= m <= 12 -> 1 <= d <= 31 ->
  strptime_dBY (date_text y m d)
  = if d <=? days_in_month y m
    then Ret (mk_datetime y m d 0 0 0 0)
    else Raise (mk_exn ValueError (lit "day is out of range for month")).
Proof.
  intros Hy Hm Hd. unfold strptime_dBY.
  rewrite (match_dBY_date y m d Hy Hm Hd).
  destruct (year_spec y Hy) as (c1 & c2 & c3 & c4 & Hys & _ & Hyi).
  destruct (day_spec d Hd) as (c & w & Hds & Hc & _ & _ & Hdi).
  rewrite Hys, Hds, Hyi. cbn [lstrip].
  rewrite (isdecimal_not_space c Hc), Hdi.
  apply new_date_in_range; lia.
Qed.

Lemma search_group1_shape (pre sp ds ms sep ys post : str) :
  ~ occurs (lit "Submitted") pre ->
  forallb isspace sp = true ->
  forallb isdecimal ds = true -> (1 <= length ds <= 2)%nat ->
  forallb isword ms = true ->
  (exists c w, ms = c :: w /\ isspace c = false) ->
  forallb isspace sep = true ->
  forallb isdecimal ys = true -> length ys = 4%nat ->
  search_group1 date_pattern_head date_pattern_group
    (pre ++ lit "Submitted" ++ sp ++ ds ++ " "%char :: ms ++ ","%char :: sep
     ++ ys ++ post)
  = Some (ds ++ " "%char :: ms ++ ","%char :: sep ++ ys).
Proof.
  intros Hpre Hsp Hds Hlen Hms Hhead Hsep Hys Hlys.
  pose proof (match_group1_shape sp ds ms sep ys post Hsp Hds Hlen Hms Hhead
                Hsep Hys Hlys) as Hmatch.
  revert Hmatch.
  set (rest := sp ++ ds ++ " "%char :: ms ++ ","%char :: sep ++ ys ++ post).
  change (lit "Submitted" ++ rest) with ("S"%char :: lit "ubmitted" ++ rest).
  intros Hmatch.
  rewrite search_group1_skip by exact Hpre.
  cbn [search_group1]. rewrite Hmatch. reflexivity.
Qed.

Lemma search_group1_date (pre sp post : str) (y m d : Z) (sep : str) :
  ~ occurs (lit "Submitted") pre ->
  forallb isspace sp = true ->
  forallb isspace sep = true ->
  1000 <= y <= 9999 -> 1 <= m <= 12 -> 1 <= d <= 31 ->
  search_group1 date_pattern_head date_pattern_group
    (pre ++ lit "Submitted" ++ sp
     ++ str_of_int d ++ " "%char :: month_name m ++ ","%char :: sep
     ++ str_of_int y ++ post)
  = Some (str_of_int d ++ " "%char :: month_name m ++ ","%char :: sep
          ++ str_of_int y).
Proof.
  intros Hpre Hsp Hsep Hy Hm Hd.
  destruct (month_spec m Hm) as (cm & wm & Hmn & Hcm & Hword).
  destruct (year_spec y Hy) as (c1 & c2 & c3 & c4 & Hys & Hdec & _).
  destruct (day_spec d Hd) as (c & w & Hds & Hc & Hw & Hlw & _).
  apply search_group1_shape; auto.
  - rewrite Hds. cbn [forallb]. rewrite Hc, Hw. reflexivity.
  - rewrite Hds. cbn [length]. lia.
  - rewrite Hmn. exact Hword.
  - exists cm, wm. auto.
  - rewrite Hys. exact Hdec.
  - rewrite Hys. reflexivity.
Qed.

(** X13. A result whose date paragraph reads "Submitted", blanks or none,
    and a date written day, month name, comma, blank, year of four
    digits, after text free of "Submitted" and before any text, has that
    date at midnight when the month has such a day, and no date when it
    has not (31 June, 29 February of a common year). *)
Theorem extract_submission_date_reads_dates (result date_info : node)
    (pre sp post : str) (y m d : Z) :
  find_class result (lit "p") (lit "is-size-7") = Some date_info ->
  get_text_strip date_info
  = pre ++ lit "Submitted" ++ sp ++ date_text y m d ++ post ->
  ~ occurs (lit "Submitted") pre ->
  forallb isspace sp = true ->
  1000 <= y <= 9999 -> 1 <= m <= 12 -> 1 <= d <= 31 ->
  extract_submission_date result
  = Ret (if d <=? days_in_month y m
         then Some (mk_datetime y m d 0 0 0 0)
         else None).
Proof.
  intros Hfind Htext Hpre Hsp Hy Hm Hd.
  unfold extract_submission_date. rewrite Hfind, Htext.
  unfold date_text. rewrite <- !app_assoc.
  change (lit " " ++ month_name m ++ lit ", " ++ str_of_int y ++ post)
    with (" "%char :: month_name m ++ ","%char :: lit " " ++ str_of_int y ++ post).
  rewrite (search_group1_date pre sp post y m d (lit " ") Hpre Hsp eq_refl Hy Hm Hd).
  change (str_of_int d ++ " "%char :: month_name m ++ ","%char :: lit " "
          ++ str_of_int y)
    with (date_text y m d).
  rewrite (strptime_dBY_date y m d Hy Hm Hd).
  destruct (d <=? days_in_month y m); reflexivity.
Qed.

Lemma extract_submission_date_reads_dates_witness :
  extract_submission_date
    (listing_entry (lit "29 February, 2024") (lit "/pdf/2402.00001"))
  = Ret (Some (mk_datetime 2024 2 29 0 0 0 0))
  /\ extract_submission_date
       (listing_entry (lit "29 February, 2025") (lit "/pdf/2502.00001"))
     = Ret None.
Proof.
  split.
  - apply (extract_submission_date_reads_dates
             (listing_entry (lit "29 February, 2024") (lit "/pdf/2402.00001"))
             (Tag (lit "p") [lit "is-size-7"] []
                [Tag (lit "span") [] [] [Text (lit "Submitted")];
                 Text (lit " 29 February, 2024; ")])
             [] [] (lit ";") 2024 2 29);
      try reflexivity; try lia.
    intros (p & q & H). destruct p; discriminate H.
  - apply (extract_submission_date_reads_dates
             (listing_entry (lit "29 February, 2025") (lit "/pdf/2502.00001"))
             (Tag (lit "p") [lit "is-size-7"] []
                [Tag (lit "span") [] [] [Text (lit "Submitted")];
                 Text (lit " 29 February, 2025; ")])
             [] [] (lit ";") 2025 2 29);
      try reflexivity; try lia.
    intros (p & q & H). destruct p; discriminate H.
Defined.

(** X14. The pattern of [extract_submission_date] lets the year follow
    the comma at once, the format of [strptime] wants a blank between
    them: a result whose date is written without that blank, as in
    "4 March,2025", has no date. *)
Theorem extract_submission_date_needs_blank (result date_info : node)
    (pre sp post : str) (y m d : Z) :
  find_class result (lit "p") (lit "is-size-7") = Some date_info ->
  get_text_strip date_info
  = pre ++ lit "Submitted" ++ sp ++ tight_date_text y m d ++ post ->
  ~ occurs (lit "Submitted") pre ->
  forallb isspace sp = true ->
  1000 <= y <= 9999 -> 1 <= m <= 12 -> 1 <= d <= 31 ->
  search_group1 date_pattern_head date_pattern_group (get_text_strip date_info)
  = Some (tight_date_text y m d)
  /\ (exists e, strptime_dBY (tight_date_text y m d) = Raise e
                /\ exn_cls e = ValueError)
  /\ extract_submission_date result = Ret None.
Proof.
  intros Hfind Htext Hpre Hsp Hy Hm Hd.
  assert (Hsearch : search_group1 date_pattern_head date_pattern_group
                      (get_text_strip date_info)
                    = Some (tight_date_text y m d)).
  { rewrite Htext. unfold tight_date_text. rewrite <- !app_assoc.
    change (lit " " ++ month_name m ++ lit "," ++ str_of_int y ++ post)
      with (" "%char :: month_name m ++ ","%char :: [] ++ str_of_int y ++ post).
    rewrite (search_group1_date pre sp post y m d [] Hpre Hsp eq_refl Hy Hm Hd).
    reflexivity. }
  assert (Hparse : strptime_dBY (tight_date_text y m d)
                   = Raise (mk_exn ValueError
                              (lit "time data '" ++ tight_date_text y m d
                               ++ lit "' does not match format '%d %B, %Y'"))).
  { unfold strptime_dBY. rewrite (match_dBY_tight y m d Hy Hm Hd). reflexivity. }
  split; [exact Hsearch|]. split; [eauto|].
  unfold extract_submission_date. rewrite Hfind, Hsearch, Hparse. reflexivity.
Qed.

Lemma extract_submission_date_needs_blank_witness :
  extract_submission_date
    (listing_entry (lit "4 March,2025") (lit "/pdf/2503.00001"))
  = Ret None.
Proof.
  apply (extract_submission_date_needs_blank
           (listing_entry (lit "4 March,2025") (lit "/pdf/2503.00001"))
           (Tag (lit "p") [lit "is-size-7"] []
              [Tag (lit "span") [] [] [Text (lit "Submitted")];
               Text (lit " 4 March,2025; ")])
           [] [] (lit ";") 2025 3 4);
    try reflexivity; try lia.
  intros (p & q & H). destruct p; discriminate H.
Defined.

(** ** Dates against the cutoff *)

Lemma extract_submission_date_midnight (result : node) (t : datetime) :
  extract_submission_date result = Ret (Some t) ->
  hour t = 0 /\ minute t = 0 /\ second t = 0 /\ microsecond t = 0.
Proof.
  unfold extract_submission_date.
  destruct (find_class result (lit "p") (lit "is-size-7")); [|discriminate].
  destruct (search_group1 _ _ _) as [date_str|]; [|discriminate].
  destruct (strptime_dBY date_str) as [t'|e] eqn:Hp.
  - intros H. injection H as <-. revert Hp. unfold strptime_dBY.
    destruct (match_dBY date_str) as [[[[d m] y] rest]|]; [|discriminate].
    destruct rest; [|discriminate].
    unfold new_date.
    repeat match goal with
           | |- (if ?c then _ else _) = _ -> _ => destruct c; [discriminate|]
           end.
    intros H. injection H as <-. repeat split.
  - destruct (is_ValueError e); discriminate.
Qed.

(** X15. The dates of the results are at midnight, while the cutoff keeps
    the time of day of the clock.  So a result passes the date filter
    when its day is after the day that lies [days] days before today;
    a result of that very day passes only when the clock was read at
    midnight sharp. *)
Theorem cutoff_day_needs_midnight (now cutoff posted : datetime) (days : Z)
    (result : node) :
  valid_datetime now = true ->
  sub_days now days = Ret cutoff ->
  extract_submission_date result = Ret (Some posted) ->
  (hour cutoff, minute cutoff, second cutoff, microsecond cutoff)
  = (hour now, minute now, second now, microsecond now)
  /\ (retained cutoff result
      <-> ymd2ord (year now) (month now) (day now) - days
          < ymd2ord (year posted) (month posted) (day posted)
          \/ (ymd2ord (year now) (month now) (day now) - days
              = ymd2ord (year posted) (month posted) (day posted)
              /\ hour now = 0 /\ minute now = 0 /\ second now = 0
              /\ microsecond now = 0)).
Proof.
  intros Hnow Hcut Hposted.
  destruct (sub_days_spec now cutoff days Hnow Hcut) as [Hvalid Hstamp].
  pose proof (extract_submission_date_valid result posted Hposted) as Hpv.
  destruct (extract_submission_date_midnight result posted Hposted)
    as (Hh & Hm & Hs & Hu).
  split.
  - revert Hcut. unfold sub_days.
    destruct (999999999 <? Z.abs days); [discriminate|].
    destruct ((0 <? _) && (_ <=? MAXORDINAL)); [|discriminate].
    destruct (ord2ymd _) as [[y m] d].
    intros H. injection H as <-. reflexivity.
  - pose proof (datetime_lt_timeline posted cutoff Hpv Hvalid) as Hlt.
    apply valid_datetime_bounds in Hnow.
    destruct Hnow as (_ & Hnh & Hnm & Hns & Hnu).
    assert (Hkeep : retained cutoff result <-> ~ timestamp posted < timestamp cutoff).
    { unfold retained. split.
      - intros (t & Ht & Hnot). rewrite Hposted in Ht. injection Ht as <-.
        intros Hbefore. apply Hlt in Hbefore. congruence.
      - intros Hnot. exists posted. split; [exact Hposted|].
        destruct (datetime_lt posted cutoff); [|reflexivity].
        exfalso. apply Hnot, Hlt. reflexivity. }
    rewrite Hkeep, Hstamp. unfold timestamp, MICROSECONDS_PER_DAY.
    rewrite Hh, Hm, Hs, Hu. lia.
Qed.

Lemma cutoff_day_needs_midnight_witness :
  retained (mk_datetime 2025 3 3 9 30 0 0)
    (listing_entry (lit "3 March, 2025") (lit "/pdf/2503.00001"))
  <-> False.
Proof.
  destruct (cutoff_day_needs_midnight
              (mk_datetime 2025 3 10 9 30 0 0) (mk_datetime 2025 3 3 9 30 0 0)
              (mk_datetime 2025 3 3 0 0 0 0) 7
              (listing_entry (lit "3 March, 2025") (lit "/pdf/2503.00001"))
              eq_refl eq_refl eq_refl) as [_ Hiff].
  split; [|intros []].
  intros Hkeep. apply Hiff in Hkeep. vm_compute in Hkeep.
  destruct Hkeep as [H | (_ & H & _)]; discriminate H.
Defined.

(** ** Where a run writes *)

Lemma files_served_app (dir : str) (a b : trace) :
  files_served dir a -> files_served dir b -> files_served dir (a ++ b).
Proof.
  intros Ha Hb path data Hin. rewrite requested_app.
  apply in_app_or in Hin. destruct Hin as [Hin|Hin].
  - destruct (Ha path data Hin) as (url & Hurl & Hp).
    exists url. split; [apply in_or_app; left; exact Hurl | exact Hp].
  - destruct (Hb path data Hin) as (url & Hurl & Hp).
    exists url. split; [apply in_or_app; right; exact Hurl | exact Hp].
Qed.

Lemma files_served_no_write (dir : str) (out : trace) :
  (forall path data, ~ In (EvWrite path data) out) -> files_served dir out.
Proof. intros Hno path data Hin. destruct (Hno path data Hin). Qed.

Lemma decision_events_no_write (out : trace) (path data : str) :
  forallb decision_event out = true -> ~ In (EvWrite path data) out.
Proof.
  intros Hev Hin. rewrite forallb_forall in Hev.
  specialize (Hev _ Hin). discriminate Hev.
Qed.

Lemma download_pdf_files (E : env) (url dir : str) (h : trace) :
  files_served dir (snd (download_pdf E url dir h)).
Proof.
  rewrite download_pdf_cases. intros path data.
  destruct (env_get E h url) as [r|e].
  - destruct (raise_for_status r) as [[]|e].
    + destruct (env_write _ _ _ _) as [[]|e]; cbn [snd];
        (intros [H|[H|[H|[]]]]; try discriminate H;
         injection H as <- _; exists url; split; [left|]; reflexivity).
    + cbn [snd]. intros [H|[H|[]]]; discriminate H.
  - cbn [snd]. intros [H|[H|[]]]; discriminate H.
Qed.

Lemma run_pool_files (E : env) (dir : str) (fuel : nat) :
  forall pending h, files_served dir (snd (run_pool E fuel pending dir h)).
Proof.
  induction fuel as [|fuel IH]; intros pending h.
  - destruct pending; intros path data [].
  - destruct pending as [|u pending]; [intros path data []|].
    cbn [run_pool].
    set (l := u :: pending).
    set (i := Nat.modulo (env_pick E h l) (length l)).
    pose proof (download_pdf_files E (nth i l []) dir h) as H1.
    destruct (download_pdf E (nth i l []) dir h) as [r o1]. cbn [snd] in H1.
    pose proof (IH (firstn i l ++ skipn (S i) l) (h ++ o1)) as H2.
    destruct (run_pool E fuel _ dir (h ++ o1)) as [rs o2]. cbn [snd] in *.
    apply files_served_app; assumption.
Qed.

Lemma download_phase_files (E : env) (tasks : list str) (dir : str) (h : trace) :
  files_served dir (snd (download_phase E tasks dir h)).
Proof.
  destruct tasks as [|t tasks]; [intros path data []|].
  unfold download_phase, bind, lift.
  pose proof (run_pool_files E dir (length (t :: tasks)) (t :: tasks) h) as H.
  destruct (run_pool E _ _ dir h) as [[fs|e] o]; cbn [snd] in *.
  - rewrite app_nil_r. exact H.
  - exact H.
Qed.

Lemma process_page_files (E : env) (base : str) (o : Z) (c : datetime)
    (dir : str) (h : trace) :
  files_served dir (snd (process_page E base o c dir h)).
Proof.
  unfold process_page, bind, print, requests_get, lift.
  cbn [app]. rewrite <- !app_assoc. cbn [app].
  destruct (env_get E _ _) as [r|e];
    [|apply files_served_no_write; intros path data [H|[H|[H|[]]]];
      discriminate H].
  destruct (raise_for_status r) as [[]|e];
    [|apply files_served_no_write; intros path data [H|[H|[H|[]]]];
      discriminate H].
  set (results := find_all_class (env_parse E (text r)) (lit "li") (lit "arxiv-result")).
  set (h1 := (h ++ _) ++ _).
  destruct (collect_tasks_spec c results 1 [] h1) as (o1 & H1 & Hev1).
  rewrite H1. cbn [app].
  pose proof (download_phase_files E (flat_map (queued c) results) dir (h1 ++ o1))
    as H2.
  destruct (download_phase E _ dir (h1 ++ o1)) as [r2 o2]. cbn [snd] in *.
  match goal with
  | |- files_served dir (?a :: ?b :: ?g :: ?f :: o1 ++ o2) =>
      change (files_served dir ([a; b; g; f] ++ o1 ++ o2))
  end.
  apply files_served_app; [|apply files_served_app; [|exact H2]].
  - apply files_served_no_write. intros path data [H|[H|[H|[H|[]]]]];
      discriminate H.
  - apply files_served_no_write. intros path data.
    apply decision_events_no_write, Hev1.
Qed.

Lemma process_offsets_files (E : env) (base : str) (c : datetime) (dir : str)
    (offsets : list Z) :
  forall total h,
    files_served dir (snd (process_offsets E base offsets c dir total h)).
Proof.
  induction offsets as [|o offsets IH]; intros total h.
  - intros path data [].
  - cbn [process_offsets]. unfold bind.
    pose proof (process_page_files E base o c dir h) as H1.
    destruct (process_page E base o c dir h) as [[n|e] o1]; cbn [snd] in *.
    + pose proof (IH (total + n) (h ++ o1)) as H2.
      destruct (process_offsets E base offsets c dir (total + n) (h ++ o1))
        as [r2 o2]. cbn [snd] in *.
      apply files_served_app; assumption.
    + exact H1.
Qed.

Lemma download_pdfs_files (E : env) (cfg dir : str) (days : Z)
    (offsets : option (list Z)) (h : trace) :
  files_served dir (snd (download_pdfs E cfg dir days offsets h)).
Proof.
  unfold download_pdfs.
  destruct (load_config_run E cfg h) as [rc Hc].
  unfold bind at 1. rewrite Hc.
  destruct rc as [base|e];
    [|apply files_served_no_write; intros path data [H|[]]; discriminate H].
  unfold bind at 1. unfold makedirs at 1.
  destruct (env_makedirs E (h ++ [EvLoadJson cfg]) dir) as [[]|e];
    [|apply files_served_no_write; intros path data [H|[H|[]]]; discriminate H].
  unfold bind at 1. unfold datetime_now at 1.
  unfold bind at 1. unfold lift at 1.
  rewrite <- !app_assoc. cbn [app].
  destruct (sub_days _ days) as [cutoff|e];
    [|apply files_served_no_write; intros path data [H|[H|[H|[]]]];
      discriminate H].
  unfold bind at 1.
  match goal with
  | |- context [process_offsets E base ?l cutoff dir 0 ?h0] =>
      pose proof (process_offsets_files E base cutoff dir l 0 h0) as Hp;
      destruct (process_offsets E base l cutoff dir 0 h0) as [[n|e] pages]
  end; cbn [snd] in Hp.
  - unfold bind, print, ret. cbn [app snd].
    match goal with
    | |- files_served dir (?a :: ?b :: ?g :: pages ++ ?t) =>
        change (files_served dir ([a; b; g] ++ pages ++ t))
    end.
    apply files_served_app; [|apply files_served_app; [exact Hp|]];
      apply files_served_no_write.
    + intros path data [H|[H|[H|[]]]]; discriminate H.
    + intros path data [H|[]]; discriminate H.
  - cbn [app snd].
    match goal with
    | |- files_served dir (?a :: ?b :: ?g :: ?p) =>
        change (files_served dir ([a; b; g] ++ p))
    end.
    apply files_served_app.
    + apply files_served_no_write.
      intros path data [H|[H|[H|[]]]]; discriminate H.
    + rewrite ?app_nil_r. exact Hp.
Qed.

(** X16. Whatever a run does, and whether it returns or raises, every
    file it writes is a file of the output directory, named after the
    last segment of a URL the run requested, with ".pdf" appended: the
    path is the directory, a slash unless the directory ends in one, and
    that name, which holds no slash. *)
Theorem download_pdfs_writes_in_output_dir (E : env) (cfg dir : str) (days : Z)
    (offsets : option (list Z)) (h : trace) (r : res Z) (out : trace)
    (path data : str) :
  download_pdfs E cfg dir days offsets h = (r, out) ->
  In (EvWrite path data) out ->
  exists url,
    In url (requested out)
    /\ path = dir_prefix dir ++ saved_name url
    /\ saved_name url = last (split "/" url) [] ++ lit ".pdf"
    /\ ~ In "/"%char (saved_name url).
Proof.
  intros Hrun Hin.
  pose proof (download_pdfs_files E cfg dir days offsets h) as Hfiles.
  rewrite Hrun in Hfiles. cbn [snd] in Hfiles.
  destruct (Hfiles path data Hin) as (url & Hurl & ->).
  exists url. split; [exact Hurl|]. split; [apply saved_path_prefix|].
  split; [reflexivity | apply saved_name_no_slash].
Qed.

Lemma download_pdfs_writes_in_output_dir_witness :
  exists url,
    In url
      (requested
         (snd (download_pdfs listing_env (lit "config/url.json") (lit "data") 7
                 None [])))
    /\ lit "data/2503.06000.pdf" = dir_prefix (lit "data") ++ saved_name url
    /\ saved_name url = last (split "/" url) [] ++ lit ".pdf"
    /\ ~ In "/"%char (saved_name url).
Proof.
  apply (download_pdfs_writes_in_output_dir listing_env (lit "config/url.json")
           (lit "data") 7 None []
           (fst (download_pdfs listing_env (lit "config/url.json") (lit "data") 7
                   None []))
           (snd (download_pdfs listing_env (lit "config/url.json") (lit "data") 7
                   None []))
           (lit "data/2503.06000.pdf") (lit "other")).
  - vm_compute. reflexivity.
  - vm_compute. repeat (first [left; reflexivity | right]).
Defined.

(** ** [main] of [main.py] *)

Section OrchestratorFacts.

Variable W : host.
Variables pdf_directory processed_dir api_key output_directory output_name : str.

Let one : host_trace :=
  round pdf_directory processed_dir api_key output_directory output_name.

(** Every run of the loop: some rounds, then a last listing, unless the
    summarizer raised in the last round.  The loop ends on an empty
    listing or when [num_try] has reached [patience]. *)
Lemma summarize_loop_run (fuel : nat) :
  forall num_try h,
    0 <= num_try <= patience ->
    (Z.to_nat (patience - num_try) < fuel)%nat ->
    exists k r tail,
      summarize_loop W fuel num_try pdf_directory processed_dir api_key
        output_directory output_name h
      = (r, rounds k one ++ tail)
      /\ Z.of_nat k <= patience - num_try
      /\ ((r = Done (Some tt)
           /\ tail = [HListdir pdf_directory]
           /\ (Z.of_nat k = patience - num_try
               \/ host_listdir W (h ++ rounds k one) pdf_directory = Done []))
          \/ (exists f,
                 r = Failed f
                 /\ ((tail = [HListdir pdf_directory]
                      /\ host_listdir W (h ++ rounds k one) pdf_directory
                         = Failed f)
                     \/ (tail = []
                         /\ exists k', k = S k'
                            /\ host_summarize W
                                 (h ++ rounds k' one ++ [HListdir pdf_directory])
                                 pdf_directory processed_dir api_key
                                 output_directory output_name
                               = Failed f)))).
Proof.
  induction fuel as [|fuel IH]; intros num_try h Hn Hfuel; [lia|].
  cbn [summarize_loop]. unfold hbind at 1. unfold os_listdir at 1.
  destruct (host_listdir W h pdf_directory) as [listing|f] eqn:Hlist.
  - destruct listing as [|name listing]; cbn [andb].
    + exists O, (Done (Some tt)), [HListdir pdf_directory].
      cbn [rounds app]. rewrite app_nil_r.
      split; [reflexivity|]. split; [lia|]. left. auto.
    + destruct (Z.ltb_spec num_try patience) as [Hlt|Hge].
      * unfold hbind at 1. unfold process_pdfs_in_directory at 1.
        destruct (host_summarize W (h ++ [HListdir pdf_directory]) _ _ _ _ _)
          as [[]|f] eqn:Hsum.
        -- destruct (IH (num_try + 1) ((h ++ [HListdir pdf_directory])
                                          ++ [HSummarize pdf_directory processed_dir
                                                api_key output_directory output_name]))
             as (k & r & tail & Hrun & Hk & Hend); [lia|lia|].
           rewrite Hrun. exists (S k), r, tail.
           assert (Hh : forall k0 rest,
                      ((h ++ [HListdir pdf_directory])
                       ++ [HSummarize pdf_directory processed_dir api_key
                             output_directory output_name]) ++ rounds k0 one ++ rest
                      = h ++ rounds (S k0) one ++ rest).
           { intros k0 rest. cbn [rounds]. unfold one at 2, round.
             rewrite <- !app_assoc. reflexivity. }
           split; [cbn [rounds]; unfold one at 1, round;
                   rewrite <- !app_assoc; reflexivity|].
           split; [lia|].
           destruct Hend as [(-> & -> & Hlast)|(f & -> & Hfail)].
           ++ left. split; [reflexivity|]. split; [reflexivity|].
              destruct Hlast as [Hlast|Hlast]; [left; lia|right].
              rewrite <- Hlast. f_equal.
              rewrite <- (app_nil_r (rounds k one)), Hh, !app_nil_r. reflexivity.
           ++ right. exists f. split; [reflexivity|].
              destruct Hfail as [(-> & Hlast)|(-> & k' & -> & Hlast)].
              ** left. split; [reflexivity|]. rewrite <- Hlast. f_equal.
                 rewrite <- (app_nil_r (rounds k one)), Hh, !app_nil_r. reflexivity.
              ** right. split; [reflexivity|]. exists (S k').
                 split; [reflexivity|]. rewrite <- Hlast. f_equal. symmetry. apply Hh.
        -- exists 1%nat, (Failed f), [].
           split; [reflexivity|]. split; [lia|]. right. exists f.
           split; [reflexivity|]. right. split; [reflexivity|].
           exists O. split; [reflexivity|]. exact Hsum.
      * exists O, (Done (Some tt)), [HListdir pdf_directory].
        cbn [rounds app]. rewrite app_nil_r.
        split; [reflexivity|]. split; [lia|]. left.
        split; [reflexivity|]. split; [reflexivity|]. left. lia.
  - exists O, (Failed f), [HListdir pdf_directory].
    cbn [rounds app]. rewrite app_nil_r.
    split; [reflexivity|]. split; [lia|]. right. exists f.
    split; [reflexivity|]. left. auto.
Qed.

End OrchestratorFacts.

Lemma downloader_events_setup (out : trace) :
  forallb setup_event (map HDownloader out) = true.
Proof. induction out as [|ev out IH]; [reflexivity | exact IH]. Qed.

Ltac main_stops_early :=
  do 2 eexists; split; [reflexivity|]; left; eexists; split; [reflexivity|];
  rewrite ?forallb_app, downloader_events_setup; reflexivity.

(** Every run of [main]: either it fails before the loop, or it reaches
    the loop with the directory [abspath] gave, the first line of the key
    file, the summary directory under the working directory and the name
    made from one reading of the clock, and goes through at most five
    rounds. *)
Lemma main_run (W : host) (h : host_trace) :
  exists r out,
    main W h = (r, out)
    /\ ((exists f, r = Failed f /\ forallb setup_event out = true)
        \/ exists before pdfdir cwd now text key more k tail,
            forallb setup_event before = true
            /\ (exists hist,
                   host_read_text W hist (lit "config/api.txt") = Done text)
            /\ readlines text = key :: more
            /\ out = before
                     ++ rounds k (round pdfdir (lit "data/summarized_pdfs") key
                                    (path_join cwd (lit "summary/"))
                                    (lit "summary-" ++ strftime_Ymd now ++ lit ".txt"))
                     ++ tail
            /\ (k <= 5)%nat
            /\ ((r = Done (Some tt)
                 /\ tail = [HListdir pdfdir]
                 /\ (k = 5%nat
                     \/ host_listdir W
                          ((h ++ before)
                           ++ rounds k (round pdfdir (lit "data/summarized_pdfs") key
                                          (path_join cwd (lit "summary/"))
                                          (lit "summary-" ++ strftime_Ymd now
                                           ++ lit ".txt")))
                          pdfdir = Done []))
                \/ (exists f, r = Failed f
                              /\ (tail = [HListdir pdfdir] \/ tail = [])))).
Proof.
  unfold main. cbv zeta.
  unfold hbind at 1. unfold run_downloader at 1.
  destruct (download_pdfs (host_env W) _ _ 7 None (downloader_history h))
    as [[n|e] od]; [|main_stops_early].
  unfold hbind at 1. unfold os_path_abspath at 1.
  destruct (host_abspath W _ _) as [pdfdir|f]; [|main_stops_early].
  unfold hbind at 1. unfold os_getcwd at 1.
  destruct (host_getcwd W _) as [cwd|f]; [|main_stops_early].
  unfold hbind at 1. unfold os_path_exists at 1.
  set (outdir := path_join cwd (lit "summary/")).
  assert (Hmk : exists (mk : host_trace) (rm : outcome unit),
             (if host_exists W (((h ++ map HDownloader od)
                                 ++ [HAbspath (lit "data/downloaded_pdfs")])
                                ++ [HGetcwd]) outdir
              then hret tt else os_makedirs W outdir)
               ((((h ++ map HDownloader od)
                  ++ [HAbspath (lit "data/downloaded_pdfs")])
                 ++ [HGetcwd]) ++ [HExists outdir])
             = (rm, mk)
             /\ forallb setup_event mk = true).
  { destruct (host_exists W _ outdir).
    - exists [], (Done tt). split; reflexivity.
    - do 2 eexists. split; [reflexivity | reflexivity]. }
  destruct Hmk as (mk & rm & Hmk & Hmkev).
  unfold hbind at 1. rewrite Hmk.
  destruct rm as [[]|f];
    [|do 2 eexists; split; [reflexivity|]; left; eexists; split; [reflexivity|];
      rewrite !forallb_app, downloader_events_setup, Hmkev; reflexivity].
  unfold hbind at 1. unfold host_datetime_now at 1.
  set (hnow := _ ++ mk).
  unfold hbind at 1. unfold read_lines at 1.
  destruct (host_read_text W (hnow ++ [HNow]) (lit "config/api.txt"))
    as [text|f] eqn:Htext;
    [|do 2 eexists; split; [reflexivity|]; left; eexists; split; [reflexivity|];
      rewrite !forallb_app, downloader_events_setup, Hmkev; reflexivity].
  unfold hbind at 1. unfold hlift at 1.
  destruct (readlines text) as [|key more] eqn:Hlines;
    [do 2 eexists; split; [reflexivity|]; left; eexists; split; [reflexivity|];
     rewrite !forallb_app, downloader_events_setup, Hmkev; reflexivity|].
  rewrite app_nil_r.
  set (hloop := (hnow ++ [HNow]) ++ [HReadText (lit "config/api.txt")]).
  destruct (summarize_loop_run W pdfdir (lit "data/summarized_pdfs") key outdir
              (lit "summary-" ++ strftime_Ymd (host_now W hnow) ++ lit ".txt")
              6 0 hloop ltac:(unfold patience; lia) ltac:(unfold patience; lia))
    as (k & r & tail & Hrun & Hk & Hend).
  rewrite Hrun. do 2 eexists. split; [reflexivity|]. right.
  exists (map HDownloader od
          ++ [HAbspath (lit "data/downloaded_pdfs")] ++ [HGetcwd]
          ++ [HExists outdir] ++ mk ++ [HNow]
          ++ [HReadText (lit "config/api.txt")]),
    pdfdir, cwd, (host_now W hnow), text, key, more, k, tail.
  split; [rewrite !forallb_app, downloader_events_setup, Hmkev; reflexivity|].
  split; [eauto|]. split; [exact Hlines|].
  split; [repeat (progress (rewrite <- ?app_assoc; cbn [app])); reflexivity|].
  split; [unfold patience in Hk; lia|].
  assert (Hh : hloop
               = h ++ map HDownloader od
                 ++ [HAbspath (lit "data/downloaded_pdfs")] ++ [HGetcwd]
                 ++ [HExists outdir] ++ mk ++ [HNow]
                 ++ [HReadText (lit "config/api.txt")]).
  { unfold hloop, hnow. rewrite <- !app_assoc. reflexivity. }
  destruct Hend as [(-> & -> & Hlast)|(f & -> & Hfail)].
  - left. split; [reflexivity|]. split; [reflexivity|].
    destruct Hlast as [Hlast|Hlast]; [left; unfold patience in Hlast; lia|right].
    rewrite <- Hh. exact Hlast.
  - right. exists f. split; [reflexivity|].
    destruct Hfail as [(-> & _)|(-> & _)]; auto.
Qed.

Lemma summarizer_calls_app (a b : host_trace) :
  summarizer_calls (a ++ b) = summarizer_calls a ++ summarizer_calls b.
Proof. apply flat_map_app. Qed.

Lemma setup_events_no_call (out : host_trace) :
  forallb setup_event out = true -> summarizer_calls out = [].
Proof.
  induction out as [|ev out IH]; [reflexivity|].
  cbn [forallb]. rewrite andb_true_iff. intros [Hev Hout].
  destruct ev; try discriminate Hev; exact (IH Hout).
Qed.

Lemma summarizer_calls_rounds (k : nat) (a b c d e : str) :
  summarizer_calls (rounds k (round a b c d e)) = repeat (a, b, c, d, e) k.
Proof.
  induction k as [|k IH]; [reflexivity|].
  cbn [rounds repeat]. rewrite summarizer_calls_app, IH. reflexivity.
Qed.

(** X17. A run of [main] calls the summarizer at most five times, each
    time with the same arguments and right after listing the download
    directory, and after everything else it does.  It stops listing and
    calling when a listing is empty, when five calls were made, or when a
    call or a listing raises; when it returns, it has listed the
    directory once more than it has called the summarizer. *)
Theorem main_summarizes_at_most_five_times (W : host) (h : host_trace)
    (r : outcome (option unit)) (out : host_trace) :
  main W h = (r, out) ->
  r <> Done None
  /\ exists before k pdfdir processed key outdir name tail,
      out = before ++ rounds k (round pdfdir processed key outdir name) ++ tail
      /\ forallb setup_event before = true
      /\ (k <= 5)%nat
      /\ summarizer_calls out = repeat (pdfdir, processed, key, outdir, name) k
      /\ (tail = [] \/ tail = [HListdir pdfdir])
      /\ (r = Done (Some tt) ->
          tail = [HListdir pdfdir]
          /\ (k = 5%nat
              \/ host_listdir W
                   ((h ++ before)
                    ++ rounds k (round pdfdir processed key outdir name))
                   pdfdir = Done [])).
Proof.
  intros Hrun.
  destruct (main_run W h) as (r' & out' & Hrun' & Hcases).
  rewrite Hrun in Hrun'. injection Hrun' as <- <-.
  destruct Hcases as [(f & -> & Hev)|Hloop].
  - split; [discriminate|].
    exists out, O, [], [], [], [], [], [].
    cbn [rounds app repeat]. rewrite app_nil_r.
    split; [reflexivity|]. split; [exact Hev|]. split; [lia|].
    split; [apply setup_events_no_call, Hev|]. split; [left; reflexivity|].
    discriminate.
  - destruct Hloop as (before & pdfdir & cwd & now & text & key & more & k & tail
                       & Hev & _ & _ & -> & Hk & Hend).
    split; [destruct Hend as [(-> & _)|(f & -> & _)]; discriminate|].
    exists before, k, pdfdir, (lit "data/summarized_pdfs"), key,
      (path_join cwd (lit "summary/")),
      (lit "summary-" ++ strftime_Ymd now ++ lit ".txt"), tail.
    split; [reflexivity|]. split; [exact Hev|]. split; [exact Hk|].
    assert (Htail : tail = [] \/ tail = [HListdir pdfdir]).
    { destruct Hend as [(_ & -> & _)|(f & _ & [-> | ->])]; auto. }
    split; [|split; [exact Htail|]].
    + rewrite !summarizer_calls_app, (setup_events_no_call before Hev),
        summarizer_calls_rounds.
      destruct Htail as [-> | ->]; cbn [summarizer_calls flat_map app];
        rewrite app_nil_r; reflexivity.
    + intros ->. destruct Hend as [(_ & -> & Hlast)|(f & Hf & _)];
        [|discriminate].
      split; [reflexivity | exact Hlast].
Qed.

Lemma main_summarizes_at_most_five_times_witness :
  fst (main sample_host []) <> Done None
  /\ exists before k pdfdir processed key outdir name tail,
      snd (main sample_host [])
      = before ++ rounds k (round pdfdir processed key outdir name) ++ tail
      /\ forallb setup_event before = true
      /\ (k <= 5)%nat
      /\ summarizer_calls (snd (main sample_host []))
         = repeat (pdfdir, processed, key, outdir, name) k
      /\ (tail = [] \/ tail = [HListdir pdfdir])
      /\ (fst (main sample_host []) = Done (Some tt) ->
          tail = [HListdir pdfdir]
          /\ (k = 5%nat
              \/ host_listdir sample_host
                   (([] ++ before)
                    ++ rounds k (round pdfdir processed key outdir name))
                   pdfdir = Done [])).
Proof.
  apply (main_summarizes_at_most_five_times sample_host []
           (fst (main sample_host [])) (snd (main sample_host []))).
  vm_compute. reflexivity.
Defined.

(** X18. When the downloader raises, [main] raises the same and has done
    nothing besides: no directory looked up or made, no key read, no
    listing, no call of the summarizer. *)
Theorem main_stops_when_download_fails (W : host) (h : host_trace) (e : exn)
    (od : trace) :
  download_pdfs (host_env W) (lit "config/url.json") (lit "data/downloaded_pdfs")
    7 None (downloader_history h) = (Raise e, od) ->
  main W h = (Failed (Raised e), map HDownloader od)
  /\ summarizer_calls (map HDownloader od) = []
  /\ listings (map HDownloader od) = [].
Proof.
  intros Hdown. split; [|split].
  - unfold main. cbv zeta. unfold hbind at 1. unfold run_downloader at 1.
    rewrite Hdown. reflexivity.
  - apply setup_events_no_call, downloader_events_setup.
  - clear Hdown. induction od as [|ev od IH]; [reflexivity | exact IH].
Qed.

Lemma main_stops_when_download_fails_witness :
  exists e od,
    main offline_host [] = (Failed (Raised e), map HDownloader od)
    /\ exn_cls e = RequestException.
Proof.
  exists connection_error.
  exists (snd (download_pdfs (host_env offline_host) (lit "config/url.json")
                 (lit "data/downloaded_pdfs") 7 None [])).
  split; [|reflexivity].
  apply (main_stops_when_download_fails offline_host [] connection_error).
  reflexivity.
Defined.

Lemma readlines_nil (text : str) : readlines text = [] -> text = [].
Proof.
  destruct text as [|c rest]; [reflexivity|]. cbn [readlines].
  destruct (ascii_eqb c newline); [discriminate|].
  destruct (readlines rest); discriminate.
Qed.

(** The first line [readlines] gives: the text up to its first line
    ending, that ending included, or the whole text when it has none. *)
Lemma readlines_first (text : str) :
  forall key more,
    readlines text = key :: more ->
    (exists rest, text = key ++ rest)
    /\ ((exists line, key = line ++ [newline] /\ ~ In newline line)
        \/ (key = text /\ ~ In newline text))
    /\ key <> [].
Proof.
  induction text as [|c rest IH]; intros key more; [discriminate|].
  cbn [readlines]. destruct (ascii_eqb c newline) eqn:Hc.
  - apply ascii_eqb_eq in Hc. subst c. intros H. injection H as <- _.
    split; [exists rest; reflexivity|].
    split; [left; exists []; split; [reflexivity | intros []] | discriminate].
  - assert (Hneq : newline <> c).
    { intros <-. rewrite ascii_eqb_refl in Hc. discriminate. }
    destruct (readlines rest) as [|l ls] eqn:Hrest.
    + apply readlines_nil in Hrest. subst rest.
      intros H. injection H as <- _.
      split; [exists []; reflexivity|].
      split; [right; split; [reflexivity | intros [H|[]]; congruence]
             | discriminate].
    + intros H. injection H as <- _.
      destruct (IH l ls eq_refl) as ((rest' & Hsplit) & Hshape & _).
      split; [exists rest'; cbn [app]; f_equal; exact Hsplit|].
      split; [|discriminate].
      destruct Hshape as [(line & -> & Hline)|(-> & Hno)].
      * left. exists (c :: line). split; [reflexivity|].
        intros [H|H]; [congruence | exact (Hline H)].
      * right. split; [reflexivity|]. intros [H|H]; [congruence | exact (Hno H)].
Qed.

(** X19. The key [main] hands to the summarizer is the first line of the
    key file as [readlines] gives it: the text of the file up to its
    first line ending, the line ending included, or the whole text when
    it has no line ending.  The other arguments are the directory
    "data/summarized_pdfs", the directory "summary/" under a working
    directory, and a name that starts with "summary-" and ends in
    ".txt". *)
Theorem main_key_keeps_line_ending (W : host) (h : host_trace)
    (r : outcome (option unit)) (out : host_trace)
    (pdfdir processed key outdir name : str) :
  main W h = (r, out) ->
  In (pdfdir, processed, key, outdir, name) (summarizer_calls out) ->
  (exists hist text rest,
      host_read_text W hist (lit "config/api.txt") = Done text
      /\ text = key ++ rest
      /\ ((exists line, key = line ++ [newline] /\ ~ In newline line)
          \/ (key = text /\ ~ In newline text))
      /\ key <> [])
  /\ processed = lit "data/summarized_pdfs"
  /\ (exists cwd, outdir = path_join cwd (lit "summary/"))
  /\ (exists now, name = lit "summary-" ++ strftime_Ymd now ++ lit ".txt").
Proof.
  intros Hrun Hin.
  destruct (main_run W h) as (r' & out' & Hrun' & Hcases).
  rewrite Hrun in Hrun'. injection Hrun' as <- <-.
  destruct Hcases as [(f & -> & Hev)|Hloop].
  - rewrite (setup_events_no_call out Hev) in Hin. destruct Hin.
  - destruct Hloop as (before & pd & cwd & now & text & key' & more & k & tail
                       & Hev & (hist & Hread) & Hlines & -> & _ & Hend).
    assert (Htail : summarizer_calls tail = []).
    { destruct Hend as [(_ & -> & _)|(f & _ & [-> | ->])]; reflexivity. }
    rewrite !summarizer_calls_app, (setup_events_no_call before Hev),
      summarizer_calls_rounds, Htail, app_nil_r in Hin.
    cbn [app] in Hin. apply repeat_spec in Hin.
    injection Hin as -> -> -> -> ->.
    destruct (readlines_first text key' more Hlines) as ((rest & Htext) & Hshape & Hne).
    split; [exists hist, text, rest; auto|].
    split; [reflexivity|].
    split; [exists cwd; reflexivity | exists now; reflexivity].
Qed.

Lemma main_key_keeps_line_ending_witness :
  exists hist text rest,
    host_read_text sample_host hist (lit "config/api.txt") = Done text
    /\ text = (lit "sk-0123" ++ [newline]) ++ rest
    /\ ((exists line, lit "sk-0123" ++ [newline] = line ++ [newline]
                      /\ ~ In newline line)
        \/ (lit "sk-0123" ++ [newline] = text /\ ~ In newline text))
    /\ lit "sk-0123" ++ [newline] <> [].
Proof.
  apply (main_key_keeps_line_ending sample_host []
           (fst (main sample_host [])) (snd (main sample_host []))
           (lit "/home/user/data/downloaded_pdfs") (lit "data/summarized_pdfs")
           (lit "sk-0123" ++ [newline]) (lit "/home/user/summary/")
           (lit "summary-2025-03-10.txt")).
  - vm_compute. reflexivity.
  - vm_compute. left. reflexivity.
Defined.
